(** * Surge and resource forecasting engine of eco-health-ai

    A shallow embedding of the numeric core of the repository:

    - [SurgePredictor.predict]                 (models/surge_predictor.py)
    - [calculate_admission_breakdown]          (scripts/continuous_surge_monitor.py)
    - [ResourceService.calculate_supply_needs] (services/resource_service.py,
                                                services/resource_mappings.py)
    - [ResourceRecommendationAgent]            (agent/resource_recommendation_agent.py)
    - one day of [predict_for_all_hospitals]   (scripts/continuous_surge_monitor.py)
    - [ResourceService._load_inventory] and
      [ResourceService.get_recommendations]    (services/resource_service.py)
    - [RecommendationEngine._classify_surge_level]
                                               (agent/recommendation_engine.py,
                                                config.py)

    Left out: what goes through pandas, the file system, the clock, the
    network services and the text generator.  Their results enter as
    arguments (the AQI reading, the weather of the day, the events, the
    baseline, the parsed inventory array, the surge data).

    Number model.  Python [int] is [Z].  Python [float] is modelled by the
    exact rationals [Q]: every finite binary64 value is a rational, the
    decimal literals of the source ([0.15], [1.7], ...) denote the rational
    they spell, and [+ - * /] are exact.  The rounding error of binary64
    arithmetic is therefore not part of the model; [int()] is truncation
    toward zero and [round(x, n)] is rounding to the nearest multiple of
    [10^-n], ties to even.  Equality of floats is [Qeq] ([==]).  The
    concrete evaluations at which the code departs from its specification
    are replayed in binary64 at the end.

    Dictionaries.  A dictionary that the code only looks up
    ([d.get(k, default)], [d[k]]) is a [gmap]; a dictionary that the code
    iterates over or builds key by key is an insertion-ordered association
    list ([PyDict]), because the order of iteration decides the order of
    the output. *)

From Stdlib Require Import ZArith QArith Qround Qabs Lia Lqa List Sorting.Permutation.
From Stdlib Require Import Sorting.Sorted.
From Stdlib Require Import Floats Ascii.
From stdpp Require Import base strings gmap.

Open Scope Z_scope.
Open Scope Q_scope.

(** ** Python numerics *)

Module PyNum.

(** [int(x)] on a float: truncation toward zero. *)
Definition py_int (x : Q) : Z := Z.quot (Qnum x) (Z.pos (Qden x)).

(** [int -> float] coercion in mixed arithmetic. *)
Definition of_int (n : Z) : Q := inject_Z n.

(** Nearest integer, ties to even. *)
Definition round_half_even (x : Q) : Z :=
  let f := Qfloor x in
  let r := x - inject_Z f in
  match Qcompare r (1 # 2) with
  | Lt => f
  | Gt => (f + 1)%Z
  | Eq => if Z.even f then f else (f + 1)%Z
  end.

(** [round(x, ndigits)] for a float [x]. *)
Definition py_round (x : Q) (ndigits : nat) : Q :=
  let s := inject_Z (10 ^ Z.of_nat ndigits) in
  inject_Z (round_half_even (x * s)) / s.

(** [max(a, b)] and [min(a, b)] on floats. *)
Definition qmax (a b : Q) : Q := if Qle_bool a b then b else a.
Definition qmin (a b : Q) : Q := if Qle_bool a b then a else b.

(** Strict comparison [a > b] as a boolean. *)
Definition qgtb (a b : Q) : bool := negb (Qle_bool a b).
Definition qltb (a b : Q) : bool := negb (Qle_bool b a).
Definition qgeb (a b : Q) : bool := Qle_bool b a.

(** [sum(xs)] and [numpy.mean(xs)]. *)
Definition qsum (xs : list Q) : Q := fold_left Qplus xs 0.
Definition np_mean (xs : list Q) : Q := qsum xs / inject_Z (Z.of_nat (length xs)).

End PyNum.
Import PyNum.

(** ** Binary64

    The arithmetic of Python's [float]: IEEE 754 binary64, round to
    nearest even. *)

Module Binary64.

(** [float(n)]. *)
Definition of_int (n : Z) : float :=
  SF2Prim (binary_normalize prec emax n 0 false).

(** [int(x)] for a finite [x]: truncation toward zero. *)
Definition to_int (x : float) : Z :=
  match Prim2SF x with
  | S754_finite s m e =>
      let magnitude :=
        if (0 <=? e)%Z then (Z.pos m * 2 ^ e)%Z else (Z.pos m / 2 ^ (- e))%Z in
      if s then (- magnitude)%Z else magnitude
  | _ => 0%Z
  end.

(** [max(0, x)]. *)
Definition max0 (x : float) : float :=
  if PrimFloat.ltb 0%float x then x else 0%float.

End Binary64.

(** ** Admission decomposer (scripts/continuous_surge_monitor.py) *)

Record Breakdown := mkBreakdown {
  respiratory : Z;
  waterborne  : Z;
  heat        : Z;
  trauma      : Z;
  other       : Z
}.

(** [weather.get(key, default)]. *)
Definition weather_get (weather : gmap string Q) (key : string) (dflt : Q) : Q :=
  default dflt (weather !! key).

(** Truthiness of a list: [if events:]. *)
Definition truthy {A} (l : list A) : bool :=
  match l with [] => false | _ => true end.

Definition calculate_admission_breakdown
    (total_admissions : Z) (aqi : Q) (weather : gmap string Q)
    (events : list string) : Breakdown :=
  let respiratory_pct := 15 # 100 in
  let waterborne_pct := 10 # 100 in
  let heat_pct := 5 # 100 in
  let trauma_pct := 20 # 100 in
  let respiratory_pct :=
    if qgtb aqi 200 then respiratory_pct + (10 # 100) else respiratory_pct in
  let waterborne_pct :=
    if qgtb (weather_get weather "rainfall" 0) 30
    then waterborne_pct + (10 # 100) else waterborne_pct in
  let heat_pct :=
    if qgtb (weather_get weather "max_temp" 0) 35
    then heat_pct + (8 # 100) else heat_pct in
  let trauma_pct :=
    if truthy events then trauma_pct + (12 # 100) else trauma_pct in
  let total_pct := respiratory_pct + waterborne_pct + heat_pct + trauma_pct in
  let other_pct := qmax 0 (1 - total_pct) in
  {| respiratory := py_int (of_int total_admissions * respiratory_pct);
     waterborne  := py_int (of_int total_admissions * waterborne_pct);
     heat        := py_int (of_int total_admissions * heat_pct);
     trauma      := py_int (of_int total_admissions * trauma_pct);
     other       := py_int (of_int total_admissions * other_pct) |}.

Definition breakdown_sum (b : Breakdown) : Z :=
  (respiratory b + waterborne b + heat b + trauma b + other b)%Z.

(** ** Surge multiplier calculator (models/surge_predictor.py) *)

Inductive Severity := none | minor | moderate | major | critical.

(** The entries appended to [risk_factors].  The source formats each as a
    label with the number that raised it (an f-string); the constructor
    keeps the label and the number apart. *)
Inductive RiskFactor :=
| SevereAQI (aqi : Q)
| VeryPoorAQI (aqi : Q)
| PoorAQI (aqi : Q)
| HeavyRainfall (rainfall : Q)
| ExtremeHeat (max_temp : Q)
| MajorFestival (event : string).

(** The numeric part of the dictionary returned by [predict].  The
    narrative comes from an external text generator and feeds into no
    other field. *)
Record Prediction := mkPrediction {
  multiplier   : Q;
  severity     : Severity;
  risk_factors : list RiskFactor
}.

Module SurgePredictor.

(** The running pair [(multiplier, risk_factors)] mutated by [predict]. *)
Definition Acc : Type := Q * list RiskFactor.

(** 1. AQI factor. *)
Definition aqi_factor (aqi : Q) (acc : Acc) : Acc :=
  let '(m, rf) := acc in
  if qgtb aqi 400 then (m + (5 # 10), rf ++ [SevereAQI aqi])
  else if qgtb aqi 300 then (m + (2 # 10), rf ++ [VeryPoorAQI aqi])
  else if qgtb aqi 200 then (m + (1 # 10), rf ++ [PoorAQI aqi])
  else (m, rf).

(** 2. Weather factor. *)
Definition rainfall_factor (rainfall : Q) (acc : Acc) : Acc :=
  let '(m, rf) := acc in
  if qgtb rainfall 50 then (m + (3 # 10), rf ++ [HeavyRainfall rainfall])
  else if qgtb rainfall 10 then (m + (1 # 10), rf)
  else (m, rf).

Definition heat_factor (max_temp : Q) (acc : Acc) : Acc :=
  let '(m, rf) := acc in
  if qgtb max_temp 36 then (m + (2 # 10), rf ++ [ExtremeHeat max_temp])
  else (m, rf).

(** 3. Event factor: the body of [for event in events]. *)
Definition event_factor (acc : Acc) (event : string) : Acc :=
  let '(m, rf) := acc in
  if bool_decide (event ∈ ["Diwali"; "Ganesh Chaturthi"])
  then (m + (3 # 10), rf ++ [MajorFestival event])
  else if bool_decide (event = "Monsoon Season")
  then (m + (1 # 10), rf)
  else (m, rf).

(** Determine severity. *)
Definition severity_of (m : Q) : Severity :=
  if qgeb m 2 then critical
  else if qgeb m (17 # 10) then major
  else if qgeb m (14 # 10) then moderate
  else if qgeb m (12 # 10) then minor
  else none.

(** The accumulated multiplier and risk factors before rounding. *)
Definition accumulate (aqi : Q) (weather : gmap string Q)
    (events : list string) : Acc :=
  let acc := (1, []) in
  let acc := aqi_factor aqi acc in
  let max_temp := weather_get weather "max_temp" 0 in
  let rainfall := weather_get weather "rainfall" 0 in
  let acc := rainfall_factor rainfall acc in
  let acc := heat_factor max_temp acc in
  fold_left event_factor events acc.

Definition predict (date_str : string) (aqi : Q) (weather : gmap string Q)
    (events : list string) : Prediction :=
  let '(m, rf) := accumulate aqi weather events in
  {| multiplier := py_round m 2;
     severity := severity_of m;
     risk_factors := rf |}.

End SurgePredictor.

(** The tier table as the specification words it, on the final
    multiplier. *)
Definition spec_severity_tier (m : Q) : Severity :=
  if qltb m (12 # 10) then none
  else if qltb m (14 # 10) then minor
  else if qltb m (17 # 10) then moderate
  else if qltb m 2 then major
  else critical.

(** ** Supply procurement planner of the resource service
       (services/resource_service.py, services/resource_mappings.py) *)

Module ResourceMappings.

(** One row of [SUPPLY_REQUIREMENTS]: per-patient rate by category. *)
Definition rates (r w h t o : Q) : gmap string Q :=
  list_to_map
    [("respiratory", r); ("waterborne", w); ("heat_related", h);
     ("trauma", t); ("other", o)].

Definition SUPPLY_REQUIREMENTS : list (string * gmap string Q) :=
  [ ("Oxygen Cylinders",  rates (3 # 10) (5 # 100) (2 # 10) (3 # 10) (25 # 100));
    ("Ventilators",       rates (1 # 10) (2 # 100) (5 # 100) (15 # 100) (8 # 100));
    ("Oxygen Masks",      rates 2 (5 # 10) (15 # 10) 2 (15 # 10));
    ("Humidifiers",       rates (3 # 10) (5 # 100) (1 # 10) (2 # 10) (15 # 100));
    ("Trauma Stretchers", rates (1 # 10) (5 # 100) (2 # 10) 1 (15 # 100));
    ("IV Stand Kits",     rates (6 # 10) (8 # 10) (9 # 10) (95 # 100) (7 # 10));
    ("Defibrillators",    rates (2 # 100) (1 # 100) (5 # 100) (8 # 100) (15 # 100));
    ("Gloves/PPE",        rates 25 20 12 30 15);
    ("Cooling Pads",      rates 2 1 15 3 2);
    ("Thermometers",      rates (5 # 10) (3 # 10) (6 # 10) (4 # 10) (4 # 10)) ].

Definition SAFETY_BUFFERS : gmap string Q :=
  list_to_map [("Municipal", 30 # 100); ("Private", 20 # 100)].

End ResourceMappings.

Inductive Status := CRITICAL | LOW | OK.
Inductive Action := ORDER_IMMEDIATELY | NoAction.

(** An entry of [inventory_data], as [_load_inventory] builds it. *)
Record HospitalInfo := mkHospitalInfo {
  info_name : string;
  info_type : string;
  inventory : gmap string Z
}.

Module ResourceService.
Import ResourceMappings.

(** An element of [supplies_status]. *)
Record SupplyStatus := mkSupplyStatus {
  item_name         : string;
  current_stock     : Z;
  projected_need    : Z;
  stock_percentage  : Q;
  status            : Status;
  action_required   : Action;
  quantity_to_order : Z
}.

Definition categories : list string :=
  ["respiratory"; "waterborne"; "heat_related"; "trauma"; "other"].

(** [hospital_info.get('type', 'Private')] with
    [hospital_info = inventory_data.get(hospital_id, {})]. *)
Definition hospital_type (inventory_data : gmap string HospitalInfo)
    (hospital_id : string) : string :=
  match inventory_data !! hospital_id with
  | Some info => info_type info
  | None => "Private"
  end.

Definition current_inventory (inventory_data : gmap string HospitalInfo)
    (hospital_id : string) : gmap string Z :=
  match inventory_data !! hospital_id with
  | Some info => inventory info
  | None => ∅
  end.

Definition safety_buffer (hospital_type : string) : Q :=
  1 + default (2 # 10) (SAFETY_BUFFERS !! hospital_type).

Definition base_need (admissions : gmap string Z)
    (requirements : gmap string Q) : Q :=
  qsum (map (fun category =>
               of_int (default 0%Z (admissions !! category))
               * default 0 (requirements !! category))
            categories).

(** [stock_percentage] before it is rounded for display. *)
Definition stock_percentage_of (current_stock projected_need : Z) : Q :=
  if (0 <? projected_need)%Z
  then of_int current_stock / of_int projected_need * 100
  else 100.

Definition classify (stock_percentage : Q) : Status * Action :=
  if qltb stock_percentage 50 then (CRITICAL, ORDER_IMMEDIATELY)
  else if qltb stock_percentage 80 then (LOW, ORDER_IMMEDIATELY)
  else (OK, NoAction).

(** The body of the loop over [SUPPLY_REQUIREMENTS.items()]. *)
Definition supply_status (safety_buffer : Q) (current_inventory : gmap string Z)
    (admissions : gmap string Z) (entry : string * gmap string Q)
    : SupplyStatus :=
  let '(supply_name, requirements) := entry in
  let base_need := base_need admissions requirements in
  let projected_need := py_int (base_need * safety_buffer) in
  let current_stock := default 0%Z (current_inventory !! supply_name) in
  let stock_percentage := stock_percentage_of current_stock projected_need in
  let '(status, action) := classify stock_percentage in
  let quantity_to_order := Z.max 0 (projected_need - current_stock) in
  {| item_name := supply_name;
     current_stock := current_stock;
     projected_need := projected_need;
     stock_percentage := py_round stock_percentage 1;
     status := status;
     action_required := action;
     quantity_to_order := quantity_to_order |}.

Definition calculate_supply_needs (inventory_data : gmap string HospitalInfo)
    (hospital_id : string) (admissions : gmap string Z) : list SupplyStatus :=
  let hospital_type := hospital_type inventory_data hospital_id in
  let safety_buffer := safety_buffer hospital_type in
  let current_inventory := current_inventory inventory_data hospital_id in
  map (supply_status safety_buffer current_inventory admissions)
      SUPPLY_REQUIREMENTS.

End ResourceService.

(** The classification as the specification words it: below 50%,
    from 50% up to 80%, above 80%. *)
Definition spec_status (coverage : Q) : Status * Action :=
  if qltb coverage 50 then (CRITICAL, ORDER_IMMEDIATELY)
  else if Qle_bool coverage 80 then (LOW, ORDER_IMMEDIATELY)
  else (OK, NoAction).

(** ** Insertion-ordered dictionaries

    A Python [dict] that is iterated: an association list in insertion
    order with unique keys.  [set] overwrites in place or appends. *)

Module PyDict.
Section Dict.
Context {K V : Type} `{EqDecision K}.

Fixpoint get (d : list (K * V)) (k : K) : option V :=
  match d with
  | [] => None
  | (k', v) :: d' => if decide (k = k') then Some v else get d' k
  end.

(** [d[k] = v]. *)
Fixpoint set (d : list (K * V)) (k : K) (v : V) : list (K * V) :=
  match d with
  | [] => [(k, v)]
  | (k', v') :: d' =>
      if decide (k = k') then (k, v) :: d' else (k', v') :: set d' k v
  end.

(** [d.get(k, dflt)]. *)
Definition get_default (d : list (K * V)) (k : K) (dflt : V) : V :=
  default dflt (get d k).

(** [k in d]. *)
Definition mem (d : list (K * V)) (k : K) : bool :=
  match get d k with Some _ => true | None => false end.

Definition keys (d : list (K * V)) : list K := map fst d.
Definition values (d : list (K * V)) : list V := map snd d.

(** Well-formed dictionary: no key twice. *)
Definition wf (d : list (K * V)) : Prop := List.NoDup (keys d).

End Dict.
End PyDict.

(** ** Resource recommendation agent
       (agent/resource_recommendation_agent.py) *)

(** What a call of the agent can do besides returning: raise [KeyError]. *)
Inductive result (A : Type) :=
| Ok (a : A)
| KeyError (key : string).
Arguments Ok {A} a.
Arguments KeyError {A} key.

#[global] Instance result_ret : MRet result := fun A a => Ok a.
#[global] Instance result_bind : MBind result := fun A B f r =>
  match r with
  | Ok a => f a
  | KeyError k => KeyError k
  end.

(** [d[key]] on a dictionary that is only looked up. *)
Definition subscript {V} (d : gmap string V) (key : string) : result V :=
  match d !! key with
  | Some v => Ok v
  | None => KeyError key
  end.

(** A [for] loop whose body may raise. *)
Fixpoint for_each {A S} (body : S -> A -> result S) (l : list A) (s : S)
    : result S :=
  match l with
  | [] => Ok s
  | a :: l' => s' ← body s a; for_each body l' s'
  end.

Module Agent.

(** The attributes [__init__] sets. *)
Record t := mk {
  lead_times : gmap string Z;
  inventory_buffer : Q
}.

Definition init : t :=
  {| lead_times :=
       list_to_map
         [("doctors", 0%Z); ("nurses", 0%Z); ("support_staff", 1%Z);
          ("ppe_kits", 2%Z); ("oxygen_liters", 1%Z); ("iv_fluids_ml", 2%Z);
          ("medications_units", 3%Z); ("bed_linens", 1%Z)];
     inventory_buffer := 15 # 100 |}.

Definition clinical_criticality_table : gmap string Q :=
  list_to_map
    [("doctors", 1); ("nurses", 1); ("oxygen_liters", 95 # 100);
     ("medications_units", 9 # 10); ("ppe_kits", 85 # 100);
     ("iv_fluids_ml", 85 # 100); ("beds_needed", 8 # 10);
     ("support_staff", 75 # 100); ("bed_linens", 6 # 10)].

Definition shortage_ratio (current_stock required : Z) : Q :=
  if (0 <? required)%Z
  then qmax 0 (of_int (required - current_stock) / of_int required)
  else 0.

Definition time_urgency (self : t) (resource_type : string)
    (days_until_surge : Z) : Q :=
  let lead_time := default 0%Z (lead_times self !! resource_type) in
  if (days_until_surge <=? lead_time)%Z then 1
  else qmax 0 (1 - of_int (days_until_surge - lead_time) / 7).

Definition clinical_criticality (resource_type : string) : Q :=
  default (5 # 10) (clinical_criticality_table !! resource_type).

Definition calculate_resource_priority (self : t) (resource_type : string)
    (current_stock required days_until_surge : Z) : Q :=
  let shortage_ratio := shortage_ratio current_stock required in
  let time_urgency := time_urgency self resource_type days_until_surge in
  let clinical_criticality := clinical_criticality resource_type in
  let priority := 100 * shortage_ratio * time_urgency * clinical_criticality in
  qmin 100 priority.

Record StaffAllocation := mkStaffAllocation {
  staff_required  : Z;
  staff_available : Z;
  to_deploy       : Z;
  coverage        : Q
}.

Definition staff_allocation (required_staff available_staff : gmap string Z)
    (staff_type : string) : string * StaffAllocation :=
  let required := default 0%Z (required_staff !! staff_type) in
  let available := default 0%Z (available_staff !! staff_type) in
  let shortage := Z.max 0 (required - available) in
  (staff_type,
   {| staff_required := required;
      staff_available := available;
      to_deploy := shortage;
      coverage :=
        if (0 <? required)%Z
        then of_int (available + shortage) / of_int required * 100
        else 100 |}).

(** The returned dictionary has the three staff types as keys, in this
    order. *)
Definition calculate_staff_needs (required_staff available_staff : gmap string Z)
    : list (string * StaffAllocation) :=
  map (staff_allocation required_staff available_staff)
      ["doctors"; "nurses"; "support_staff"].

Record ProcurementItem := mkProcurementItem {
  supply            : string;
  required          : Z;
  current_stock     : Z;
  to_order          : Z;
  priority          : Q;
  lead_time_days    : Z;
  order_immediately : bool;
  delivery_possible : bool
}.

(** [list.sort(key=priority, reverse=True)]: stable, descending. *)
Fixpoint insert_by_priority (x : ProcurementItem) (l : list ProcurementItem)
    : list ProcurementItem :=
  match l with
  | [] => [x]
  | y :: l' =>
      if qgtb (priority y) (priority x)
      then y :: insert_by_priority x l'
      else x :: y :: l'
  end.

Definition sort_by_priority (l : list ProcurementItem) : list ProcurementItem :=
  fold_right insert_by_priority [] l.

(** The shortage with safety buffer. *)
Definition buffered_shortage (self : t) (required current : Z) : Z :=
  Z.max 0 (py_int (of_int required * (1 + inventory_buffer self)
                   - of_int current)).

(** The dictionary appended for a supply type that has a shortage, once
    its lead time is known. *)
Definition procurement_item (self : t) (current_inventory : gmap string Z)
    (days_until_surge : Z) (supply_type : string) (required lead_time : Z)
    : ProcurementItem :=
  let current := default 0%Z (current_inventory !! supply_type) in
  let shortage := buffered_shortage self required current in
  let priority :=
    calculate_resource_priority self supply_type current required
                                days_until_surge in
  let delivery_possible := (lead_time <? days_until_surge)%Z in
  {| supply := supply_type;
     required := required;
     current_stock := current;
     to_order := shortage;
     priority := priority;
     lead_time_days := lead_time;
     order_immediately := qgtb priority 80 || negb delivery_possible;
     delivery_possible := delivery_possible |}.

(** The body of the loop over [required_supplies.items()]. *)
Definition supply_step (self : t) (current_inventory : gmap string Z)
    (days_until_surge : Z) (procurement_plan : list ProcurementItem)
    (entry : string * Z) : result (list ProcurementItem) :=
  let '(supply_type, required) := entry in
  let current := default 0%Z (current_inventory !! supply_type) in
  let shortage := buffered_shortage self required current in
  if (shortage =? 0)%Z then Ok procurement_plan
  else
    lead_time ← subscript (lead_times self) supply_type;
    Ok (procurement_plan ++
        [procurement_item self current_inventory days_until_surge
                          supply_type required lead_time]).

Definition calculate_supply_needs (self : t)
    (required_supplies : list (string * Z))
    (current_inventory : gmap string Z) (days_until_surge : Z)
    : result (list ProcurementItem) :=
  procurement_plan ←
    for_each (supply_step self current_inventory days_until_surge)
             required_supplies [];
  Ok (sort_by_priority procurement_plan).

(** [np.mean(scores) if scores else 100]. *)
Definition mean_or_100 (scores : list Q) : Q :=
  if truthy scores then np_mean scores else 100.

Definition supply_coverage (item : ProcurementItem) : Q :=
  let coverage :=
    if (0 <? required item)%Z
    then of_int (current_stock item + to_order item)
         / of_int (required item) * 100
    else 100 in
  qmin 100 coverage.

Definition _calculate_readiness_score
    (staff_plan : list (string * StaffAllocation))
    (supply_plan : list ProcurementItem) : Q :=
  let staff_scores := map coverage (PyDict.values staff_plan) in
  let avg_staff_readiness := mean_or_100 staff_scores in
  let supply_scores := map supply_coverage supply_plan in
  let avg_supply_readiness := mean_or_100 supply_scores in
  let overall_readiness :=
    avg_staff_readiness * (6 # 10) + avg_supply_readiness * (4 # 10) in
  py_round overall_readiness 1.

End Agent.

(** ** Multi-facility pooling optimizer
       ([generate_multi_hospital_recommendations]) *)

Module Pooling.
#[local] Open Scope Z_scope.

(** An element of [hospitals_data]. *)
Record Hospital := mkHospital {
  hospital_id         : string;
  required_resources  : list (string * Z);
  available_resources : gmap string Z
}.

Record PoolingOpportunity := mkPoolingOpportunity {
  resource           : string;
  total_surplus      : Z;
  total_shortage     : Z;
  can_transfer       : Z;
  surplus_hospitals  : list (string * Z);
  shortage_hospitals : list (string * Z)
}.

(** The frame of one call: the argument and the local dictionaries and
    lists the body assigns to. *)
Record Frame := mkFrame {
  hospitals_data          : list Hospital;
  total_requirements      : list (string * Z);
  total_available         : list (string * Z);
  hospitals_with_surplus  : list (string * list (string * Z));
  hospitals_with_shortage : list (string * list (string * Z));
  pooling_recommendations : list PoolingOpportunity;
  network_procurement     : list (string * Z)
}.

(** The dictionary the call returns. *)
Record Report := mkReport {
  report_total_requirements      : list (string * Z);
  report_total_available         : list (string * Z);
  network_procurement_needed     : list (string * Z);
  pooling_opportunities          : list PoolingOpportunity;
  report_hospitals_with_surplus  : list (string * list (string * Z));
  report_hospitals_with_shortage : list (string * list (string * Z))
}.

Definition zsum (l : list Z) : Z := fold_left Z.add l 0%Z.

Definition enter (hospitals_data : list Hospital) : Frame :=
  {| hospitals_data := hospitals_data;
     total_requirements := [];
     total_available := [];
     hospitals_with_surplus := [];
     hospitals_with_shortage := [];
     pooling_recommendations := [];
     network_procurement := [] |}.

(** [if h_id not in d: d[h_id] = {}] followed by
    [d[h_id][resource_type] = amount]. *)
Definition set_nested (d : list (string * list (string * Z)))
    (h_id resource_type : string) (amount : Z)
    : list (string * list (string * Z)) :=
  let d := if PyDict.mem d h_id then d else PyDict.set d h_id [] in
  PyDict.set d h_id
    (PyDict.set (PyDict.get_default d h_id []) resource_type amount).

(** The body of [for resource_type in required.keys()]. *)
Definition analyse_resource (hospital : Hospital) (f : Frame)
    (resource_type : string) : Frame :=
  let h_id := hospital_id hospital in
  let required := required_resources hospital in
  let available := available_resources hospital in
  let req := PyDict.get_default required resource_type 0%Z in
  let avail := default 0%Z (available !! resource_type) in
  let total_requirements' :=
    PyDict.set (total_requirements f) resource_type
      (PyDict.get_default (total_requirements f) resource_type 0 + req)%Z in
  let total_available' :=
    PyDict.set (total_available f) resource_type
      (PyDict.get_default (total_available f) resource_type 0 + avail)%Z in
  let surplus' :=
    if (req <? avail)%Z
    then set_nested (hospitals_with_surplus f) h_id resource_type (avail - req)
    else hospitals_with_surplus f in
  let shortage' :=
    if (req <? avail)%Z then hospitals_with_shortage f
    else if (avail <? req)%Z
    then set_nested (hospitals_with_shortage f) h_id resource_type (req - avail)
    else hospitals_with_shortage f in
  {| hospitals_data := hospitals_data f;
     total_requirements := total_requirements';
     total_available := total_available';
     hospitals_with_surplus := surplus';
     hospitals_with_shortage := shortage';
     pooling_recommendations := pooling_recommendations f;
     network_procurement := network_procurement f |}.

(** The body of [for hospital in hospitals_data]. *)
Definition analyse_hospital (f : Frame) (hospital : Hospital) : Frame :=
  fold_left (analyse_resource hospital)
            (PyDict.keys (required_resources hospital)) f.

(** [[(h_id, d.get(resource_type, 0)) for h_id, d in by_hospital.items()
      if resource_type in d]]. *)
Definition holders (by_hospital : list (string * list (string * Z)))
    (resource_type : string) : list (string * Z) :=
  map (fun entry => (fst entry, PyDict.get_default (snd entry) resource_type 0%Z))
      (List.filter (fun entry => PyDict.mem (snd entry) resource_type)
                   by_hospital).

(** The dictionary appended for a resource type that some facilities
    hold in surplus and others lack. *)
Definition opportunity (resource_type : string)
    (surplus_hospitals shortage_hospitals : list (string * Z))
    : PoolingOpportunity :=
  let transferable :=
    Z.min (zsum (map snd surplus_hospitals))
          (zsum (map snd shortage_hospitals)) in
  {| resource := resource_type;
     total_surplus := zsum (map snd surplus_hospitals);
     total_shortage := zsum (map snd shortage_hospitals);
     can_transfer := transferable;
     surplus_hospitals := surplus_hospitals;
     shortage_hospitals := shortage_hospitals |}.

(** The body of the loop that generates pooling recommendations. *)
Definition pooling_step (f : Frame) (resource_type : string) : Frame :=
  let surplus_hospitals := holders (hospitals_with_surplus f) resource_type in
  let shortage_hospitals := holders (hospitals_with_shortage f) resource_type in
  if truthy surplus_hospitals && truthy shortage_hospitals then
    {| hospitals_data := hospitals_data f;
       total_requirements := total_requirements f;
       total_available := total_available f;
       hospitals_with_surplus := hospitals_with_surplus f;
       hospitals_with_shortage := hospitals_with_shortage f;
       pooling_recommendations :=
         pooling_recommendations f ++
         [opportunity resource_type surplus_hospitals shortage_hospitals];
       network_procurement := network_procurement f |}
  else f.

(** The body of the loop that computes network-level procurement.  The
    two subscripts are on keys of [total_requirements], which
    [total_available] shares. *)
Definition network_step (f : Frame) (resource_type : string) : Frame :=
  let network_shortage :=
    Z.max 0 (PyDict.get_default (total_requirements f) resource_type 0
             - PyDict.get_default (total_available f) resource_type 0) in
  if (0 <? network_shortage)%Z then
    {| hospitals_data := hospitals_data f;
       total_requirements := total_requirements f;
       total_available := total_available f;
       hospitals_with_surplus := hospitals_with_surplus f;
       hospitals_with_shortage := hospitals_with_shortage f;
       pooling_recommendations := pooling_recommendations f;
       network_procurement :=
         PyDict.set (network_procurement f) resource_type network_shortage |}
  else f.

(** The three loops in sequence. *)
Definition run (f : Frame) : Frame :=
  let f := fold_left analyse_hospital (hospitals_data f) f in
  let f := fold_left pooling_step (PyDict.keys (total_requirements f)) f in
  fold_left network_step (PyDict.keys (total_requirements f)) f.

Definition report (f : Frame) : Report :=
  {| report_total_requirements := total_requirements f;
     report_total_available := total_available f;
     network_procurement_needed := network_procurement f;
     pooling_opportunities := pooling_recommendations f;
     report_hospitals_with_surplus := hospitals_with_surplus f;
     report_hospitals_with_shortage := hospitals_with_shortage f |}.

Definition generate_multi_hospital_recommendations
    (hospitals_data : list Hospital) : Report :=
  report (run (enter hospitals_data)).

(** *** What the specification says, facility by facility *)

(** A facility's requirement and stock of a type it lists. *)
Definition required_of (h : Hospital) (resource_type : string) : option Z :=
  PyDict.get (required_resources h) resource_type.

Definition available_of (h : Hospital) (resource_type : string) : Z :=
  default 0%Z (available_resources h !! resource_type).

Definition has_surplus (h : Hospital) (resource_type : string) : Prop :=
  exists req, required_of h resource_type = Some req
              /\ (req < available_of h resource_type)%Z.

Definition has_shortage (h : Hospital) (resource_type : string) : Prop :=
  exists req, required_of h resource_type = Some req
              /\ (available_of h resource_type < req)%Z.

Definition surplus_of (h : Hospital) (resource_type : string) : Z :=
  match required_of h resource_type with
  | Some req => Z.max 0 (available_of h resource_type - req)
  | None => 0%Z
  end.

Definition shortage_of (h : Hospital) (resource_type : string) : Z :=
  match required_of h resource_type with
  | Some req => Z.max 0 (req - available_of h resource_type)
  | None => 0%Z
  end.

Definition required_total (hs : list Hospital) (resource_type : string) : Z :=
  zsum (map (fun h => default 0%Z (required_of h resource_type)) hs).

(** Stock counts for a type at the facilities that list the type. *)
Definition available_total (hs : list Hospital) (resource_type : string) : Z :=
  zsum (map (fun h => match required_of h resource_type with
                      | Some _ => available_of h resource_type
                      | None => 0%Z
                      end) hs).

(** Well-formed input: dictionaries have unique keys, facilities have
    distinct identifiers. *)
Definition wf_input (hs : list Hospital) : Prop :=
  List.NoDup (map hospital_id hs)
  /\ Forall (fun h => PyDict.wf (required_resources h)) hs.

(** *** Auxiliary notions for the proofs *)

(** The (facility, resource type) pairs in the order the two nested loops
    visit them, and one visit. *)
Definition visits (hs : list Hospital) : list (Hospital * string) :=
  flat_map (fun h => map (fun resource_type => (h, resource_type))
                         (PyDict.keys (required_resources h))) hs.

Definition visit (f : Frame) (p : Hospital * string) : Frame :=
  analyse_resource (fst p) f (snd p).

Definition visit_required (p : Hospital * string) : Z :=
  PyDict.get_default (required_resources (fst p)) (snd p) 0.

Definition visit_available (p : Hospital * string) : Z :=
  available_of (fst p) (snd p).

(** A visit finds a surplus, a shortage, and their sizes. *)
Definition surplus_visit (p : Hospital * string) : bool :=
  visit_required p <? visit_available p.

Definition shortage_visit (p : Hospital * string) : bool :=
  visit_available p <? visit_required p.

Definition surplus_amount (p : Hospital * string) : Z :=
  visit_available p - visit_required p.

Definition shortage_amount (p : Hospital * string) : Z :=
  visit_required p - visit_available p.

(** The two keys a visit assigns under. *)
Definition visit_keys (p : Hospital * string) : string * string :=
  (hospital_id (fst p), snd p).

(** What the visits contribute to a resource type. *)
Definition contribution (w : list (Hospital * string)) (resource_type : string)
    (amount : Hospital * string -> Z) : Z :=
  zsum (map (fun p => if decide (snd p = resource_type) then amount p else 0) w).

(** A running total per resource type: [d[k] = d.get(k, 0) + amount]. *)
Definition tally (amount : Hospital * string -> Z) (d : list (string * Z))
    (p : Hospital * string) : list (string * Z) :=
  PyDict.set d (snd p) (PyDict.get_default d (snd p) 0 + amount p).

(** A guarded nested assignment. *)
Definition record_if (cond : Hospital * string -> bool)
    (amount : Hospital * string -> Z)
    (d : list (string * list (string * Z))) (p : Hospital * string)
    : list (string * list (string * Z)) :=
  if cond p then set_nested d (hospital_id (fst p)) (snd p) (amount p) else d.

(** The sum of a resource type over the facilities of a nested
    dictionary. *)
Definition column (d : list (string * list (string * Z)))
    (resource_type : string) : Z :=
  zsum (map (fun entry => PyDict.get_default (snd entry) resource_type 0) d).

(** Some facility of a nested dictionary lists the resource type. *)
Definition listed (d : list (string * list (string * Z)))
    (resource_type : string) : Prop :=
  exists h_id inner,
    PyDict.get d h_id = Some inner /\ PyDict.mem inner resource_type = true.

End Pooling.

(** ** The formulas as the specification words them *)


(** Stock coverage ratio in percent, 100 when nothing is needed. *)
Definition spec_coverage (current_stock projected_need : Z) : Q :=
  if (projected_need =? 0)%Z then 100
  else of_int current_stock / of_int projected_need * 100.



(** * Further operations *)

(** ** Action timeline and comprehensive plan
       (agent/resource_recommendation_agent.py) *)

Module AgentPlan.
Import Agent.

Inductive TimelinePriority := URGENT | NORMAL | HIGH.
Inductive TimelineCategory := SupplyProcurement | StaffDeployment.

(** An element of the timeline.  Its [date] is the current date plus
    [days_from_now] days, formatted; the entry keeps the offset. *)
Record TimelineEntry := mkTimelineEntry {
  days_from_now     : Z;
  action            : string;
  quantity          : Z;
  timeline_priority : TimelinePriority;
  category          : TimelineCategory
}.

(** [s.replace('_', ' ')]. *)
Fixpoint replace_underscores (s : string) : string :=
  match s with
  | EmptyString => EmptyString
  | String c s' =>
      String (if Ascii.eqb c "_" then " "%char else c) (replace_underscores s')
  end.

(** The entry appended for a supply item. *)
Definition order_entry (days_until_surge : Z) (item : ProcurementItem)
    : TimelineEntry :=
  {| days_from_now := Z.max 0 (days_until_surge - lead_time_days item - 1);
     action := String.append "Order " (replace_underscores (supply item));
     quantity := to_order item;
     timeline_priority := if qgtb (priority item) 80 then URGENT else NORMAL;
     category := SupplyProcurement |}.

(** The entries appended for the staff types that have a shortage. *)
Definition deploy_entry (days_until_surge : Z)
    (entry : string * StaffAllocation) : list TimelineEntry :=
  let '(staff_type, details) := entry in
  if (0 <? to_deploy details)%Z then
    [ {| days_from_now := Z.max 0 (days_until_surge - 2);
         action := String.append "Deploy " (replace_underscores staff_type);
         quantity := to_deploy details;
         timeline_priority := HIGH;
         category := StaffDeployment |} ]
  else [].

(** [timeline.sort(key=days_from_now)]: stable, ascending. *)
Fixpoint insert_by_day (x : TimelineEntry) (l : list TimelineEntry)
    : list TimelineEntry :=
  match l with
  | [] => [x]
  | y :: l' =>
      if (days_from_now y <? days_from_now x)%Z
      then y :: insert_by_day x l'
      else x :: y :: l'
  end.

Definition sort_by_day (l : list TimelineEntry) : list TimelineEntry :=
  fold_right insert_by_day [] l.

Definition _generate_action_timeline
    (staff_plan : list (string * StaffAllocation))
    (supply_plan : list ProcurementItem) (days_until_surge : Z)
    : list TimelineEntry :=
  let timeline := map (order_entry days_until_surge) supply_plan in
  let timeline :=
    timeline ++ flat_map (deploy_entry days_until_surge) staff_plan in
  sort_by_day timeline.

(** The argument [surge_prediction]: [date] is read with [.get], the
    forecast with a subscript. *)
Record SurgePrediction := mkSurgePrediction {
  prediction_date   : option string;
  resource_forecast : option (gmap string Z)
}.

Record ResourcePlan := mkResourcePlan {
  surge_date         : option string;
  plan_days_until_surge : Z;
  staff_allocation   : list (string * StaffAllocation);
  supply_procurement : list ProcurementItem;
  action_timeline    : list TimelineEntry;
  readiness_score    : Q
}.

(** [d.get(key, 0)]. *)
Definition get0 (d : gmap string Z) (key : string) : Z := default 0%Z (d !! key).

Definition generate_comprehensive_resource_plan (self : t)
    (surge_prediction : SurgePrediction) (current_resources : gmap string Z)
    (days_until_surge : Z) : result ResourcePlan :=
  required ←
    match resource_forecast surge_prediction with
    | Some forecast => Ok forecast
    | None => KeyError "resource_forecast"
    end;
  let available := current_resources in
  let staff_plan :=
    calculate_staff_needs
      (list_to_map [("doctors", get0 required "doctors_needed");
                    ("nurses", get0 required "nurses_needed");
                    ("support_staff", get0 required "support_staff_needed")])
      (list_to_map [("doctors", get0 available "doctors");
                    ("nurses", get0 available "nurses");
                    ("support_staff", get0 available "support_staff")]) in
  supply_plan ←
    calculate_supply_needs self
      [("ppe_kits", get0 required "ppe_kits");
       ("oxygen_liters", get0 required "oxygen_liters");
       ("iv_fluids_ml", get0 required "iv_fluids_ml");
       ("medications_units", get0 required "medications_units");
       ("bed_linens", get0 required "bed_linens")]
      (list_to_map [("ppe_kits", get0 available "ppe_kits");
                    ("oxygen_liters", get0 available "oxygen_liters");
                    ("iv_fluids_ml", get0 available "iv_fluids_ml");
                    ("medications_units", get0 available "medications_units");
                    ("bed_linens", get0 available "bed_linens")])
      days_until_surge;
  let timeline :=
    _generate_action_timeline staff_plan supply_plan days_until_surge in
  let readiness := _calculate_readiness_score staff_plan supply_plan in
  Ok {| surge_date := prediction_date surge_prediction;
        plan_days_until_surge := days_until_surge;
        staff_allocation := staff_plan;
        supply_procurement := supply_plan;
        action_timeline := timeline;
        readiness_score := readiness |}.



End AgentPlan.

(** ** One day of the continuous monitor
       (scripts/continuous_surge_monitor.py) *)

Module Monitor.

(** The row appended to [predictions], without the time stamps and
    names. *)
Record PredictionRow := mkPredictionRow {
  total_admissions    : Z;
  baseline_admissions : Z;
  surge_multiplier    : Q;
  admissions          : Breakdown
}.

(** The body of the loop over [day_offset] in [predict_for_all_hospitals],
    given what the AQI, weather and event services and the baseline lookup
    returned. *)
Definition predict_for_day (target_date_str : string) (aqi_data : option Q)
    (target_weather : gmap string Q) (events : list string) (baseline : Z)
    : PredictionRow :=
  let current_aqi := match aqi_data with Some aqi => aqi | None => 150 end in
  let prediction :=
    SurgePredictor.predict target_date_str current_aqi target_weather events in
  let surge_multiplier := multiplier prediction in
  let total_admissions := py_int (of_int baseline * surge_multiplier) in
  let breakdown :=
    calculate_admission_breakdown total_admissions current_aqi target_weather
                                  events in
  {| total_admissions := total_admissions;
     baseline_admissions := baseline;
     surge_multiplier := surge_multiplier;
     admissions := breakdown |}.

End Monitor.

(** ** Surge levels of the recommendation engine
       (agent/recommendation_engine.py, config.py) *)

Module RecommendationEngine.

Inductive SurgeLevel := critical | major | moderate | minor | normal.

(** [RECOMMENDATION_THRESHOLDS]. *)
Definition minor_surge : Q := 12 # 10.
Definition moderate_surge : Q := 14 # 10.
Definition major_surge : Q := 17 # 10.
Definition critical_surge : Q := 2.

Definition _classify_surge_level (surge_multiplier : Q) : SurgeLevel :=
  if qgeb surge_multiplier critical_surge then critical
  else if qgeb surge_multiplier major_surge then major
  else if qgeb surge_multiplier moderate_surge then moderate
  else if qgeb surge_multiplier minor_surge then minor
  else normal.

End RecommendationEngine.

(** ** Inventory loader and recommendations of the resource service
       (services/resource_service.py, services/resource_mappings.py) *)

Module HospitalMappings.

Definition HOSPITAL_NAME_MAPPING : gmap string string :=
  list_to_map
    [ ("KEM_H1", "King Edward Memorial Hospital");
      ("LOK_H2", "Lokmanya Tilak Hospital");
      ("NAI_H3", "BYL Nair Hospital");
      ("JJ_H4", "JJ Hospital");
      ("HIN_H5", "Hinduja Hospital");
      ("LIL_H6", "Lilavati Hospital");
      ("NAN_H7", "NANAVATI Hospital");
      ("BOM_H8", "Bombay Hospital");
      ("JAS_H9", "Jaslok Hospital");
      ("BRE_H10", "Breach Candy Hospital");
      ("SAI_H11", "Saifee Hospital");
      ("JUP_H13", "Jupiter Hospital");
      ("COO_H14", "Dr. R N Cooper Hospital");
      ("HBT_H15", "HBT Trauma Care") ].

Definition HOSPITAL_TYPES : gmap string string :=
  list_to_map
    [ ("KEM_H1", "Municipal"); ("LOK_H2", "Municipal");
      ("NAI_H3", "Municipal"); ("JJ_H4", "Municipal");
      ("HIN_H5", "Private"); ("LIL_H6", "Private"); ("NAN_H7", "Private");
      ("BOM_H8", "Private"); ("JAS_H9", "Private"); ("BRE_H10", "Private");
      ("SAI_H11", "Private"); ("JUP_H13", "Private");
      ("COO_H14", "Municipal"); ("HBT_H15", "Municipal") ].

End HospitalMappings.

Module Inventory.
Import HospitalMappings.

(** An object of the inventory array: its [hospital_id], if it has one,
    and its counts by column. *)
Record Row := mkRow {
  row_hospital_id : option string;
  row_counts      : gmap string Z
}.

(** The supply names of the service and the columns they are read
    from. *)
Definition columns : list (string * string) :=
  [ ("Oxygen Cylinders", "Oxygen_cylinders");
    ("Ventilators", "Ventilators");
    ("Oxygen Masks", "Oxygen_masks");
    ("Humidifiers", "Humidifiers");
    ("Trauma Stretchers", "Trauma_stretchers");
    ("IV Stand Kits", "IV_stand_kits");
    ("Defibrillators", "Defibrillators");
    ("Gloves/PPE", "Gloves_aprons_PPE");
    ("Cooling Pads", "Cooling_pads_ice_packs");
    ("Thermometers", "Thermometers") ].

(** Truthiness of [hospital.get('hospital_id')]. *)
Definition truthy_id (hospital_id : option string) : bool :=
  match hospital_id with
  | Some (String _ _) => true
  | _ => false
  end.

(** The entry assigned to [inventory_dict[hospital_id]]. *)
Definition entry_of (hospital_id : string) (hospital : Row) : HospitalInfo :=
  {| info_name := default hospital_id (HOSPITAL_NAME_MAPPING !! hospital_id);
     info_type := default "Unknown" (HOSPITAL_TYPES !! hospital_id);
     inventory :=
       list_to_map
         (map (fun name_column : string * string =>
                 (fst name_column,
                  default 0%Z (row_counts hospital !! snd name_column)))
              columns) |}.

(** The body of [for hospital in inventory_array]. *)
Definition load_row (inventory_dict : gmap string HospitalInfo)
    (hospital : Row) : gmap string HospitalInfo :=
  match row_hospital_id hospital with
  | Some hospital_id =>
      if truthy_id (Some hospital_id)
      then <[ hospital_id := entry_of hospital_id hospital ]> inventory_dict
      else inventory_dict
  | None => inventory_dict
  end.

(** [_load_inventory] on the array read from the file. *)
Definition _load_inventory (inventory_array : list Row)
    : gmap string HospitalInfo :=
  fold_left load_row inventory_array ∅.

End Inventory.

Module ServiceReport.
Import ResourceMappings ResourceService HospitalMappings.

Record Summary := mkSummary {
  total_items    : Z;
  critical_items : Z;
  low_items      : Z;
  ok_items       : Z
}.

(** An element of [results].  [safety_buffer_applied] is the number in
    front of the percent sign. *)
Record Recommendation := mkRecommendation {
  rec_hospital_id       : string;
  rec_hospital_name     : string;
  rec_hospital_type     : string;
  safety_buffer_applied : Z;
  rec_admissions        : gmap string Z;
  supplies_status       : list SupplyStatus;
  summary               : Summary
}.

(** What [get_recommendations] returns: the error dictionary, one result
    (or the empty dictionary), or the list of results. *)
Inductive Response :=
| NoSurgeData
| Single (result : option Recommendation)
| All (results : list Recommendation).

Definition status_eqb (a b : Status) : bool :=
  match a, b with
  | CRITICAL, CRITICAL | LOW, LOW | OK, OK => true
  | _, _ => false
  end.

(** [sum(1 for s in supplies_status if s['status'] == st)]. *)
Definition count_status (st : Status) (l : list SupplyStatus) : Z :=
  Z.of_nat (length (List.filter (fun s => status_eqb (status s) st) l)).

(** The dictionary built for one facility. *)
Definition recommendation (inventory_data : gmap string HospitalInfo)
    (hid : string) (admissions : gmap string Z) : Recommendation :=
  let hospital_info := inventory_data !! hid in
  let supplies_status := calculate_supply_needs inventory_data hid admissions in
  let critical_count := count_status CRITICAL supplies_status in
  let low_count := count_status LOW supplies_status in
  {| rec_hospital_id := hid;
     rec_hospital_name :=
       match hospital_info with
       | Some info => info_name info
       | None => default hid (HOSPITAL_NAME_MAPPING !! hid)
       end;
     rec_hospital_type :=
       match hospital_info with
       | Some info => info_type info
       | None => "Unknown"
       end;
     safety_buffer_applied :=
       py_int (default (2 # 10)
                 (SAFETY_BUFFERS !! match hospital_info with
                                    | Some info => info_type info
                                    | None => "Private"
                                    end)
               * 100);
     rec_admissions := admissions;
     supplies_status := supplies_status;
     summary :=
       {| total_items := Z.of_nat (length supplies_status);
          critical_items := critical_count;
          low_items := low_count;
          ok_items :=
            Z.of_nat (length supplies_status) - critical_count - low_count |}
  |}.

(** The body of [for hid in hospitals_to_process]. *)
Definition process (inventory_data : gmap string HospitalInfo)
    (surge_data : list (string * gmap string Z))
    (results : list Recommendation) (hid : string) : list Recommendation :=
  if PyDict.mem surge_data hid
  then results
       ++ [recommendation inventory_data hid
             (PyDict.get_default surge_data hid ∅)]
  else results.

(** [get_recommendations], given what [get_latest_surge_data]
    returned. *)
Definition get_recommendations (inventory_data : gmap string HospitalInfo)
    (surge_data : list (string * gmap string Z))
    (hospital_id : option string) : Response :=
  if negb (truthy surge_data) then NoSurgeData
  else
    let hospitals_to_process :=
      match hospital_id with
      | Some hid =>
          if Inventory.truthy_id hospital_id then [hid]
          else PyDict.keys surge_data
      | None => PyDict.keys surge_data
      end in
    let results :=
      fold_left (process inventory_data surge_data) hospitals_to_process [] in
    if negb (Inventory.truthy_id hospital_id) then All results
    else Single (head results).

End ServiceReport.

(** The level the engine names for a severity of the predictor. *)
Definition level_of_severity (s : Severity) : RecommendationEngine.SurgeLevel :=
  match s with
  | none => RecommendationEngine.normal
  | minor => RecommendationEngine.minor
  | moderate => RecommendationEngine.moderate
  | major => RecommendationEngine.major
  | critical => RecommendationEngine.critical
  end.

(** The tiers in increasing order. *)
Definition severity_rank (s : Severity) : Z :=
  match s with
  | none => 0 | minor => 1 | moderate => 2 | major => 3 | critical => 4
  end.

(** * Properties *)

(** ** Python numerics *)

(** Turn the outcome of a comparison into the order fact it stands for. *)
Ltac cmp_facts :=
  repeat match goal with
  | H : Qcompare _ _ = Eq |- _ => apply Qeq_alt in H
  | H : Qcompare _ _ = Lt |- _ => apply Qlt_alt in H
  | H : Qcompare _ _ = Gt |- _ => apply Qgt_alt in H
  end.

Section Numerics.

Lemma qgtb_true (a b : Q) : qgtb a b = true <-> b < a.
Proof.
  unfold qgtb. rewrite negb_true_iff. split.
  - intros H. apply Qnot_le_lt. intros Hle.
    apply Qle_bool_iff in Hle. congruence.
  - intros H. destruct (Qle_bool a b) eqn:E; auto.
    apply Qle_bool_iff in E. lra.
Qed.

Lemma qgtb_false (a b : Q) : qgtb a b = false <-> a <= b.
Proof.
  unfold qgtb. rewrite negb_false_iff. apply Qle_bool_iff.
Qed.

Lemma qltb_true (a b : Q) : qltb a b = true <-> a < b.
Proof. apply (qgtb_true b a). Qed.

Lemma qltb_false (a b : Q) : qltb a b = false <-> b <= a.
Proof. apply (qgtb_false b a). Qed.

Lemma qgeb_true (a b : Q) : qgeb a b = true <-> b <= a.
Proof. apply Qle_bool_iff. Qed.

Lemma qgeb_false (a b : Q) : qgeb a b = false <-> a < b.
Proof.
  unfold qgeb. split.
  - intros H. apply Qnot_le_lt. intros Hle.
    apply Qle_bool_iff in Hle. congruence.
  - intros H. destruct (Qle_bool b a) eqn:E; auto.
    apply Qle_bool_iff in E. lra.
Qed.

Lemma qmax_spec (a b : Q) :
  (a <= b /\ qmax a b = b) \/ (b < a /\ qmax a b = a).
Proof.
  unfold qmax. destruct (Qle_bool a b) eqn:E.
  - left. split; [now apply Qle_bool_iff | reflexivity].
  - right. split; [| reflexivity].
    apply Qnot_le_lt. intros H. apply Qle_bool_iff in H. congruence.
Qed.

Lemma qmin_spec (a b : Q) :
  (a <= b /\ qmin a b = a) \/ (b < a /\ qmin a b = b).
Proof.
  unfold qmin. destruct (Qle_bool a b) eqn:E.
  - left. split; [now apply Qle_bool_iff | reflexivity].
  - right. split; [| reflexivity].
    apply Qnot_le_lt. intros H. apply Qle_bool_iff in H. congruence.
Qed.

(** On a non-negative float [int()] is the floor. *)
Lemma py_int_nonneg (x : Q) : 0 <= x -> py_int x = Qfloor x.
Proof.
  destruct x as [n d]. unfold py_int, Qfloor, Qle. simpl. intros H.
  apply Z.quot_div_nonneg; lia.
Qed.

Lemma py_int_nonpos (x : Q) : x <= 0 -> (py_int x <= 0)%Z.
Proof.
  destruct x as [n d]. unfold py_int, Qle. simpl. intros H.
  replace n with (- (- n))%Z by lia.
  rewrite Z.quot_opp_l by lia.
  assert (0 <= Z.quot (- n) (Z.pos d))%Z by (apply Z.quot_pos; lia).
  lia.
Qed.

#[local] Instance round_half_even_proper : Proper (Qeq ==> eq) round_half_even.
Proof.
  intros x y E. unfold round_half_even.
  rewrite (Qfloor_comp _ _ E).
  assert (Ec : Qcompare (x - inject_Z (Qfloor y)) (1 # 2)
               = Qcompare (y - inject_Z (Qfloor y)) (1 # 2))
    by (apply Qcompare_comp; [rewrite E|]; reflexivity).
  now rewrite Ec.
Qed.

Lemma round_half_even_Z (k : Z) : round_half_even (inject_Z k) = k.
Proof.
  unfold round_half_even. rewrite Qfloor_Z.
  assert (E0 : inject_Z k - inject_Z k == 0) by ring.
  assert (E : Qcompare (inject_Z k - inject_Z k) (1 # 2) = Lt)
    by (apply Qlt_alt; rewrite E0; reflexivity).
  now rewrite E.
Qed.

Lemma round_half_even_bounds (x : Q) :
  (Qfloor x <= round_half_even x <= Qfloor x + 1)%Z.
Proof.
  unfold round_half_even.
  destruct (Qcompare _ _); [destruct (Z.even _)| |]; lia.
Qed.

Lemma round_half_even_mono (x y : Q) :
  x <= y -> (round_half_even x <= round_half_even y)%Z.
Proof.
  intros Hxy.
  pose proof (Qfloor_resp_le _ _ Hxy) as Hf.
  destruct (Z.eq_dec (Qfloor x) (Qfloor y)) as [E | NE].
  - unfold round_half_even. rewrite E.
    destruct (Qcompare (x - inject_Z (Qfloor y)) (1 # 2)) eqn:Cx,
             (Qcompare (y - inject_Z (Qfloor y)) (1 # 2)) eqn:Cy;
      try destruct (Z.even (Qfloor y)); try lia; exfalso; cmp_facts; lra.
  - pose proof (round_half_even_bounds x).
    pose proof (round_half_even_bounds y). lia.
Qed.

Lemma pow10_pos (n : nat) : 0 < inject_Z (10 ^ Z.of_nat n).
Proof.
  replace 0 with (inject_Z 0) by reflexivity. rewrite <- Zlt_Qlt.
  apply Z.pow_pos_nonneg; lia.
Qed.

Lemma py_round_mono (x y : Q) (n : nat) :
  x <= y -> py_round x n <= py_round y n.
Proof.
  intros Hxy. unfold py_round.
  pose proof (pow10_pos n) as Hs.
  set (s := inject_Z (10 ^ Z.of_nat n)) in *.
  assert (Hm : x * s <= y * s) by (apply Qmult_le_compat_r; lra).
  apply round_half_even_mono in Hm. rewrite Zle_Qle in Hm.
  unfold Qdiv. apply Qmult_le_compat_r; [exact Hm|].
  apply Qlt_le_weak, Qinv_lt_0_compat, Hs.
Qed.

(** Rounding leaves a float with at most [n] decimals unchanged. *)
Lemma py_round_exact (x : Q) (n : nat) (k : Z) :
  x * inject_Z (10 ^ Z.of_nat n) == inject_Z k -> py_round x n == x.
Proof.
  intros E. unfold py_round.
  pose proof (pow10_pos n) as Hs.
  set (s := inject_Z (10 ^ Z.of_nat n)) in *.
  rewrite (round_half_even_proper _ _ E), round_half_even_Z, <- E.
  field. lra.
Qed.

#[local] Instance py_round_proper : Proper (Qeq ==> eq ==> Qeq) py_round.
Proof.
  intros x y E n ? <-. unfold py_round.
  assert (E' : x * inject_Z (10 ^ Z.of_nat n) == y * inject_Z (10 ^ Z.of_nat n))
    by (rewrite E; reflexivity).
  now rewrite (round_half_even_proper _ _ E').
Qed.

End Numerics.

(** Case analysis on the threshold tests of the source. *)
Ltac thresholds :=
  repeat match goal with
  | |- context [qgtb ?a ?b] =>
      let E := fresh "E" in
      destruct (qgtb a b) eqn:E;
      [apply qgtb_true in E | apply qgtb_false in E]
  | |- context [qgeb ?a ?b] =>
      let E := fresh "E" in
      destruct (qgeb a b) eqn:E;
      [apply qgeb_true in E | apply qgeb_false in E]
  | |- context [qltb ?a ?b] =>
      let E := fresh "E" in
      destruct (qltb a b) eqn:E;
      [apply qltb_true in E | apply qltb_false in E]
  end.

(** ** Insertion-ordered dictionaries *)

Section PyDictProps.
Context {K V : Type} `{EqDecision K}.
Implicit Types (d : list (K * V)) (k : K) (v : V).

Lemma get_set_eq d k v : PyDict.get (PyDict.set d k v) k = Some v.
Proof.
  induction d as [| [k' v'] d IH]; simpl.
  - now rewrite decide_True.
  - destruct (decide (k = k')); simpl.
    + now rewrite decide_True.
    + now rewrite decide_False.
Qed.

Lemma get_set_ne d k k' v :
  k <> k' -> PyDict.get (PyDict.set d k v) k' = PyDict.get d k'.
Proof.
  intros Hne. induction d as [| [k0 v0] d IH]; simpl.
  - rewrite decide_False by congruence. reflexivity.
  - destruct (decide (k = k0)) as [-> | Hk]; simpl.
    + rewrite !decide_False by congruence. reflexivity.
    + destruct (decide (k' = k0)); [reflexivity | exact IH].
Qed.

Lemma get_Some_In d k v : PyDict.get d k = Some v -> In (k, v) d.
Proof.
  induction d as [| [k' v'] d IH]; simpl; [discriminate |].
  destruct (decide (k = k')) as [-> | Hne].
  - intros [= ->]. now left.
  - intros H. right. now apply IH.
Qed.

Lemma get_None_keys d k : PyDict.get d k = None <-> ~ In k (PyDict.keys d).
Proof.
  induction d as [| [k' v'] d IH]; simpl; [tauto |].
  destruct (decide (k = k')) as [-> | Hne].
  - split; [discriminate | tauto].
  - rewrite IH. intuition congruence.
Qed.

Lemma get_is_Some_keys d k : is_Some (PyDict.get d k) <-> In k (PyDict.keys d).
Proof.
  destruct (PyDict.get d k) as [v |] eqn:E.
  - split; [intros _ | eauto]. apply get_Some_In in E.
    apply (in_map fst) in E. exact E.
  - split; [intros [? [=]] |]. intros Hin.
    apply get_None_keys in E. contradiction.
Qed.

Lemma mem_true d k : PyDict.mem d k = true <-> In k (PyDict.keys d).
Proof.
  unfold PyDict.mem. rewrite <- get_is_Some_keys.
  destruct (PyDict.get d k); split; eauto; intros H;
    [discriminate | destruct H; discriminate].
Qed.

(** In a well-formed dictionary an entry is what [get] returns. *)
Lemma wf_In_get d k v : PyDict.wf d -> In (k, v) d -> PyDict.get d k = Some v.
Proof.
  unfold PyDict.wf, PyDict.keys.
  induction d as [| [k' v'] d IH]; simpl; [tauto |].
  intros Hwf Hin. apply List.NoDup_cons_iff in Hwf as [Hnotin Hwf].
  destruct Hin as [[= -> ->] | Hin].
  - now rewrite decide_True.
  - destruct (decide (k = k')) as [-> | Hne]; [| now apply IH].
    exfalso. apply Hnotin. apply (in_map fst) in Hin. exact Hin.
Qed.

Lemma wf_In_unique d k v v' :
  PyDict.wf d -> In (k, v) d -> In (k, v') d -> v = v'.
Proof.
  intros Hwf H1 H2. apply (wf_In_get _ _ _ Hwf) in H1, H2. congruence.
Qed.

(** Assignment keeps the keys of a present key and appends a new one. *)
Lemma keys_set_present d k v :
  In k (PyDict.keys d) -> PyDict.keys (PyDict.set d k v) = PyDict.keys d.
Proof.
  unfold PyDict.keys.
  induction d as [| [k' v'] d IH]; simpl; [tauto |].
  intros Hin. destruct (decide (k = k')) as [-> | Hne]; simpl; [reflexivity |].
  f_equal. apply IH. destruct Hin; congruence.
Qed.

Lemma keys_set_absent d k v :
  ~ In k (PyDict.keys d) ->
  PyDict.keys (PyDict.set d k v) = PyDict.keys d ++ [k].
Proof.
  unfold PyDict.keys.
  induction d as [| [k' v'] d IH]; simpl; [reflexivity |].
  intros Hnotin. destruct (decide (k = k')) as [-> | Hne]; simpl; [tauto |].
  f_equal. apply IH. tauto.
Qed.

Lemma in_keys_set d k k' v :
  In k' (PyDict.keys (PyDict.set d k v)) <-> k' = k \/ In k' (PyDict.keys d).
Proof.
  rewrite <- !get_is_Some_keys.
  destruct (decide (k = k')) as [-> | Hne].
  - rewrite get_set_eq. split; eauto.
  - rewrite get_set_ne by assumption. intuition congruence.
Qed.

Lemma wf_set d k v : PyDict.wf d -> PyDict.wf (PyDict.set d k v).
Proof.
  unfold PyDict.wf. intros Hwf.
  destruct (in_dec (fun a b => decide (a = b)) k (PyDict.keys d)) as [Hin | Hnotin].
  - now rewrite keys_set_present.
  - rewrite keys_set_absent by assumption.
    apply (Permutation_NoDup (l := k :: PyDict.keys d)).
    + apply Permutation_cons_append.
    + now apply List.NoDup_cons.
Qed.

End PyDictProps.

(** ** Surge multiplier calculator *)

Section SurgeProps.
Import SurgePredictor.

(** Each factor adds to the running multiplier an amount that depends
    on its own input only. *)
Lemma aqi_factor_adds (aqi m : Q) (rf : list RiskFactor) :
  fst (aqi_factor aqi (m, rf)) == m + (fst (aqi_factor aqi (0, [])) - 0).
Proof. unfold aqi_factor. thresholds; simpl; ring. Qed.

Lemma rainfall_factor_adds (rainfall m : Q) (rf : list RiskFactor) :
  fst (rainfall_factor rainfall (m, rf))
  == m + (fst (rainfall_factor rainfall (0, [])) - 0).
Proof. unfold rainfall_factor. thresholds; simpl; ring. Qed.

Lemma heat_factor_adds (max_temp m : Q) (rf : list RiskFactor) :
  fst (heat_factor max_temp (m, rf))
  == m + (fst (heat_factor max_temp (0, [])) - 0).
Proof. unfold heat_factor. thresholds; simpl; ring. Qed.

Lemma event_factor_adds (event : string) (m : Q) (rf : list RiskFactor) :
  exists k : Z, (0 <= k)%Z /\ forall m rf,
    fst (event_factor (m, rf) event) == m + (k # 10).
Proof.
  unfold event_factor.
  destruct (bool_decide _); [| destruct (bool_decide _)].
  - exists 3%Z. split; [lia | intros; simpl; ring].
  - exists 1%Z. split; [lia | intros; simpl; ring].
  - exists 0%Z. split; [lia | intros; simpl; ring].
Qed.

Lemma events_add (events : list string) :
  exists k : Z, (0 <= k)%Z /\ forall acc,
    fst (fold_left event_factor events acc) == fst acc + (k # 10).
Proof.
  induction events as [| event events IH].
  - exists 0%Z. split; [lia | intros; simpl; ring].
  - destruct IH as (k & Hk & IH).
    destruct (event_factor_adds event 0 []) as (j & Hj & Hstep).
    exists (j + k)%Z. split; [lia |]. intros [m rf]. simpl fold_left.
    rewrite IH, (Hstep m rf). simpl fst.
    assert (E : (j + k) # 10 == (j # 10) + (k # 10))
      by (unfold Qeq, Qplus; simpl; lia).
    rewrite E. ring.
Qed.

Lemma aqi_bonus_mono (aqi aqi' : Q) :
  aqi <= aqi' ->
  fst (aqi_factor aqi (0, [])) <= fst (aqi_factor aqi' (0, [])).
Proof. intros H. unfold aqi_factor. thresholds; simpl; lra. Qed.

Lemma rainfall_bonus_mono (r r' : Q) :
  r <= r' ->
  fst (rainfall_factor r (0, [])) <= fst (rainfall_factor r' (0, [])).
Proof. intros H. unfold rainfall_factor. thresholds; simpl; lra. Qed.

Lemma heat_bonus_mono (t t' : Q) :
  t <= t' ->
  fst (heat_factor t (0, [])) <= fst (heat_factor t' (0, [])).
Proof. intros H. unfold heat_factor. thresholds; simpl; lra. Qed.

Lemma aqi_bonus_tenths (aqi : Q) :
  exists k : Z, (0 <= k)%Z /\ fst (aqi_factor aqi (0, [])) == k # 10.
Proof.
  unfold aqi_factor. thresholds; simpl;
    [exists 5%Z | exists 2%Z | exists 1%Z | exists 0%Z];
    (split; [lia | reflexivity]).
Qed.

Lemma rainfall_bonus_tenths (r : Q) :
  exists k : Z, (0 <= k)%Z /\ fst (rainfall_factor r (0, [])) == k # 10.
Proof.
  unfold rainfall_factor. thresholds; simpl;
    [exists 3%Z | exists 1%Z | exists 0%Z];
    (split; [lia | reflexivity]).
Qed.

Lemma heat_bonus_tenths (t : Q) :
  exists k : Z, (0 <= k)%Z /\ fst (heat_factor t (0, [])) == k # 10.
Proof.
  unfold heat_factor. thresholds; simpl;
    [exists 2%Z | exists 0%Z];
    (split; [lia | reflexivity]).
Qed.

(** The accumulated multiplier is the base 1.0 plus the four bonuses. *)
Lemma accumulate_sum (aqi : Q) (weather : gmap string Q) (events : list string) :
  exists k : Z, (0 <= k)%Z /\
    fst (accumulate aqi weather events)
    == 1 + fst (aqi_factor aqi (0, []))
         + fst (rainfall_factor (weather_get weather "rainfall" 0) (0, []))
         + fst (heat_factor (weather_get weather "max_temp" 0) (0, []))
         + (k # 10)
    /\ forall aqi' weather',
        fst (accumulate aqi' weather' events)
        == 1 + fst (aqi_factor aqi' (0, []))
             + fst (rainfall_factor (weather_get weather' "rainfall" 0) (0, []))
             + fst (heat_factor (weather_get weather' "max_temp" 0) (0, []))
             + (k # 10).
Proof.
  destruct (events_add events) as (k & Hk & Hev).
  assert (H : forall aqi' weather',
        fst (accumulate aqi' weather' events)
        == 1 + fst (aqi_factor aqi' (0, []))
             + fst (rainfall_factor (weather_get weather' "rainfall" 0) (0, []))
             + fst (heat_factor (weather_get weather' "max_temp" 0) (0, []))
             + (k # 10)).
  { intros aqi' weather'. unfold accumulate. rewrite Hev.
    destruct (aqi_factor aqi' (1, [])) as [m1 rf1] eqn:E1.
    destruct (rainfall_factor _ (m1, rf1)) as [m2 rf2] eqn:E2.
    destruct (heat_factor _ (m2, rf2)) as [m3 rf3] eqn:E3.
    pose proof (aqi_factor_adds aqi' 1 []) as H1. rewrite E1 in H1.
    pose proof (rainfall_factor_adds
                  (weather_get weather' "rainfall" 0) m1 rf1) as H2.
    rewrite E2 in H2.
    pose proof (heat_factor_adds
                  (weather_get weather' "max_temp" 0) m2 rf2) as H3.
    rewrite E3 in H3. simpl in *. rewrite H3, H2, H1. ring. }
  exists k. split; [exact Hk | split; [apply H | exact H]].
Qed.

(** The accumulated multiplier has one decimal, so [round(_, 2)] returns
    it unchanged. *)
Lemma multiplier_unrounded (date_str : string) (aqi : Q)
    (weather : gmap string Q) (events : list string) :
  multiplier (predict date_str aqi weather events)
  == fst (accumulate aqi weather events).
Proof.
  unfold predict.
  destruct (accumulate_sum aqi weather events) as (k & Hk & Hsum & _).
  destruct (accumulate aqi weather events) as [m rf]. simpl in *.
  destruct (aqi_bonus_tenths aqi) as (a & _ & Ha).
  destruct (rainfall_bonus_tenths (weather_get weather "rainfall" 0))
    as (r & _ & Hr).
  destruct (heat_bonus_tenths (weather_get weather "max_temp" 0))
    as (t & _ & Ht).
  apply (py_round_exact m 2 (10 * (10 + a + r + t + k))).
  rewrite Hsum, Ha, Hr, Ht. unfold Qeq, Qplus, Qmult, inject_Z. simpl. lia.
Qed.

Lemma severity_unrounded (date_str : string) (aqi : Q)
    (weather : gmap string Q) (events : list string) :
  severity (predict date_str aqi weather events)
  = severity_of (fst (accumulate aqi weather events)).
Proof.
  unfold predict. now destruct (accumulate aqi weather events).
Qed.

(** The [>=] cascade of the source is the tier table of the
    specification. *)
Lemma severity_of_tiers (m : Q) : severity_of m = spec_severity_tier m.
Proof.
  unfold severity_of, spec_severity_tier.
  thresholds; try reflexivity; exfalso; lra.
Qed.

#[local] Instance spec_severity_tier_proper :
  Proper (Qeq ==> eq) spec_severity_tier.
Proof.
  intros x y E. unfold spec_severity_tier.
  thresholds; try reflexivity; exfalso; lra.
Qed.

End SurgeProps.

(** C3.  The surge multiplier returned by [predict] does not decrease when
    the AQI, the rainfall and the maximum temperature do not decrease and
    the events stay the same; holding two of the three fixed gives the
    monotonicity in the third alone.  The multiplier is never below 1.0. *)
Theorem surge_multiplier_monotone
    (date_str : string) (aqi aqi' : Q) (weather weather' : gmap string Q)
    (events : list string) :
  aqi <= aqi' ->
  weather_get weather "rainfall" 0 <= weather_get weather' "rainfall" 0 ->
  weather_get weather "max_temp" 0 <= weather_get weather' "max_temp" 0 ->
  multiplier (SurgePredictor.predict date_str aqi weather events)
  <= multiplier (SurgePredictor.predict date_str aqi' weather' events)
  /\ 1 <= multiplier (SurgePredictor.predict date_str aqi weather events).
Proof.
  intros Ha Hr Ht. rewrite !multiplier_unrounded.
  destruct (accumulate_sum aqi weather events) as (k & Hk & Hsum & Hall).
  rewrite Hsum, (Hall aqi' weather').
  pose proof (aqi_bonus_mono _ _ Ha).
  pose proof (rainfall_bonus_mono _ _ Hr).
  pose proof (heat_bonus_mono _ _ Ht).
  destruct (aqi_bonus_tenths aqi) as (a & Ha0 & Ea).
  destruct (rainfall_bonus_tenths (weather_get weather "rainfall" 0))
    as (r & Hr0 & Er).
  destruct (heat_bonus_tenths (weather_get weather "max_temp" 0))
    as (t & Ht0 & Et).
  split; [lra |].
  rewrite Ea, Er, Et. unfold Qle, Qplus. simpl. lia.
Qed.

Lemma surge_multiplier_monotone_witness :
  multiplier (SurgePredictor.predict "2024-11-01" 150
                {[ "rainfall" := 5; "max_temp" := 30 ]} ["Diwali"])
  <= multiplier (SurgePredictor.predict "2024-11-01" 450
                   {[ "rainfall" := 60; "max_temp" := 38 ]} ["Diwali"])
  /\ 1 <= multiplier (SurgePredictor.predict "2024-11-01" 150
                        {[ "rainfall" := 5; "max_temp" := 30 ]} ["Diwali"]).
Proof.
  apply (surge_multiplier_monotone "2024-11-01" 150 450
           {[ "rainfall" := 5; "max_temp" := 30 ]}
           {[ "rainfall" := 60; "max_temp" := 38 ]} ["Diwali"]);
    vm_compute; discriminate.
Defined.

(** C5.  The severity tier [predict] assigns is the tier of the final
    multiplier in the table: below 1.2 none, from 1.2 below 1.4 minor, from
    1.4 below 1.7 moderate, from 1.7 below 2.0 major, from 2.0 critical;
    each boundary value belongs to the tier it opens. *)
Theorem severity_follows_tier_table
    (date_str : string) (aqi : Q) (weather : gmap string Q)
    (events : list string) :
  severity (SurgePredictor.predict date_str aqi weather events)
  = spec_severity_tier
      (multiplier (SurgePredictor.predict date_str aqi weather events)).
Proof.
  rewrite severity_unrounded, severity_of_tiers.
  symmetry. apply spec_severity_tier_proper, multiplier_unrounded.
Qed.

(** The four boundaries, reached by inputs of [predict]. *)
Example severity_at_boundaries :
  let p12 := SurgePredictor.predict "d" 250 {[ "rainfall" := 20 ]} [] in
  let p14 := SurgePredictor.predict "d" 250 {[ "rainfall" := 60 ]} [] in
  let p17 := SurgePredictor.predict "d" 450 {[ "max_temp" := 37 ]} [] in
  let p20 := SurgePredictor.predict "d" 450
               {[ "rainfall" := 60; "max_temp" := 37 ]} [] in
  (multiplier p12 == 12 # 10 /\ severity p12 = minor)
  /\ (multiplier p14 == 14 # 10 /\ severity p14 = moderate)
  /\ (multiplier p17 == 17 # 10 /\ severity p17 = major)
  /\ (multiplier p20 == 2 /\ severity p20 = critical).
Proof. vm_compute. repeat split. Qed.

(** ** Admission decomposer *)

(** The five counts never exceed the total and fall short of it by at
    most four: each is truncated on its own. *)
Lemma admission_breakdown_sum_bounds
    (total_admissions : Z) (aqi : Q) (weather : gmap string Q)
    (events : list string) :
  (0 <= total_admissions)%Z ->
  (total_admissions - 4
   <= breakdown_sum
        (calculate_admission_breakdown total_admissions aqi weather events)
   <= total_admissions)%Z.
Proof.
  intros Ht. unfold calculate_admission_breakdown, breakdown_sum.
  destruct (qgtb aqi 200), (qgtb (weather_get weather "rainfall" 0) 30),
    (qgtb (weather_get weather "max_temp" 0) 35), (truthy events);
    cbn [respiratory waterborne heat trauma other];
    unfold py_int, of_int; simpl;
    rewrite ?Z.quot_div_nonneg by lia;
    Z.to_euclidean_division_equations; lia.
Qed.

(** C1.  The claim that the five category counts sum to the total: for
    10 admissions under normal conditions the decomposer returns
    1 + 1 + 0 + 2 + 5 = 9. *)
Theorem admission_breakdown_sum_short :
  let b := calculate_admission_breakdown 10 100 ∅ [] in
  b = mkBreakdown 1 1 0 2 5
  /\ breakdown_sum b = 9%Z
  /\ breakdown_sum b <> 10%Z.
Proof. vm_compute. repeat split. discriminate. Qed.

(** ** Supply procurement planner of the resource service *)

Section ResourceServiceProps.
Import ResourceMappings ResourceService.

Lemma qsum_nonneg (xs : list Q) : Forall (fun x => 0 <= x) xs -> 0 <= qsum xs.
Proof.
  unfold qsum. assert (G : forall acc, 0 <= acc ->
    Forall (fun x => 0 <= x) xs -> 0 <= fold_left Qplus xs acc).
  { induction xs as [| x xs IH]; intros acc Hacc Hxs; simpl; [exact Hacc |].
    inversion Hxs; subst. apply IH; [lra | assumption]. }
  apply G. lra.
Qed.


(** Every rate of the table is non-negative. *)
Lemma supply_rates_nonneg (supply_name : string) (requirements : gmap string Q) :
  In (supply_name, requirements) SUPPLY_REQUIREMENTS ->
  Forall (fun category => 0 <= default 0 (requirements !! category)) categories.
Proof.
  assert (H : forallb (fun entry =>
                forallb (fun category =>
                           Qle_bool 0 (default 0 (snd entry !! category)))
                        categories)
              SUPPLY_REQUIREMENTS = true) by (vm_compute; reflexivity).
  rewrite forallb_forall in H. intros Hin. specialize (H _ Hin).
  rewrite forallb_forall in H. apply List.Forall_forall. intros c Hc.
  apply Qle_bool_iff, H, Hc.
Qed.

Lemma base_need_nonneg (admissions : gmap string Z) (supply_name : string)
    (requirements : gmap string Q) :
  (forall category n, admissions !! category = Some n -> (0 <= n)%Z) ->
  In (supply_name, requirements) SUPPLY_REQUIREMENTS ->
  0 <= base_need admissions requirements.
Proof.
  intros Hadm Hin. unfold base_need. apply qsum_nonneg.
  pose proof (supply_rates_nonneg _ _ Hin) as Hr.
  rewrite List.Forall_forall in Hr. apply List.Forall_forall.
  intros x Hx. apply in_map_iff in Hx as (c & <- & Hc).
  apply Qmult_le_0_compat; [| apply Hr, Hc].
  unfold of_int. replace 0 with (inject_Z 0) by reflexivity.
  rewrite <- Zle_Qle.
  destruct (admissions !! c) as [n |] eqn:E; simpl; [eauto | lia].
Qed.

(** The buffer table: 30% for Municipal, 20% for Private and for any
    other class. *)
Lemma safety_buffer_cases (hospital_type : string) :
  (hospital_type = "Municipal" /\ safety_buffer hospital_type == 1 + (30 # 100))
  \/ (hospital_type <> "Municipal" /\ safety_buffer hospital_type == 1 + (20 # 100)).
Proof.
  unfold safety_buffer, SAFETY_BUFFERS. simpl list_to_map.
  destruct (decide (hospital_type = "Municipal")) as [-> | NM].
  - left. split; [reflexivity |]. rewrite lookup_insert_eq. reflexivity.
  - right. split; [assumption |]. rewrite lookup_insert_ne by congruence.
    destruct (decide (hospital_type = "Private")) as [-> | NP].
    + rewrite lookup_insert_eq. reflexivity.
    + rewrite lookup_insert_ne by congruence. rewrite lookup_empty. reflexivity.
Qed.

Lemma projected_need_nonneg (admissions : gmap string Z) (hospital_type : string)
    (supply_name : string) (requirements : gmap string Q) :
  (forall category n, admissions !! category = Some n -> (0 <= n)%Z) ->
  In (supply_name, requirements) SUPPLY_REQUIREMENTS ->
  0 <= base_need admissions requirements * safety_buffer hospital_type.
Proof.
  intros Hadm Hin. apply Qmult_le_0_compat.
  - eapply base_need_nonneg; eassumption.
  - destruct (safety_buffer_cases hospital_type) as [[_ E] | [_ E]];
      rewrite E; lra.
Qed.

(** The fields of an emitted item, in terms of the table entry it comes
    from. *)
Lemma supply_status_fields (buffer : Q) (inv : gmap string Z)
    (admissions : gmap string Z) (supply_name : string)
    (requirements : gmap string Q) :
  let item := supply_status buffer inv admissions (supply_name, requirements) in
  item_name item = supply_name
  /\ current_stock item = default 0%Z (inv !! supply_name)
  /\ projected_need item = py_int (base_need admissions requirements * buffer)
  /\ quantity_to_order item
     = Z.max 0 (projected_need item - current_stock item)
  /\ (status item, action_required item)
     = classify (stock_percentage_of (current_stock item) (projected_need item)).
Proof.
  unfold supply_status.
  destruct (classify _) as [st act] eqn:E. simpl. rewrite E. tauto.
Qed.

End ResourceServiceProps.



(** The service emits one item per entry of the requirement table, in
    the order of the table. *)
Lemma supply_needs_items
    (inventory_data : gmap string HospitalInfo) (hospital_id : string)
    (admissions : gmap string Z) :
  map ResourceService.item_name
      (ResourceService.calculate_supply_needs inventory_data hospital_id admissions)
  = map fst ResourceMappings.SUPPLY_REQUIREMENTS.
Proof.
  unfold ResourceService.calculate_supply_needs. rewrite map_map.
  apply map_ext. intros [supply_name requirements].
  apply supply_status_fields.
Qed.

(** C6, as stated: a coverage of exactly 80% lies in the band "from 50% up
    to 80%" and should be LOW, but the service reports OK.  A Private
    facility holding 24 glove kits against a projected need of 30. *)
Lemma status_at_80_percent_counterexample :
  exists item,
    In item (ResourceService.calculate_supply_needs
               {[ "HIN_H5" := mkHospitalInfo "Hinduja Hospital" "Private"
                                {[ "Gloves/PPE" := 24%Z ]} ]}
               "HIN_H5" {[ "respiratory" := 1%Z ]})
    /\ ResourceService.current_stock item = 24%Z
    /\ ResourceService.projected_need item = 30%Z
    /\ spec_coverage (ResourceService.current_stock item)
                     (ResourceService.projected_need item) == 80
    /\ (ResourceService.status item, ResourceService.action_required item)
       = (OK, NoAction)
    /\ (ResourceService.status item, ResourceService.action_required item)
       <> spec_status (spec_coverage (ResourceService.current_stock item)
                                     (ResourceService.projected_need item)).
Proof.
  exists (ResourceService.mkSupplyStatus "Gloves/PPE" 24 30 (800 # 10)
            OK NoAction 6).
  split; [apply (nth_error_In _ 7); vm_compute; reflexivity |].
  vm_compute. repeat split. discriminate.
Qed.

(** C6, amended.  The status follows the coverage ratio
    [current_stock / projected_need] (100% when [projected_need] is 0):
    below 50% CRITICAL with ORDER_IMMEDIATELY, from 50% and below 80% LOW
    with ORDER_IMMEDIATELY, from 80% on OK with no action.  Admission
    counts are non-negative. *)
Theorem status_by_coverage
    (inventory_data : gmap string HospitalInfo) (hospital_id : string)
    (admissions : gmap string Z) (item : ResourceService.SupplyStatus) :
  (forall category n, admissions !! category = Some n -> (0 <= n)%Z) ->
  In item (ResourceService.calculate_supply_needs
             inventory_data hospital_id admissions) ->
  let coverage := spec_coverage (ResourceService.current_stock item)
                                (ResourceService.projected_need item) in
  (coverage < 50 ->
   ResourceService.status item = CRITICAL
   /\ ResourceService.action_required item = ORDER_IMMEDIATELY)
  /\ (50 <= coverage /\ coverage < 80 ->
      ResourceService.status item = LOW
      /\ ResourceService.action_required item = ORDER_IMMEDIATELY)
  /\ (80 <= coverage ->
      ResourceService.status item = OK
      /\ ResourceService.action_required item = NoAction).
Proof.
  intros Hadm Hin.
  unfold ResourceService.calculate_supply_needs in Hin.
  apply in_map_iff in Hin as ([supply_name requirements] & <- & Hentry).
  destruct (supply_status_fields
              (ResourceService.safety_buffer
                 (ResourceService.hospital_type inventory_data hospital_id))
              (ResourceService.current_inventory inventory_data hospital_id)
              admissions supply_name requirements)
    as (_ & _ & Hneed & _ & Hclass).
  set (item := ResourceService.supply_status _ _ _ _) in *.
  assert (Hpos : (0 <= ResourceService.projected_need item)%Z).
  { rewrite Hneed, py_int_nonneg
      by (eapply projected_need_nonneg; eassumption).
    replace 0%Z with (Qfloor 0) by reflexivity.
    apply Qfloor_resp_le. eapply projected_need_nonneg; eassumption. }
  assert (Hcov : ResourceService.stock_percentage_of
                   (ResourceService.current_stock item)
                   (ResourceService.projected_need item)
                 = spec_coverage (ResourceService.current_stock item)
                                 (ResourceService.projected_need item)).
  { unfold ResourceService.stock_percentage_of, spec_coverage.
    destruct (Z.ltb_spec 0 (ResourceService.projected_need item)),
             (Z.eqb_spec (ResourceService.projected_need item) 0);
      try reflexivity; lia. }
  rewrite Hcov in Hclass. simpl.
  unfold ResourceService.classify in Hclass. revert Hclass.
  thresholds; intros Hclass; injection Hclass as Hs Ha; rewrite Hs, Ha;
    repeat split; intros; try reflexivity; exfalso; lra.
Qed.

Lemma status_by_coverage_witness :
  let item := ResourceService.mkSupplyStatus "Gloves/PPE" 24 30 (800 # 10)
                OK NoAction 6 in
  let coverage := spec_coverage (ResourceService.current_stock item)
                                (ResourceService.projected_need item) in
  (coverage < 50 ->
   ResourceService.status item = CRITICAL
   /\ ResourceService.action_required item = ORDER_IMMEDIATELY)
  /\ (50 <= coverage /\ coverage < 80 ->
      ResourceService.status item = LOW
      /\ ResourceService.action_required item = ORDER_IMMEDIATELY)
  /\ (80 <= coverage ->
      ResourceService.status item = OK
      /\ ResourceService.action_required item = NoAction).
Proof.
  intros item.
  apply (status_by_coverage
           {[ "HIN_H5" := mkHospitalInfo "Hinduja Hospital" "Private"
                            {[ "Gloves/PPE" := 24%Z ]} ]}
           "HIN_H5" {[ "respiratory" := 1%Z ]} item).
  - intros category n H. apply lookup_singleton_Some in H as [_ <-]. lia.
  - apply (nth_error_In _ 7). vm_compute. reflexivity.
Defined.

(** ** Resource recommendation agent: priority score *)

Section PriorityProps.
Import Agent.

Lemma of_int_pos (n : Z) : (0 < n)%Z -> 0 < of_int n.
Proof.
  intros H. unfold of_int. replace 0 with (inject_Z 0) by reflexivity.
  now rewrite <- Zlt_Qlt.
Qed.

Lemma of_int_nonneg (n : Z) : (0 <= n)%Z -> 0 <= of_int n.
Proof.
  intros H. unfold of_int. replace 0 with (inject_Z 0) by reflexivity.
  now rewrite <- Zle_Qle.
Qed.

Lemma of_int_le (n m : Z) : (n <= m)%Z -> of_int n <= of_int m.
Proof. intros H. unfold of_int. now rewrite <- Zle_Qle. Qed.

Lemma unit_interval_mult (a b : Q) :
  0 <= a <= 1 -> 0 <= b <= 1 -> 0 <= a * b <= 1.
Proof.
  intros [Ha0 Ha1] [Hb0 Hb1]. split.
  - now apply Qmult_le_0_compat.
  - assert (H : a * b <= 1 * b) by (apply Qmult_le_compat_r; assumption).
    lra.
Qed.


Lemma shortage_ratio_range (current_stock required : Z) :
  (0 <= current_stock)%Z ->
  0 <= shortage_ratio current_stock required <= 1.
Proof.
  intros Hc. unfold shortage_ratio.
  destruct (Z.ltb_spec 0 required) as [Hr | Hr]; [| lra].
  pose proof (of_int_pos _ Hr) as Hpos.
  assert (Hle : of_int (required - current_stock) / of_int required <= 1).
  { apply Qle_shift_div_r; [exact Hpos |].
    rewrite Qmult_1_l. apply of_int_le. lia. }
  destruct (qmax_spec 0 (of_int (required - current_stock) / of_int required))
    as [[H0 E] | [H0 E]]; rewrite E; lra.
Qed.

Lemma time_urgency_range (self : t) (resource_type : string)
    (days_until_surge : Z) :
  0 <= time_urgency self resource_type days_until_surge <= 1.
Proof.
  unfold time_urgency.
  set (lead_time := default 0%Z (lead_times self !! resource_type)).
  destruct (Z.leb_spec days_until_surge lead_time) as [Hd | Hd]; [lra |].
  assert (Hpos : 0 < of_int (days_until_surge - lead_time))
    by (apply of_int_pos; lia).
  assert (Hq : 0 <= of_int (days_until_surge - lead_time) / 7)
    by (apply Qle_shift_div_l; lra).
  destruct (qmax_spec 0 (1 - of_int (days_until_surge - lead_time) / 7))
    as [[H0 E] | [H0 E]]; rewrite E; lra.
Qed.

Lemma clinical_criticality_range (resource_type : string) :
  0 <= clinical_criticality resource_type <= 1.
Proof.
  unfold clinical_criticality.
  destruct (clinical_criticality_table !! resource_type) as [w |] eqn:E;
    simpl; [| lra].
  apply elem_of_list_to_map_2 in E.
  repeat (apply elem_of_cons in E as [E | E];
          [injection E as _ ->; lra |]).
  now apply elem_of_nil in E.
Qed.


(** In general the score is the product clamped at 100. *)
Lemma priority_clamped (self : t) (resource_type : string)
    (current_stock required days_until_surge : Z) :
  calculate_resource_priority self resource_type current_stock required
                              days_until_surge <= 100.
Proof.
  unfold calculate_resource_priority.
  match goal with |- qmin 100 ?p <= 100 =>
    destruct (qmin_spec 100 p) as [[H E] | [H E]]; rewrite E; lra
  end.
Qed.

End PriorityProps.



(** The per-type weights, and the default for an unlisted type. *)
Example clinical_criticality_weights :
  map Agent.clinical_criticality
      ["doctors"; "nurses"; "oxygen_liters"; "medications_units"; "ppe_kits";
       "iv_fluids_ml"; "beds_needed"; "support_staff"; "bed_linens";
       "stretchers"]
  = [1; 1; 95 # 100; 9 # 10; 85 # 100; 85 # 100; 8 # 10; 75 # 100; 6 # 10;
     5 # 10].
Proof. vm_compute. reflexivity. Qed.

(** ** Resource recommendation agent: procurement plan *)

Section ProcurementProps.
Import Agent.

Lemma in_insert_by_priority (x y : ProcurementItem) (l : list ProcurementItem) :
  In x (insert_by_priority y l) <-> x = y \/ In x l.
Proof.
  induction l as [| z l IH]; simpl.
  - intuition.
  - destruct (qgtb (priority z) (priority y)); simpl; rewrite ?IH; intuition.
Qed.

(** Sorting neither drops nor invents an item. *)
Lemma in_sort_by_priority (x : ProcurementItem) (l : list ProcurementItem) :
  In x (sort_by_priority l) <-> In x l.
Proof.
  induction l as [| y l IH]; simpl; [tauto |].
  rewrite in_insert_by_priority, IH. intuition.
Qed.

Lemma for_each_cons {A S} (body : S -> A -> result S) (a : A) (l : list A)
    (s : S) :
  for_each body (a :: l) s = body s a ≫= for_each body l.
Proof. reflexivity. Qed.

(** One turn of the loop either skips the entry, whose buffered shortage
    is zero, or appends the item recorded for it. *)
Lemma supply_step_ok (self : t) (current_inventory : gmap string Z)
    (days_until_surge : Z) (plan plan' : list ProcurementItem)
    (supply_type : string) (required : Z) :
  supply_step self current_inventory days_until_surge plan
              (supply_type, required) = Ok plan' ->
  let shortage :=
    buffered_shortage self required
                      (default 0%Z (current_inventory !! supply_type)) in
  (shortage = 0%Z /\ plan' = plan)
  \/ (shortage <> 0%Z /\
      exists lead_time,
        lead_times self !! supply_type = Some lead_time
        /\ plan' = plan ++ [procurement_item self current_inventory
                                             days_until_surge supply_type
                                             required lead_time]).
Proof.
  unfold supply_step. intros H. cbv zeta in *.
  set (shortage := buffered_shortage self required
                     (default 0%Z (current_inventory !! supply_type))) in *.
  destruct (Z.eqb_spec shortage 0) as [E | NE].
  - left. split; [exact E | congruence].
  - right. split; [exact NE |]. unfold subscript in H.
    destruct (lead_times self !! supply_type) as [lead_time |];
      simpl in H; [| discriminate].
    exists lead_time. split; [reflexivity | congruence].
Qed.

(** Every item of the unsorted plan was already there or is the item
    recorded for an entry with a non-zero buffered shortage. *)
Lemma for_each_supply_step (self : t) (current_inventory : gmap string Z)
    (days_until_surge : Z) (entries : list (string * Z)) :
  forall plan0 plan,
    for_each (supply_step self current_inventory days_until_surge)
             entries plan0 = Ok plan ->
    forall item, In item plan ->
      In item plan0
      \/ exists supply_type required lead_time,
           In (supply_type, required) entries
           /\ buffered_shortage self required
                (default 0%Z (current_inventory !! supply_type)) <> 0%Z
           /\ lead_times self !! supply_type = Some lead_time
           /\ item = procurement_item self current_inventory days_until_surge
                                      supply_type required lead_time.
Proof.
  induction entries as [| [supply_type required] entries IH];
    intros plan0 plan H item Hin.
  - injection H as <-. now left.
  - rewrite for_each_cons in H.
    destruct (supply_step _ _ _ plan0 _) as [plan1 | key] eqn:Hstep;
      simpl in H; [| discriminate].
    destruct (IH _ _ H _ Hin) as [Hin1 | (s & r & l & He & Hs & Hl & Hi)].
    + apply supply_step_ok in Hstep
        as [[_ ->] | [Hne (lead_time & Hl & ->)]]; [now left |].
      apply in_app_iff in Hin1 as [Hin0 | [<- | []]]; [now left |].
      right. exists supply_type, required, lead_time. simpl. auto.
    + right. exists s, r, l. simpl. auto.
Qed.

Lemma supply_step_returns (self : t) (current_inventory : gmap string Z)
    (days_until_surge : Z) (plan : list ProcurementItem)
    (supply_type : string) (required lead_time : Z) :
  lead_times self !! supply_type = Some lead_time ->
  exists plan',
    supply_step self current_inventory days_until_surge plan
                (supply_type, required) = Ok plan'.
Proof.
  intros Hl. unfold supply_step, subscript. rewrite Hl.
  destruct (_ =? _)%Z; simpl; eauto.
Qed.

(** The loop runs to the end when every requested supply type has a lead
    time. *)
Lemma for_each_supply_step_returns (self : t)
    (current_inventory : gmap string Z) (days_until_surge : Z)
    (entries : list (string * Z)) :
  Forall (fun entry => is_Some (lead_times self !! fst entry)) entries ->
  forall plan0, exists plan,
    for_each (supply_step self current_inventory days_until_surge)
             entries plan0 = Ok plan.
Proof.
  induction 1 as [| [supply_type required] entries [lead_time Hl] _ IH];
    intros plan0.
  - now exists plan0.
  - rewrite for_each_cons. simpl in Hl.
    destruct (supply_step_returns self current_inventory days_until_surge
                plan0 supply_type required lead_time Hl) as [plan1 ->].
    simpl. apply IH.
Qed.

Lemma calculate_supply_needs_returns (self : t)
    (required_supplies : list (string * Z))
    (current_inventory : gmap string Z) (days_until_surge : Z) :
  Forall (fun entry => is_Some (lead_times self !! fst entry))
         required_supplies ->
  exists plan,
    calculate_supply_needs self required_supplies current_inventory
                           days_until_surge = Ok plan.
Proof.
  intros H. unfold calculate_supply_needs.
  destruct (for_each_supply_step_returns self current_inventory
              days_until_surge required_supplies H []) as [plan ->].
  simpl. eauto.
Qed.

(** Every item of the returned plan is the item recorded for one of the
    requested supplies whose buffered shortage is not zero. *)
Lemma calculate_supply_needs_items (self : t)
    (required_supplies : list (string * Z))
    (current_inventory : gmap string Z) (days_until_surge : Z)
    (plan : list ProcurementItem) (item : ProcurementItem) :
  calculate_supply_needs self required_supplies current_inventory
                         days_until_surge = Ok plan ->
  In item plan ->
  exists supply_type required lead_time,
    In (supply_type, required) required_supplies
    /\ buffered_shortage self required
         (default 0%Z (current_inventory !! supply_type)) <> 0%Z
    /\ lead_times self !! supply_type = Some lead_time
    /\ item = procurement_item self current_inventory days_until_surge
                               supply_type required lead_time.
Proof.
  unfold calculate_supply_needs. intros H Hin.
  destruct (for_each _ _ _) as [unsorted | key] eqn:Hloop;
    simpl in H; [| discriminate].
  injection H as <-. rewrite in_sort_by_priority in Hin.
  destruct (for_each_supply_step _ _ _ _ _ _ Hloop _ Hin) as [[] | H].
  exact H.
Qed.

End ProcurementProps.

(** C8.  Every item of the returned plan is marked [order_immediately]
    exactly when its priority score exceeds 80 or delivery is not
    possible, where delivery is possible when [days_until_surge] exceeds
    the lead time of the supply; so an item whose lead time is not below
    [days_until_surge] is always marked. *)
Theorem order_immediately_rule
    (self : Agent.t) (required_supplies : list (string * Z))
    (current_inventory : gmap string Z) (days_until_surge : Z)
    (plan : list Agent.ProcurementItem) (item : Agent.ProcurementItem) :
  Agent.calculate_supply_needs self required_supplies current_inventory
                               days_until_surge = Ok plan ->
  In item plan ->
  Agent.lead_times self !! Agent.supply item = Some (Agent.lead_time_days item)
  /\ Agent.priority item
     = Agent.calculate_resource_priority self (Agent.supply item)
         (Agent.current_stock item) (Agent.required item) days_until_surge
  /\ (Agent.delivery_possible item = true
      <-> (Agent.lead_time_days item < days_until_surge)%Z)
  /\ (Agent.order_immediately item = true
      <-> 80 < Agent.priority item \/ Agent.delivery_possible item = false)
  /\ ((days_until_surge <= Agent.lead_time_days item)%Z ->
      Agent.order_immediately item = true).
Proof.
  intros Hplan Hin.
  destruct (calculate_supply_needs_items _ _ _ _ _ _ Hplan Hin)
    as (supply_type & required & lead_time & _ & _ & Hl & ->).
  simpl. split; [exact Hl |]. split; [reflexivity |].
  rewrite Z.ltb_lt, orb_true_iff, qgtb_true, negb_true_iff.
  split; [tauto |]. split; [tauto |].
  intros Hd. right. apply Z.ltb_ge, Hd.
Qed.

Lemma order_immediately_rule_witness :
  let item :=
    Agent.procurement_item Agent.init {[ "ppe_kits" := 200%Z ]} 1
                           "ppe_kits" 600 2 in
  Agent.lead_times Agent.init !! Agent.supply item
  = Some (Agent.lead_time_days item)
  /\ Agent.priority item
     = Agent.calculate_resource_priority Agent.init (Agent.supply item)
         (Agent.current_stock item) (Agent.required item) 1
  /\ (Agent.delivery_possible item = true
      <-> (Agent.lead_time_days item < 1)%Z)
  /\ (Agent.order_immediately item = true
      <-> 80 < Agent.priority item \/ Agent.delivery_possible item = false)
  /\ ((1 <= Agent.lead_time_days item)%Z ->
      Agent.order_immediately item = true).
Proof.
  intros item.
  apply (order_immediately_rule Agent.init [("ppe_kits", 600%Z)]
           {[ "ppe_kits" := 200%Z ]} 1 [item] item).
  - vm_compute. reflexivity.
  - simpl. left. reflexivity.
Defined.

(** Scenario 5: one day to the surge, two days of lead time.  The score is
    below 80 and the item is marked all the same. *)
Example order_immediately_when_late :
  let item :=
    Agent.procurement_item Agent.init {[ "ppe_kits" := 200%Z ]} 1
                           "ppe_kits" 600 2 in
  Agent.calculate_supply_needs Agent.init [("ppe_kits", 600%Z)]
                               {[ "ppe_kits" := 200%Z ]} 1 = Ok [item]
  /\ Agent.priority item < 80
  /\ Agent.delivery_possible item = false
  /\ Agent.order_immediately item = true.
Proof. vm_compute. repeat split. Qed.

(** C10.  Every element of the returned plan has [to_order > 0]: a supply
    whose stock covers the buffered requirement, that is
    [max(0, required * 1.15 - current) = 0], is left out of the plan. *)
Theorem procurement_plan_orders_positive
    (self : Agent.t) (required_supplies : list (string * Z))
    (current_inventory : gmap string Z) (days_until_surge : Z)
    (plan : list Agent.ProcurementItem) :
  Agent.inventory_buffer self == 15 # 100 ->
  PyDict.wf required_supplies ->
  Agent.calculate_supply_needs self required_supplies current_inventory
                               days_until_surge = Ok plan ->
  (forall item, In item plan -> (0 < Agent.to_order item)%Z)
  /\ (forall supply_type required,
        In (supply_type, required) required_supplies ->
        qmax 0 (of_int required * (115 # 100)
                - of_int (default 0%Z (current_inventory !! supply_type)))
        == 0 ->
        forall item, In item plan -> Agent.supply item <> supply_type).
Proof.
  intros Hbuf Hwf Hplan. split.
  - intros item Hin.
    destruct (calculate_supply_needs_items _ _ _ _ _ _ Hplan Hin)
      as (supply_type & required & lead_time & _ & Hne & _ & ->).
    simpl. unfold Agent.buffered_shortage in *. lia.
  - intros supply_type required Hentry Hcovered item Hin Hsupply.
    destruct (calculate_supply_needs_items _ _ _ _ _ _ Hplan Hin)
      as (supply_type' & required' & lead_time & Hentry' & Hne & _ & ->).
    simpl in Hsupply. subst supply_type'.
    assert (required' = required) as ->.
    { exact (wf_In_unique _ _ _ _ Hwf Hentry' Hentry). }
    apply Hne. unfold Agent.buffered_shortage.
    set (current := default 0%Z (current_inventory !! supply_type)) in *.
    assert (Hle : of_int required * (1 + Agent.inventory_buffer self)
                  - of_int current <= 0).
    { rewrite Hbuf.
      destruct (qmax_spec 0 (of_int required * (115 # 100) - of_int current))
        as [[H0 E] | [H0 E]]; rewrite E in Hcovered; lra. }
    pose proof (py_int_nonpos _ Hle). lia.
Qed.

Lemma procurement_plan_orders_positive_witness :
  let current_inventory : gmap string Z :=
    {[ "ppe_kits" := 200%Z; "bed_linens" := 500%Z ]} in
  let plan :=
    [Agent.procurement_item Agent.init current_inventory 5 "ppe_kits" 600 2] in
  (forall item, In item plan -> (0 < Agent.to_order item)%Z)
  /\ (forall supply_type required,
        In (supply_type, required) [("ppe_kits", 600%Z); ("bed_linens", 100%Z)] ->
        qmax 0 (of_int required * (115 # 100)
                - of_int (default 0%Z (current_inventory !! supply_type)))
        == 0 ->
        forall item, In item plan -> Agent.supply item <> supply_type).
Proof.
  intros current_inventory plan.
  apply (procurement_plan_orders_positive Agent.init
           [("ppe_kits", 600%Z); ("bed_linens", 100%Z)]
           current_inventory 5 plan).
  - reflexivity.
  - unfold PyDict.wf. simpl.
    repeat (apply List.NoDup_cons; [simpl; intuition discriminate |]).
    apply List.NoDup_nil.
  - vm_compute. reflexivity.
Defined.

(** The covered supply of the example above is absent from the plan and
    the other one is ordered. *)
Example covered_supply_is_omitted :
  Agent.calculate_supply_needs Agent.init
    [("ppe_kits", 600%Z); ("bed_linens", 100%Z)]
    {[ "ppe_kits" := 200%Z; "bed_linens" := 500%Z ]} 5
  = Ok [Agent.procurement_item Agent.init
          {[ "ppe_kits" := 200%Z; "bed_linens" := 500%Z ]} 5 "ppe_kits" 600 2]
  /\ Agent.to_order
       (Agent.procurement_item Agent.init
          {[ "ppe_kits" := 200%Z; "bed_linens" := 500%Z ]} 5 "ppe_kits" 600 2)
     = 490%Z.
Proof. vm_compute. split; reflexivity. Qed.

(** ** Resource recommendation agent: readiness score *)

(** The supply side of the score clamps each coverage at 100. *)
Lemma supply_coverage_clamped (item : Agent.ProcurementItem) :
  Agent.supply_coverage item <= 100.
Proof.
  unfold Agent.supply_coverage.
  match goal with |- qmin 100 ?c <= 100 =>
    destruct (qmin_spec 100 c) as [[H E] | [H E]]; rewrite E; lra
  end.
Qed.

(** The staff side does not: the coverage [calculate_staff_needs] records
    is never below 100 and exceeds it as soon as more staff is available
    than required. *)
Lemma staff_coverage_at_least_100
    (required_staff available_staff : gmap string Z) (staff_type : string) :
  let allocation :=
    snd (Agent.staff_allocation required_staff available_staff staff_type) in
  100 <= Agent.coverage allocation
  /\ ((0 < Agent.staff_required allocation < Agent.staff_available allocation)%Z ->
      100 < Agent.coverage allocation).
Proof.
  unfold Agent.staff_allocation. simpl.
  set (required := default 0%Z (required_staff !! staff_type)).
  set (available := default 0%Z (available_staff !! staff_type)).
  destruct (Z.ltb_spec 0 required) as [Hr | Hr]; [| split; [lra | lia]].
  pose proof (of_int_pos _ Hr) as Hpos.
  split.
  - assert (H : 1 <= of_int (available + Z.max 0 (required - available))
                     / of_int required).
    { apply Qle_shift_div_l; [exact Hpos |].
      rewrite Qmult_1_l. apply of_int_le. lia. }
    lra.
  - intros [_ Hlt].
    assert (H : 1 < of_int (available + Z.max 0 (required - available))
                    / of_int required).
    { apply Qlt_shift_div_l; [exact Hpos |].
      rewrite Qmult_1_l. unfold of_int. rewrite <- Zlt_Qlt. lia. }
    lra.
Qed.

(** C9.  The readiness score is meant to lie in [0, 100] with every
    coverage clamped at 100.  With twice the required staff on hand and
    nothing to procure, each staff coverage is 200 and the score is 160. *)
Theorem readiness_score_above_100 :
  let staff_plan :=
    Agent.calculate_staff_needs
      {[ "doctors" := 10%Z; "nurses" := 30%Z; "support_staff" := 15%Z ]}
      {[ "doctors" := 20%Z; "nurses" := 60%Z; "support_staff" := 30%Z ]} in
  Forall (fun entry => Agent.coverage (snd entry) == 200) staff_plan
  /\ Agent.calculate_supply_needs Agent.init
       [("ppe_kits", 600%Z); ("oxygen_liters", 3000%Z);
        ("iv_fluids_ml", 150000%Z); ("medications_units", 1500%Z);
        ("bed_linens", 600%Z)]
       {[ "ppe_kits" := 900%Z; "oxygen_liters" := 4000%Z;
          "iv_fluids_ml" := 200000%Z; "medications_units" := 2000%Z;
          "bed_linens" := 700%Z ]} 5 = Ok []
  /\ Agent._calculate_readiness_score staff_plan [] == 160
  /\ ~ Agent._calculate_readiness_score staff_plan [] <= 100.
Proof.
  vm_compute. split; [| split; [reflexivity | split; [reflexivity |]]].
  - repeat constructor.
  - intros H. apply H. reflexivity.
Qed.

(** ** Multi-facility pooling optimizer *)

Section PoolingProps.
Import Pooling.
#[local] Open Scope Z_scope.

(** *** Sums *)

Lemma zsum_from (l : list Z) (a : Z) : fold_left Z.add l a = a + zsum l.
Proof.
  unfold zsum. revert a. induction l as [| x l IH]; intros a; simpl; [lia |].
  rewrite IH, (IH (0 + x)). lia.
Qed.

Lemma zsum_cons (x : Z) (l : list Z) : zsum (x :: l) = x + zsum l.
Proof. unfold zsum at 1. simpl. apply zsum_from. Qed.

Lemma zsum_app (l l' : list Z) : zsum (l ++ l') = zsum l + zsum l'.
Proof.
  induction l as [| x l IH]; simpl; [reflexivity |].
  rewrite !zsum_cons, IH. lia.
Qed.

Lemma contribution_snoc (w : list (Hospital * string)) (p : Hospital * string)
    (resource_type : string) (amount : Hospital * string -> Z) :
  contribution (w ++ [p]) resource_type amount
  = contribution w resource_type amount
    + (if decide (snd p = resource_type) then amount p else 0).
Proof.
  unfold contribution. rewrite map_app, zsum_app. simpl.
  rewrite zsum_cons. unfold zsum. simpl. lia.
Qed.

Lemma contribution_app (w w' : list (Hospital * string))
    (resource_type : string) (amount : Hospital * string -> Z) :
  contribution (w ++ w') resource_type amount
  = contribution w resource_type amount + contribution w' resource_type amount.
Proof. unfold contribution. now rewrite map_app, zsum_app. Qed.

(** *** Running totals *)

Lemma get_default_set (d : list (string * Z)) (k k' : string) (v dflt : Z) :
  PyDict.get_default (PyDict.set d k v) k' dflt
  = if decide (k = k') then v else PyDict.get_default d k' dflt.
Proof.
  unfold PyDict.get_default. destruct (decide (k = k')) as [<- | Hne].
  - now rewrite get_set_eq.
  - now rewrite get_set_ne.
Qed.

Lemma tally_total (amount : Hospital * string -> Z)
    (w : list (Hospital * string)) (resource_type : string) :
  PyDict.get_default (fold_left (tally amount) w []) resource_type 0
  = contribution w resource_type amount.
Proof.
  induction w as [| p w IH] using rev_ind; [reflexivity |].
  rewrite fold_left_app, contribution_snoc. simpl. unfold tally at 1.
  rewrite get_default_set.
  destruct (decide (snd p = resource_type)) as [<- | Hne]; lia.
Qed.

Lemma tally_keys (amount : Hospital * string -> Z)
    (w : list (Hospital * string)) (resource_type : string) :
  In resource_type (PyDict.keys (fold_left (tally amount) w []))
  <-> exists p, In p w /\ snd p = resource_type.
Proof.
  induction w as [| p w IH] using rev_ind.
  - simpl. split; [tauto | intros (p & [] & _)].
  - rewrite fold_left_app. simpl. unfold tally at 1.
    rewrite in_keys_set, IH. split.
    + intros [-> | (q & Hq & Hrt)].
      * exists p. split; [apply in_app_iff; simpl; auto | reflexivity].
      * exists q. split; [apply in_app_iff; auto | exact Hrt].
    + intros (q & Hq & Hrt). apply in_app_iff in Hq as [Hq | [<- | []]].
      * right. eauto.
      * left. now symmetry.
Qed.

(** The two totals are assigned under the same keys in the same order. *)
Lemma keys_set_same (d d' : list (string * Z)) (k : string) (v v' : Z) :
  PyDict.keys d = PyDict.keys d' ->
  PyDict.keys (PyDict.set d k v) = PyDict.keys (PyDict.set d' k v').
Proof.
  intros E.
  destruct (in_dec (fun a b : string => decide (a = b)) k (PyDict.keys d))
    as [Hin | Hnotin].
  - rewrite !keys_set_present by congruence. exact E.
  - rewrite !keys_set_absent by congruence. now rewrite E.
Qed.

Lemma tally_same_keys (amount amount' : Hospital * string -> Z)
    (w : list (Hospital * string)) :
  PyDict.keys (fold_left (tally amount) w [])
  = PyDict.keys (fold_left (tally amount') w []).
Proof.
  induction w as [| p w IH] using rev_ind; [reflexivity |].
  rewrite !fold_left_app. simpl. unfold tally at 1 3.
  now apply keys_set_same.
Qed.

(** *** Nested dictionaries *)

Lemma get_set_nested_eq (d : list (string * list (string * Z)))
    (h_id resource_type : string) (amount : Z) :
  PyDict.get (set_nested d h_id resource_type amount) h_id
  = Some (PyDict.set (PyDict.get_default d h_id []) resource_type amount).
Proof.
  unfold set_nested. rewrite get_set_eq. do 2 f_equal.
  unfold PyDict.mem, PyDict.get_default.
  destruct (PyDict.get d h_id) eqn:E; [now rewrite E |].
  now rewrite get_set_eq.
Qed.

Lemma get_set_nested_ne (d : list (string * list (string * Z)))
    (h_id h_id' resource_type : string) (amount : Z) :
  h_id <> h_id' ->
  PyDict.get (set_nested d h_id resource_type amount) h_id' = PyDict.get d h_id'.
Proof.
  intros Hne. unfold set_nested. rewrite get_set_ne by assumption.
  destruct (PyDict.mem d h_id); [reflexivity |].
  now rewrite get_set_ne.
Qed.

Lemma wf_set_nested (d : list (string * list (string * Z)))
    (h_id resource_type : string) (amount : Z) :
  PyDict.wf d -> PyDict.wf (set_nested d h_id resource_type amount).
Proof.
  intros Hwf. unfold set_nested. apply wf_set.
  destruct (PyDict.mem d h_id); [assumption | now apply wf_set].
Qed.

Lemma mem_set (inner : list (string * Z)) (k k' : string) (v : Z) :
  PyDict.mem (PyDict.set inner k v) k' = true
  <-> k = k' \/ PyDict.mem inner k' = true.
Proof.
  rewrite !mem_true, in_keys_set. intuition congruence.
Qed.

Lemma mem_false_default (inner : list (string * Z)) (k : string) :
  PyDict.mem inner k = false -> PyDict.get_default inner k 0 = 0.
Proof.
  unfold PyDict.mem, PyDict.get_default.
  destruct (PyDict.get inner k); [discriminate | reflexivity].
Qed.

(** Replacing a facility's dictionary changes a column by the difference
    of the two entries. *)
Lemma column_set (d : list (string * list (string * Z))) (h_id : string)
    (inner : list (string * Z)) (resource_type : string) :
  column (PyDict.set d h_id inner) resource_type
  = column d resource_type
    - PyDict.get_default (PyDict.get_default d h_id []) resource_type 0
    + PyDict.get_default inner resource_type 0.
Proof.
  unfold column. induction d as [| [k x] d IH].
  - simpl. unfold zsum. simpl. reflexivity.
  - assert (E : PyDict.get_default ((k, x) :: d) h_id []
                = if decide (h_id = k) then x
                  else PyDict.get_default d h_id [])
      by (unfold PyDict.get_default; simpl; now destruct (decide _)).
    rewrite E. cbn [PyDict.set].
    destruct (decide (h_id = k)) as [-> | Hne]; cbn [map snd];
      rewrite !zsum_cons; [lia | rewrite IH; lia].
Qed.

Lemma column_set_nested (d : list (string * list (string * Z)))
    (h_id resource_type resource_type' : string) (amount : Z) :
  column (set_nested d h_id resource_type amount) resource_type'
  = column d resource_type'
    + (if decide (resource_type = resource_type')
       then amount
            - PyDict.get_default (PyDict.get_default d h_id []) resource_type 0
       else 0).
Proof.
  unfold set_nested.
  set (d1 := if PyDict.mem d h_id then d else PyDict.set d h_id []).
  assert (E1 : PyDict.get_default d1 h_id [] = PyDict.get_default d h_id []).
  { unfold d1, PyDict.mem, PyDict.get_default.
    destruct (PyDict.get d h_id) eqn:E; [now rewrite E |].
    now rewrite get_set_eq. }
  assert (C1 : column d1 resource_type' = column d resource_type').
  { unfold d1, PyDict.mem.
    destruct (PyDict.get d h_id) eqn:G; [reflexivity |].
    rewrite column_set. unfold PyDict.get_default at 2. rewrite G. simpl.
    lia. }
  rewrite column_set, C1, E1, get_default_set.
  destruct (decide (resource_type = resource_type')) as [<- | Hne]; lia.
Qed.

(** The comprehension sums to the column, and is non-empty exactly when
    some facility lists the type. *)
Lemma holders_sum (d : list (string * list (string * Z))) (resource_type : string) :
  zsum (map snd (holders d resource_type)) = column d resource_type.
Proof.
  unfold holders, column. induction d as [| [k inner] d IH]; simpl;
    [reflexivity |].
  rewrite zsum_cons, <- IH.
  destruct (PyDict.mem inner resource_type) eqn:E; simpl.
  - now rewrite zsum_cons.
  - rewrite (mem_false_default _ _ E). lia.
Qed.

Lemma holders_truthy (d : list (string * list (string * Z)))
    (resource_type : string) :
  PyDict.wf d ->
  truthy (holders d resource_type) = true <-> listed d resource_type.
Proof.
  intros Hwf. unfold holders, listed.
  assert (G : truthy (map (fun entry : string * list (string * Z) =>
                 (fst entry, PyDict.get_default (snd entry) resource_type 0))
               (List.filter (fun entry => PyDict.mem (snd entry) resource_type) d))
              = true
          <-> exists entry, In entry d /\ PyDict.mem (snd entry) resource_type = true).
  { split.
    - destruct (List.filter _ d) as [| entry l] eqn:E; [discriminate |].
      intros _. exists entry.
      apply (filter_In (fun entry : string * list (string * Z) =>
                          PyDict.mem (snd entry) resource_type)).
      rewrite E. now left.
    - intros (entry & Hin & Hmem).
      assert (Hf : In entry (List.filter
                     (fun entry => PyDict.mem (snd entry) resource_type) d))
        by (apply filter_In; auto).
      destruct (List.filter _ d); [destruct Hf | reflexivity]. }
  rewrite G. split.
  - intros ([k inner] & Hin & Hmem). exists k, inner.
    split; [now apply wf_In_get | exact Hmem].
  - intros (k & inner & Hget & Hmem). exists (k, inner).
    split; [now apply get_Some_In | exact Hmem].
Qed.

(** *** Guarded nested assignments *)

Lemma entry_set_nested (d : list (string * list (string * Z)))
    (h_id resource_type : string) (amount : Z) (k rt : string) :
  (exists inner, PyDict.get (set_nested d h_id resource_type amount) k = Some inner
                 /\ PyDict.mem inner rt = true)
  <-> (h_id = k /\ resource_type = rt)
      \/ (exists inner, PyDict.get d k = Some inner /\ PyDict.mem inner rt = true).
Proof.
  destruct (decide (h_id = k)) as [<- | Hne].
  - rewrite get_set_nested_eq. split.
    + intros (inner & [= <-] & Hmem). apply mem_set in Hmem as [-> | Hmem];
        [now left | right].
      unfold PyDict.get_default in Hmem.
      destruct (PyDict.get d h_id) as [inner |]; [eauto | discriminate].
    + intros H. eexists. split; [reflexivity |]. apply mem_set.
      destruct H as [[_ ->] | (inner & Hget & Hmem)]; [now left | right].
      unfold PyDict.get_default. now rewrite Hget.
  - rewrite get_set_nested_ne by assumption. intuition congruence.
Qed.

Section RecordIf.
Variables (cond : Hospital * string -> bool) (amount : Hospital * string -> Z).

Lemma record_if_wf (w : list (Hospital * string)) :
  PyDict.wf (fold_left (record_if cond amount) w []).
Proof.
  induction w as [| p w IH] using rev_ind; [apply List.NoDup_nil |].
  rewrite fold_left_app. simpl. unfold record_if at 1.
  destruct (cond p); [now apply wf_set_nested | exact IH].
Qed.

(** A facility lists a type exactly when a visit recorded it. *)
Lemma record_if_entry (w : list (Hospital * string)) (k rt : string) :
  (exists inner, PyDict.get (fold_left (record_if cond amount) w []) k = Some inner
                 /\ PyDict.mem inner rt = true)
  <-> exists p, In p w /\ visit_keys p = (k, rt) /\ cond p = true.
Proof.
  induction w as [| p w IH] using rev_ind.
  - simpl. split; [intros (inner & [=] & _) | intros (p & [] & _)].
  - rewrite fold_left_app. simpl. unfold record_if at 1.
    destruct (cond p) eqn:Hc.
    + rewrite entry_set_nested, IH. split.
      * intros [[<- <-] | (q & Hq & Hk & Hcq)].
        -- exists p. split; [apply in_app_iff; simpl; auto | auto].
        -- exists q. split; [apply in_app_iff; auto | auto].
      * intros (q & Hq & Hk & Hcq).
        apply in_app_iff in Hq as [Hq | [<- | []]]; [right; eauto | left].
        unfold visit_keys in Hk. injection Hk as <- <-. auto.
    + rewrite IH. split.
      * intros (q & Hq & Hk & Hcq). exists q.
        split; [apply in_app_iff; auto | auto].
      * intros (q & Hq & Hk & Hcq).
        apply in_app_iff in Hq as [Hq | [<- | []]]; [eauto | congruence].
Qed.

Lemma record_if_listed (w : list (Hospital * string)) (rt : string) :
  listed (fold_left (record_if cond amount) w []) rt
  <-> exists p, In p w /\ snd p = rt /\ cond p = true.
Proof.
  unfold listed. split.
  - intros (k & H). apply record_if_entry in H as (p & Hp & Hk & Hc).
    exists p. unfold visit_keys in Hk. injection Hk as _ <-. auto.
  - intros (p & Hp & <- & Hc). exists (hospital_id (fst p)).
    apply record_if_entry. exists p. auto.
Qed.

(** With every pair of keys visited once, a column is the sum of what
    the visits recorded for the type. *)
Lemma record_if_column (w : list (Hospital * string)) (rt : string) :
  List.NoDup (map visit_keys w) ->
  column (fold_left (record_if cond amount) w []) rt
  = contribution w rt (fun p => if cond p then amount p else 0).
Proof.
  induction w as [| p w IH] using rev_ind; intros Hnd; [reflexivity |].
  rewrite map_app in Hnd. simpl in Hnd.
  pose proof (NoDup_remove_1 _ _ _ Hnd) as Hnd1.
  pose proof (NoDup_remove_2 _ _ _ Hnd) as Hfresh.
  rewrite app_nil_r in Hnd1, Hfresh.
  rewrite fold_left_app, contribution_snoc. simpl. unfold record_if at 1.
  destruct (cond p) eqn:Hc; [| rewrite IH by assumption;
                               destruct (decide _); lia].
  rewrite column_set_nested, IH by assumption.
  destruct (decide (snd p = rt)) as [E | NE]; [| lia].
  assert (Hnone : PyDict.get_default
                    (PyDict.get_default
                       (fold_left (record_if cond amount) w [])
                       (hospital_id (fst p)) []) (snd p) 0 = 0).
  { apply mem_false_default.
    destruct (PyDict.mem _ (snd p)) eqn:Hmem; [exfalso | reflexivity].
    apply Hfresh.
    assert (Hentry : exists inner,
               PyDict.get (fold_left (record_if cond amount) w [])
                          (hospital_id (fst p)) = Some inner
               /\ PyDict.mem inner (snd p) = true).
    { unfold PyDict.get_default in Hmem.
      destruct (PyDict.get _ (hospital_id (fst p))) as [inner |];
        [eauto | discriminate]. }
    apply record_if_entry in Hentry as (q & Hq & Hk & _).
    apply in_map_iff. exists q. auto. }
  rewrite Hnone. lia.
Qed.

End RecordIf.

(** *** The analysis loop, field by field *)

Lemma fold_project {B} (proj : Frame -> B) (g : B -> Hospital * string -> B) :
  (forall f p, proj (visit f p) = g (proj f) p) ->
  forall w f, proj (fold_left visit w f) = fold_left g w (proj f).
Proof.
  intros Hstep. induction w as [| p w IH]; intros f; simpl; [reflexivity |].
  now rewrite IH, Hstep.
Qed.

Lemma fold_unchanged {B} (proj : Frame -> B) :
  (forall f p, proj (visit f p) = proj f) ->
  forall w f, proj (fold_left visit w f) = proj f.
Proof.
  intros Hstep. induction w as [| p w IH]; intros f; simpl; [reflexivity |].
  now rewrite IH, Hstep.
Qed.

Lemma analyse_hospital_visits (h : Hospital) (f : Frame) :
  analyse_hospital f h
  = fold_left visit (map (fun rt => (h, rt)) (PyDict.keys (required_resources h))) f.
Proof.
  unfold analyse_hospital. revert f.
  induction (PyDict.keys (required_resources h)) as [| rt ks IH];
    intros f; simpl; [reflexivity | apply IH].
Qed.

Lemma analyse_visits (hs : list Hospital) (f : Frame) :
  fold_left analyse_hospital hs f = fold_left visit (visits hs) f.
Proof.
  revert f. induction hs as [| h hs IH]; intros f; simpl; [reflexivity |].
  now rewrite fold_left_app, IH, analyse_hospital_visits.
Qed.

Lemma visit_shortage (f : Frame) (p : Hospital * string) :
  hospitals_with_shortage (visit f p)
  = record_if shortage_visit shortage_amount (hospitals_with_shortage f) p.
Proof.
  unfold visit, analyse_resource, record_if, shortage_visit, shortage_amount,
    visit_required, visit_available, available_of. simpl.
  destruct (Z.ltb_spec (PyDict.get_default (required_resources (fst p)) (snd p) 0)
                       (default 0 (available_resources (fst p) !! snd p)));
    destruct (Z.ltb_spec (default 0 (available_resources (fst p) !! snd p))
                         (PyDict.get_default (required_resources (fst p)) (snd p) 0));
    try reflexivity; lia.
Qed.

Lemma analysed (hs : list Hospital) (f0 : Frame) :
  let f := fold_left analyse_hospital hs f0 in
  let w := visits hs in
  hospitals_data f = hospitals_data f0
  /\ total_requirements f
     = fold_left (tally visit_required) w (total_requirements f0)
  /\ total_available f
     = fold_left (tally visit_available) w (total_available f0)
  /\ hospitals_with_surplus f
     = fold_left (record_if surplus_visit surplus_amount) w
                 (hospitals_with_surplus f0)
  /\ hospitals_with_shortage f
     = fold_left (record_if shortage_visit shortage_amount) w
                 (hospitals_with_shortage f0)
  /\ pooling_recommendations f = pooling_recommendations f0
  /\ network_procurement f = network_procurement f0.
Proof.
  simpl. rewrite analyse_visits.
  repeat split.
  - apply (fold_unchanged hospitals_data); reflexivity.
  - apply (fold_project total_requirements); reflexivity.
  - apply (fold_project total_available); reflexivity.
  - apply (fold_project hospitals_with_surplus); reflexivity.
  - apply (fold_project hospitals_with_shortage), visit_shortage.
  - apply (fold_unchanged pooling_recommendations); reflexivity.
  - apply (fold_unchanged network_procurement); reflexivity.
Qed.

(** *** Visits and facilities *)

Lemma in_visits (p : Hospital * string) (hs : list Hospital) :
  In p (visits hs)
  <-> In (fst p) hs /\ In (snd p) (PyDict.keys (required_resources (fst p))).
Proof.
  unfold visits. rewrite in_flat_map. split.
  - intros (h & Hh & Hp). apply in_map_iff in Hp as (rt & <- & Hrt). auto.
  - intros [Hh Hrt]. exists (fst p). split; [exact Hh |].
    apply in_map_iff. exists (snd p). now destruct p.
Qed.

Lemma required_of_keys (h : Hospital) (rt : string) :
  In rt (PyDict.keys (required_resources h)) <-> is_Some (required_of h rt).
Proof. unfold required_of. symmetry. apply get_is_Some_keys. Qed.

Lemma visit_required_of (h : Hospital) (rt : string) (req : Z) :
  required_of h rt = Some req -> visit_required (h, rt) = req.
Proof.
  unfold required_of, visit_required, PyDict.get_default. simpl.
  now intros ->.
Qed.

Lemma contribution_single (h : Hospital) (ks : list string) (rt : string)
    (amount : Hospital * string -> Z) :
  List.NoDup ks ->
  contribution (map (fun rt' => (h, rt')) ks) rt amount
  = if in_dec (fun a b : string => decide (a = b)) rt ks
    then amount (h, rt) else 0.
Proof.
  unfold contribution. induction 1 as [| k ks Hk Hnd IH]; [reflexivity |].
  simpl map. rewrite zsum_cons, IH. simpl.
  destruct (decide (k = rt)) as [-> | Hne].
  - destruct (in_dec _ rt ks); [contradiction |].
    destruct (decide (rt = rt)); [lia | congruence].
  - destruct (in_dec _ rt ks); destruct (decide (k = rt)); try congruence; lia.
Qed.

(** The contributions of the visits, facility by facility. *)
Lemma contribution_visits (hs : list Hospital) (rt : string)
    (amount : Hospital * string -> Z) :
  Forall (fun h => PyDict.wf (required_resources h)) hs ->
  contribution (visits hs) rt amount
  = zsum (map (fun h => match required_of h rt with
                        | Some _ => amount (h, rt)
                        | None => 0
                        end) hs).
Proof.
  induction 1 as [| h hs Hwf _ IH]; [reflexivity |].
  simpl. rewrite contribution_app, zsum_cons, IH, contribution_single
    by exact Hwf.
  f_equal.
  destruct (in_dec _ rt (PyDict.keys (required_resources h))) as [Hin | Hout].
  - apply required_of_keys in Hin as [req ->]. reflexivity.
  - destruct (required_of h rt) eqn:E; [| reflexivity].
    exfalso. apply Hout, required_of_keys. eauto.
Qed.

Lemma nodup_pairs {A B} (a : A) (l : list B) :
  List.NoDup l -> List.NoDup (map (pair a) l).
Proof.
  induction 1 as [| b l Hb Hnd IH]; simpl; constructor; [| exact IH].
  intros Hin. apply in_map_iff in Hin as (b' & [= ->] & Hin). contradiction.
Qed.

(** On a well-formed input no pair of keys is visited twice. *)
Lemma nodup_visits (hs : list Hospital) :
  wf_input hs -> List.NoDup (map visit_keys (visits hs)).
Proof.
  intros [Hids Hwf]. induction hs as [| h hs IH]; [constructor |].
  simpl in Hids. apply List.NoDup_cons_iff in Hids as [Hid Hids].
  inversion Hwf as [| ? ? Hh Hrest]; subst.
  simpl. rewrite map_app, map_map. apply List.NoDup_app.
  - apply (nodup_pairs (hospital_id h)), Hh.
  - now apply IH.
  - intros [k rt] Hin1 Hin2.
    apply in_map_iff in Hin1 as (rt' & [= <- <-] & _).
    apply in_map_iff in Hin2 as (p & [= Hk _] & Hp).
    apply in_visits in Hp as [Hp _].
    apply Hid. rewrite <- Hk. now apply in_map.
Qed.

Lemma surplus_visits (hs : list Hospital) (rt : string) :
  (exists p, In p (visits hs) /\ snd p = rt /\ surplus_visit p = true)
  <-> exists h, In h hs /\ has_surplus h rt.
Proof.
  unfold has_surplus, surplus_visit, visit_available. split.
  - intros ([h rt'] & Hp & <- & Hc). apply in_visits in Hp as [Hh Hrt].
    simpl in *. apply required_of_keys in Hrt as [req Hreq].
    rewrite (visit_required_of _ _ _ Hreq) in Hc. apply Z.ltb_lt in Hc.
    eauto.
  - intros (h & Hh & req & Hreq & Hlt). exists (h, rt).
    split; [apply in_visits; split; [exact Hh |];
            apply required_of_keys; simpl; eauto |].
    split; [reflexivity |].
    rewrite (visit_required_of _ _ _ Hreq). now apply Z.ltb_lt.
Qed.

Lemma shortage_visits (hs : list Hospital) (rt : string) :
  (exists p, In p (visits hs) /\ snd p = rt /\ shortage_visit p = true)
  <-> exists h, In h hs /\ has_shortage h rt.
Proof.
  unfold has_shortage, shortage_visit, visit_available. split.
  - intros ([h rt'] & Hp & <- & Hc). apply in_visits in Hp as [Hh Hrt].
    simpl in *. apply required_of_keys in Hrt as [req Hreq].
    rewrite (visit_required_of _ _ _ Hreq) in Hc. apply Z.ltb_lt in Hc.
    eauto.
  - intros (h & Hh & req & Hreq & Hlt). exists (h, rt).
    split; [apply in_visits; split; [exact Hh |];
            apply required_of_keys; simpl; eauto |].
    split; [reflexivity |].
    rewrite (visit_required_of _ _ _ Hreq). now apply Z.ltb_lt.
Qed.

Lemma surplus_contribution (hs : list Hospital) (rt : string) :
  Forall (fun h => PyDict.wf (required_resources h)) hs ->
  contribution (visits hs) rt
    (fun p => if surplus_visit p then surplus_amount p else 0)
  = zsum (map (fun h => surplus_of h rt) hs).
Proof.
  intros Hwf. rewrite contribution_visits by exact Hwf. f_equal.
  apply map_ext. intros h. unfold surplus_of, surplus_visit, surplus_amount,
    visit_available.
  destruct (required_of h rt) as [req |] eqn:E; [| reflexivity].
  rewrite (visit_required_of _ _ _ E). simpl.
  destruct (Z.ltb_spec req (available_of h rt)); lia.
Qed.

Lemma shortage_contribution (hs : list Hospital) (rt : string) :
  Forall (fun h => PyDict.wf (required_resources h)) hs ->
  contribution (visits hs) rt
    (fun p => if shortage_visit p then shortage_amount p else 0)
  = zsum (map (fun h => shortage_of h rt) hs).
Proof.
  intros Hwf. rewrite contribution_visits by exact Hwf. f_equal.
  apply map_ext. intros h. unfold shortage_of, shortage_visit, shortage_amount,
    visit_available.
  destruct (required_of h rt) as [req |] eqn:E; [| reflexivity].
  rewrite (visit_required_of _ _ _ E). simpl.
  destruct (Z.ltb_spec (available_of h rt) req); lia.
Qed.

Lemma required_contribution (hs : list Hospital) (rt : string) :
  Forall (fun h => PyDict.wf (required_resources h)) hs ->
  contribution (visits hs) rt visit_required = required_total hs rt.
Proof.
  intros Hwf. rewrite contribution_visits by exact Hwf.
  unfold required_total. f_equal. apply map_ext. intros h.
  destruct (required_of h rt) as [req |] eqn:E; [| reflexivity].
  now rewrite (visit_required_of _ _ _ E).
Qed.

Lemma available_contribution (hs : list Hospital) (rt : string) :
  Forall (fun h => PyDict.wf (required_resources h)) hs ->
  contribution (visits hs) rt visit_available = available_total hs rt.
Proof.
  intros Hwf. rewrite contribution_visits by exact Hwf. reflexivity.
Qed.

(** *** The pooling loop and the network loop *)

(** The pooling loop only appends to [pooling_recommendations]. *)
Lemma pooling_step_frame (f : Frame) (rt : string) :
  hospitals_data (pooling_step f rt) = hospitals_data f
  /\ total_requirements (pooling_step f rt) = total_requirements f
  /\ total_available (pooling_step f rt) = total_available f
  /\ hospitals_with_surplus (pooling_step f rt) = hospitals_with_surplus f
  /\ hospitals_with_shortage (pooling_step f rt) = hospitals_with_shortage f
  /\ network_procurement (pooling_step f rt) = network_procurement f.
Proof. unfold pooling_step. destruct (_ && _); simpl; tauto. Qed.


(** The network loop only assigns to [network_procurement]. *)
Lemma network_step_frame (f : Frame) (rt : string) :
  hospitals_data (network_step f rt) = hospitals_data f
  /\ total_requirements (network_step f rt) = total_requirements f
  /\ total_available (network_step f rt) = total_available f
  /\ pooling_recommendations (network_step f rt) = pooling_recommendations f.
Proof. unfold network_step. destruct (_ <? _); simpl; tauto. Qed.

Lemma network_loop (ks : list string) (rt : string) :
  forall f,
    let f' := fold_left network_step ks f in
    let shortage :=
      Z.max 0 (PyDict.get_default (total_requirements f) rt 0
               - PyDict.get_default (total_available f) rt 0) in
    hospitals_data f' = hospitals_data f
    /\ pooling_recommendations f' = pooling_recommendations f
    /\ (In rt ks -> 0 < shortage ->
        PyDict.get (network_procurement f') rt = Some shortage)
    /\ (~ In rt ks \/ shortage <= 0 ->
        PyDict.get (network_procurement f') rt
        = PyDict.get (network_procurement f) rt).
Proof.
  induction ks as [| k ks IH]; intros f; simpl.
  - repeat split; tauto.
  - destruct (IH (network_step f k)) as (Hd & Hp & Hin & Hout).
    destruct (network_step_frame f k) as (Hd1 & Hr1 & Ha1 & Hp1).
    rewrite Hr1, Ha1 in Hin, Hout. rewrite Hd, Hp.
    set (shortage := Z.max 0 (PyDict.get_default (total_requirements f) rt 0
                              - PyDict.get_default (total_available f) rt 0))
      in *.
    assert (Hk : PyDict.get (network_procurement (network_step f k)) rt
                 = if decide (k = rt)
                   then (if 0 <? shortage then Some shortage
                         else PyDict.get (network_procurement f) rt)
                   else PyDict.get (network_procurement f) rt).
    { unfold network_step. destruct (decide (k = rt)) as [-> | Hne].
      - fold shortage. destruct (0 <? shortage); simpl; [| reflexivity].
        apply get_set_eq.
      - destruct (0 <? _); simpl; [| reflexivity].
        now apply get_set_ne. }
    repeat split; try assumption.
    + intros Hrt Hpos.
      destruct (in_dec (fun a b : string => decide (a = b)) rt ks)
        as [Hks | Hks]; [now apply Hin |].
      rewrite Hout by tauto. rewrite Hk.
      destruct Hrt as [-> | Hrt]; [| contradiction].
      rewrite decide_True by reflexivity.
      now apply Z.ltb_lt in Hpos as ->.
    + intros Hcase.
      destruct (Z.ltb_spec 0 shortage) as [Hpos | Hnonpos].
      * destruct Hcase as [Hnot | Hle]; [| lia].
        rewrite Hout by tauto. rewrite Hk.
        rewrite decide_False by tauto. reflexivity.
      * rewrite Hout by (right; lia). rewrite Hk.
        destruct (decide (k = rt)); [| reflexivity].
        destruct (Z.ltb_spec 0 shortage); [lia | reflexivity].
Qed.

End PoolingProps.



(** Scenario 4: A lacks 500 PPE kits, B has 800 to spare.  500 can be
    transferred and the network needs no procurement. *)
Example pooling_two_facilities :
  Pooling.generate_multi_hospital_recommendations
    [ Pooling.mkHospital "A" [("ppe_kits", 1000%Z)] {[ "ppe_kits" := 500%Z ]};
      Pooling.mkHospital "B" [("ppe_kits", 200%Z)] {[ "ppe_kits" := 1000%Z ]} ]
  = {| Pooling.report_total_requirements := [("ppe_kits", 1200%Z)];
       Pooling.report_total_available := [("ppe_kits", 1500%Z)];
       Pooling.network_procurement_needed := [];
       Pooling.pooling_opportunities :=
         [ {| Pooling.resource := "ppe_kits";
              Pooling.total_surplus := 800;
              Pooling.total_shortage := 500;
              Pooling.can_transfer := 500;
              Pooling.surplus_hospitals := [("B", 800%Z)];
              Pooling.shortage_hospitals := [("A", 500%Z)] |} ];
       Pooling.report_hospitals_with_surplus := [("B", [("ppe_kits", 800%Z)])];
       Pooling.report_hospitals_with_shortage := [("A", [("ppe_kits", 500%Z)])] |}.
Proof. vm_compute. reflexivity. Qed.

(** ** Binary64 replay of the concrete evaluations

    The inputs at which the rational model departs from the
    specification, evaluated with the rounding of Python's floats. *)

Section Binary64Replay.
Import Binary64.
#[local] Set Warnings "-inexact-float".
#[local] Open Scope float_scope.

(** [calculate_admission_breakdown(10, 100, {}, [])]: the five products
    truncate to 1, 1, 0, 2 and 5. *)
Example breakdown_binary64 :
  let respiratory_pct := 0.15 in
  let waterborne_pct := 0.10 in
  let heat_pct := 0.05 in
  let trauma_pct := 0.20 in
  let total_pct := respiratory_pct + waterborne_pct + heat_pct + trauma_pct in
  let other_pct := max0 (1 - total_pct) in
  map (fun pct => to_int (of_int 10 * pct))
      [respiratory_pct; waterborne_pct; heat_pct; trauma_pct; other_pct]
  = [1; 1; 0; 2; 5]%Z.
Proof. vm_compute. reflexivity. Qed.

(** Gloves/PPE at a Private facility with one respiratory admission and
    24 kits in stock: the projected need is 30 and the coverage is neither
    below 50 nor below 80. *)
Example coverage_binary64 :
  let safety_buffer := 1 + 0.2 in
  let projected_need := to_int (of_int 25 * safety_buffer) in
  let stock_percentage := of_int 24 / of_int projected_need * 100 in
  projected_need = 30%Z
  /\ (stock_percentage <? 50) = false
  /\ (stock_percentage <? 80) = false.
Proof. vm_compute. repeat split. Qed.

(** Three staff coverages of [(20 + 0) / 10 * 100] and the like, no supply
    item: the weighted average is 160. *)
Example readiness_binary64 :
  let coverages :=
    [of_int (20 + 0) / of_int 10 * 100; of_int (60 + 0) / of_int 30 * 100;
     of_int (30 + 0) / of_int 15 * 100] in
  let avg_staff_readiness := fold_left PrimFloat.add coverages 0 / of_int 3 in
  let avg_supply_readiness := 100 in
  coverages = [200; 200; 200]
  /\ avg_staff_readiness * 0.6 + avg_supply_readiness * 0.4 = 160.
Proof. vm_compute. split; reflexivity. Qed.

End Binary64Replay.

(** * Further properties *)

(** ** Procurement plan: order, contents and errors *)

Section SupplyPlanProps.
Import Agent AgentPlan.



Lemma insert_by_priority_sorted (x : ProcurementItem) (l : list ProcurementItem) :
  StronglySorted (fun a b => priority b <= priority a) l ->
  StronglySorted (fun a b => priority b <= priority a) (insert_by_priority x l).
Proof.
  induction 1 as [| y l Hs IH Hy]; simpl.
  - constructor; constructor.
  - destruct (qgtb (priority y) (priority x)) eqn:E.
    + apply qgtb_true in E. constructor; [exact IH |].
      apply List.Forall_forall. intros z Hz.
      apply in_insert_by_priority in Hz as [-> | Hz]; [lra |].
      rewrite List.Forall_forall in Hy. now apply Hy.
    + apply qgtb_false in E. constructor; [now constructor |].
      constructor; [exact E |].
      rewrite List.Forall_forall in Hy. apply List.Forall_forall.
      intros z Hz. specialize (Hy z Hz). lra.
Qed.

Lemma sort_by_priority_sorted (l : list ProcurementItem) :
  StronglySorted (fun a b => priority b <= priority a) (sort_by_priority l).
Proof.
  induction l as [| x l IH]; simpl; [constructor |].
  now apply insert_by_priority_sorted.
Qed.

Lemma bind_Ok {A B} (a : A) (f : A -> result B) : Ok a ≫= f = f a.
Proof. reflexivity. Qed.




End SupplyPlanProps.

(** X1.  The plan [calculate_supply_needs] returns is in non-increasing
    order of priority. *)
Theorem supply_plan_sorted
    (self : Agent.t) (required_supplies : list (string * Z))
    (current_inventory : gmap string Z) (days_until_surge : Z)
    (plan : list Agent.ProcurementItem) :
  Agent.calculate_supply_needs self required_supplies current_inventory
                               days_until_surge = Ok plan ->
  StronglySorted (fun a b => Agent.priority b <= Agent.priority a) plan.
Proof.
  unfold Agent.calculate_supply_needs. intros H.
  destruct (for_each _ _ _) as [unsorted | key]; [| discriminate].
  rewrite bind_Ok in H. injection H as <-. apply sort_by_priority_sorted.
Qed.

Lemma supply_plan_sorted_witness :
  StronglySorted (fun a b => Agent.priority b <= Agent.priority a)
    [ Agent.procurement_item Agent.init
        {[ "ppe_kits" := 200%Z; "bed_linens" := 300%Z ]} 5
        "ppe_kits" 600 2;
      Agent.procurement_item Agent.init
        {[ "ppe_kits" := 200%Z; "bed_linens" := 300%Z ]} 5
        "bed_linens" 600 1 ].
Proof.
  apply (supply_plan_sorted Agent.init
           [("bed_linens", 600%Z); ("ppe_kits", 600%Z)]
           {[ "ppe_kits" := 200%Z; "bed_linens" := 300%Z ]} 5).
  vm_compute. reflexivity.
Defined.




(** A supply type without lead time raises only when it is short. *)
Example unknown_supply_type :
  Agent.calculate_supply_needs Agent.init [("beds_needed", 50%Z)]
                               {[ "beds_needed" := 10%Z ]} 5
  = KeyError "beds_needed"
  /\ Agent.calculate_supply_needs Agent.init [("beds_needed", 50%Z)]
                                  {[ "beds_needed" := 80%Z ]} 5
     = Ok [].
Proof. vm_compute. split; reflexivity. Qed.

(** ** Priority score: sign, monotonicity and ceiling *)

Section PriorityOrder.
Import Agent.

Lemma clinical_criticality_pos (resource_type : string) :
  0 < clinical_criticality resource_type.
Proof.
  unfold clinical_criticality.
  destruct (clinical_criticality_table !! resource_type) as [w |] eqn:E;
    simpl; [| lra].
  apply elem_of_list_to_map_2 in E.
  repeat (apply elem_of_cons in E as [E | E];
          [injection E as _ ->; lra |]).
  now apply elem_of_nil in E.
Qed.

Lemma qmax0_pos (x : Q) : 0 < qmax 0 x <-> 0 < x.
Proof. destruct (qmax_spec 0 x) as [[H ->] | [H ->]]; lra. Qed.

Lemma qmax0_mono (x y : Q) : x <= y -> qmax 0 x <= qmax 0 y.
Proof.
  intros H. destruct (qmax_spec 0 x) as [[? ->] | [? ->]],
                     (qmax_spec 0 y) as [[? ->] | [? ->]]; lra.
Qed.

Lemma qmin100_pos (x : Q) : 0 < qmin 100 x <-> 0 < x.
Proof. destruct (qmin_spec 100 x) as [[H ->] | [H ->]]; lra. Qed.

Lemma qmin100_mono (x y : Q) : x <= y -> qmin 100 x <= qmin 100 y.
Proof.
  intros H. destruct (qmin_spec 100 x) as [[? ->] | [? ->]],
                     (qmin_spec 100 y) as [[? ->] | [? ->]]; lra.
Qed.

Lemma shortage_ratio_nonneg (current_stock required : Z) :
  0 <= shortage_ratio current_stock required.
Proof.
  unfold shortage_ratio. destruct (0 <? required)%Z; [| lra].
  destruct (qmax_spec 0 (of_int (required - current_stock) / of_int required))
    as [[? ->] | [? ->]]; lra.
Qed.

Lemma shortage_ratio_pos (current_stock required : Z) :
  0 < shortage_ratio current_stock required
  <-> (0 < required /\ current_stock < required)%Z.
Proof.
  unfold shortage_ratio.
  destruct (Z.ltb_spec 0 required) as [Hr | Hr]; [| split; [lra | lia]].
  pose proof (of_int_pos _ Hr) as Hpos. rewrite qmax0_pos. split.
  - intros H. split; [exact Hr |].
    destruct (Z.lt_ge_cases current_stock required) as [Hlt | Hge];
      [exact Hlt | exfalso].
    assert (Hn : of_int (required - current_stock) <= 0).
    { unfold of_int. replace 0 with (inject_Z 0) by reflexivity.
      rewrite <- Zle_Qle. lia. }
    assert (Hq : of_int (required - current_stock) / of_int required <= 0).
    { apply Qle_shift_div_r; [exact Hpos | lra]. }
    lra.
  - intros [_ Hlt]. apply Qlt_shift_div_l; [exact Hpos |].
    rewrite Qmult_0_l. apply of_int_pos. lia.
Qed.

Lemma shortage_ratio_antitone (current_stock current_stock' required : Z) :
  (current_stock <= current_stock')%Z ->
  shortage_ratio current_stock' required <= shortage_ratio current_stock required.
Proof.
  intros H. unfold shortage_ratio.
  destruct (Z.ltb_spec 0 required) as [Hr | Hr]; [| lra].
  pose proof (of_int_pos _ Hr) as Hpos. apply qmax0_mono.
  unfold Qdiv. apply Qmult_le_compat_r.
  - apply of_int_le. lia.
  - apply Qlt_le_weak, Qinv_lt_0_compat, Hpos.
Qed.

Lemma time_urgency_pos (self : t) (resource_type : string)
    (days_until_surge : Z) :
  0 < time_urgency self resource_type days_until_surge
  <-> (days_until_surge
       - default 0%Z (lead_times self !! resource_type) < 7)%Z.
Proof.
  unfold time_urgency.
  set (lead_time := default 0%Z (lead_times self !! resource_type)).
  destruct (Z.leb_spec days_until_surge lead_time) as [Hd | Hd];
    [split; [lia | lra] |].
  rewrite qmax0_pos.
  assert (E : 1 - of_int (days_until_surge - lead_time) / 7
              == of_int (7 - (days_until_surge - lead_time)) / 7).
  { unfold of_int, Z.sub.
    rewrite !inject_Z_plus, !inject_Z_opp, inject_Z_plus, inject_Z_opp.
    change (inject_Z 7) with 7. field. }
  rewrite E. split.
  - intros H.
    destruct (Z.lt_ge_cases (days_until_surge - lead_time) 7) as [Hlt | Hge];
      [exact Hlt | exfalso].
    assert (Hn : of_int (7 - (days_until_surge - lead_time)) <= 0).
    { unfold of_int. replace 0 with (inject_Z 0) by reflexivity.
      rewrite <- Zle_Qle. lia. }
    assert (Hq : of_int (7 - (days_until_surge - lead_time)) / 7 <= 0).
    { apply Qle_shift_div_r; lra. }
    lra.
  - intros Hlt. apply Qlt_shift_div_l; [lra |].
    rewrite Qmult_0_l. apply of_int_pos. lia.
Qed.

Lemma time_urgency_antitone (self : t) (resource_type : string)
    (days_until_surge days_until_surge' : Z) :
  (days_until_surge <= days_until_surge')%Z ->
  time_urgency self resource_type days_until_surge'
  <= time_urgency self resource_type days_until_surge.
Proof.
  intros H.
  pose proof (time_urgency_range self resource_type days_until_surge') as R'.
  unfold time_urgency in *.
  set (lead_time := default 0%Z (lead_times self !! resource_type)) in *.
  destruct (Z.leb_spec days_until_surge lead_time) as [Hd | Hd]; [lra |].
  destruct (Z.leb_spec days_until_surge' lead_time) as [Hd' | Hd']; [lia |].
  apply qmax0_mono.
  assert (Hle : of_int (days_until_surge - lead_time) / 7
                <= of_int (days_until_surge' - lead_time) / 7).
  { unfold Qdiv. apply Qmult_le_compat_r; [apply of_int_le; lia |].
    apply Qlt_le_weak, Qinv_lt_0_compat. lra. }
  lra.
Qed.

Lemma mult_le_compat_nonneg (a a' b : Q) :
  0 <= b -> a' <= a -> a' * b <= a * b.
Proof. intros Hb Ha. now apply Qmult_le_compat_r. Qed.

End PriorityOrder.

(** X4.  The priority score is positive exactly when there is a
    requirement, the stock is below it, and the surge is less than seven
    days beyond the lead time; in every other case it is zero. *)
Theorem priority_positive_iff
    (self : Agent.t) (resource_type : string)
    (current_stock required days_until_surge : Z) :
  let score :=
    Agent.calculate_resource_priority self resource_type current_stock
                                      required days_until_surge in
  (0 < score
   <-> (0 < required /\ current_stock < required
        /\ days_until_surge
           - default 0 (Agent.lead_times self !! resource_type) < 7)%Z)
  /\ (~ 0 < score -> score == 0).
Proof.
  intros score. unfold score, Agent.calculate_resource_priority.
  rewrite qmin100_pos.
  pose proof (shortage_ratio_nonneg current_stock required) as Hs0.
  pose proof (time_urgency_range self resource_type days_until_surge) as [Ht0 _].
  pose proof (clinical_criticality_pos resource_type) as Hc.
  pose proof (shortage_ratio_pos current_stock required) as Hs.
  pose proof (time_urgency_pos self resource_type days_until_surge) as Ht.
  set (s := Agent.shortage_ratio current_stock required) in *.
  set (u := Agent.time_urgency self resource_type days_until_surge) in *.
  set (c := Agent.clinical_criticality resource_type) in *.
  assert (Hprod : 0 < 100 * s * u * c <-> 0 < s /\ 0 < u).
  { split.
    - intros H. split.
      + destruct (Qlt_le_dec 0 s) as [|Hle]; [assumption | exfalso].
        assert (E : s == 0) by lra.
        rewrite E in H. ring_simplify in H. lra.
      + destruct (Qlt_le_dec 0 u) as [|Hle]; [assumption | exfalso].
        assert (E : u == 0) by lra.
        rewrite E in H. ring_simplify in H. lra.
    - intros [H1 H2].
      repeat apply Qmult_lt_0_compat; try assumption; lra. }
  split.
  - rewrite Hprod, Hs, Ht. tauto.
  - intros Hn.
    assert (H0 : 0 <= 100 * s * u * c).
    { repeat apply Qmult_le_0_compat; lra. }
    destruct (qmin_spec 100 (100 * s * u * c)) as [[H ->] | [H ->]]; lra.
Qed.

(** X5.  More stock never raises the priority score, and neither does a
    later surge. *)
Theorem priority_antitone
    (self : Agent.t) (resource_type : string)
    (current_stock current_stock' required days_until_surge
       days_until_surge' : Z) :
  (current_stock <= current_stock')%Z ->
  (days_until_surge <= days_until_surge')%Z ->
  Agent.calculate_resource_priority self resource_type current_stock'
                                    required days_until_surge'
  <= Agent.calculate_resource_priority self resource_type current_stock
                                       required days_until_surge.
Proof.
  intros Hc Hd. unfold Agent.calculate_resource_priority.
  apply qmin100_mono.
  pose proof (shortage_ratio_antitone _ _ required Hc) as Hs.
  pose proof (time_urgency_antitone self resource_type _ _ Hd) as Ht.
  pose proof (shortage_ratio_nonneg current_stock' required) as Hs0.
  pose proof (time_urgency_range self resource_type days_until_surge) as [Ht0 _].
  pose proof (time_urgency_range self resource_type days_until_surge') as [Ht0' _].
  pose proof (clinical_criticality_pos resource_type) as Hcrit.
  set (s := Agent.shortage_ratio current_stock required) in *.
  set (s' := Agent.shortage_ratio current_stock' required) in *.
  set (u := Agent.time_urgency self resource_type days_until_surge) in *.
  set (u' := Agent.time_urgency self resource_type days_until_surge') in *.
  set (c := Agent.clinical_criticality resource_type) in *.
  apply mult_le_compat_nonneg; [lra |].
  assert (H1 : s' * u' <= s' * u).
  { rewrite (Qmult_comm s' u'), (Qmult_comm s' u).
    now apply mult_le_compat_nonneg. }
  assert (H2 : s' * u <= s * u) by now apply mult_le_compat_nonneg.
  assert (E : forall a b, 100 * a * b == 100 * (a * b)) by (intros; ring).
  rewrite !E. lra.
Qed.

Lemma priority_antitone_witness :
  Agent.calculate_resource_priority Agent.init "oxygen_liters" 800 1000 4
  <= Agent.calculate_resource_priority Agent.init "oxygen_liters" 200 1000 2.
Proof.
  apply (priority_antitone Agent.init "oxygen_liters" 200 800 1000 2 4); lia.
Defined.

(** X6.  With a non-negative stock the priority score never exceeds 100
    times the clinical weight of the resource type: 60 at most for bed
    linens, 50 for a type without weight. *)
Theorem priority_ceiling
    (self : Agent.t) (resource_type : string)
    (current_stock required days_until_surge : Z) :
  (0 <= current_stock)%Z ->
  Agent.calculate_resource_priority self resource_type current_stock
                                    required days_until_surge
  <= 100 * Agent.clinical_criticality resource_type.
Proof.
  intros Hc. unfold Agent.calculate_resource_priority.
  pose proof (shortage_ratio_range current_stock required Hc) as Hs.
  pose proof (time_urgency_range self resource_type days_until_surge) as Ht.
  pose proof (unit_interval_mult _ _ Hs Ht) as [_ Hst].
  pose proof (clinical_criticality_pos resource_type) as Hcrit.
  set (s := Agent.shortage_ratio current_stock required) in *.
  set (u := Agent.time_urgency self resource_type days_until_surge) in *.
  set (c := Agent.clinical_criticality resource_type) in *.
  assert (H : s * u * c <= 1 * c)
    by (apply mult_le_compat_nonneg; lra).
  assert (E : 100 * s * u * c == 100 * (s * u * c)) by ring.
  destruct (qmin_spec 100 (100 * s * u * c)) as [[? ->] | [? ->]]; lra.
Qed.

Lemma priority_ceiling_witness :
  Agent.calculate_resource_priority Agent.init "bed_linens" 0 600 1
  <= 100 * Agent.clinical_criticality "bed_linens".
Proof. apply (priority_ceiling Agent.init "bed_linens" 0 600 1). lia. Defined.

(** ** Staff allocation and action timeline *)

Section TimelineProps.
Import Agent AgentPlan.

Lemma py_int_ge (k : Z) (x : Q) : inject_Z k <= x -> (k <= py_int x)%Z.
Proof.
  intros H. destruct (Qlt_le_dec x 0) as [Hneg | Hpos].
  - destruct x as [n d]. unfold py_int, Qle, Qlt in *. simpl in *.
    replace n with (- (- n))%Z by lia. rewrite Z.quot_opp_l by lia.
    rewrite Z.quot_div_nonneg by lia.
    assert ((- n) / Z.pos d <= - k)%Z
      by (apply Z.div_le_upper_bound; lia).
    lia.
  - rewrite py_int_nonneg by exact Hpos.
    rewrite <- (Qfloor_Z k). apply Qfloor_resp_le, H.
Qed.

Lemma insert_by_day_perm (x : TimelineEntry) (l : list TimelineEntry) :
  Permutation (insert_by_day x l) (x :: l).
Proof.
  induction l as [| y l IH]; simpl; [reflexivity |].
  destruct (days_from_now y <? days_from_now x)%Z; [| reflexivity].
  rewrite IH. apply perm_swap.
Qed.

Lemma sort_by_day_perm (l : list TimelineEntry) :
  Permutation (sort_by_day l) l.
Proof.
  induction l as [| x l IH]; simpl; [reflexivity |].
  rewrite insert_by_day_perm. now apply perm_skip.
Qed.

Lemma insert_by_day_sorted (x : TimelineEntry) (l : list TimelineEntry) :
  StronglySorted (fun a b => (days_from_now a <= days_from_now b)%Z) l ->
  StronglySorted (fun a b => (days_from_now a <= days_from_now b)%Z)
                 (insert_by_day x l).
Proof.
  induction 1 as [| y l Hs IH Hy]; simpl.
  - constructor; constructor.
  - destruct (Z.ltb_spec (days_from_now y) (days_from_now x)) as [E | E].
    + constructor; [exact IH |].
      apply List.Forall_forall. intros z Hz.
      apply (Permutation_in _ (insert_by_day_perm x l)) in Hz.
      destruct Hz as [<- | Hz]; [lia |].
      rewrite List.Forall_forall in Hy. now apply Hy.
    + constructor; [now constructor |].
      constructor; [exact E |].
      rewrite List.Forall_forall in Hy. apply List.Forall_forall.
      intros z Hz. specialize (Hy z Hz). lia.
Qed.

Lemma sort_by_day_sorted (l : list TimelineEntry) :
  StronglySorted (fun a b => (days_from_now a <= days_from_now b)%Z)
                 (sort_by_day l).
Proof.
  induction l as [| x l IH]; simpl; [constructor |].
  now apply insert_by_day_sorted.
Qed.

(** The sort is stable: the entries of one day keep their order. *)
Lemma insert_by_day_stable (day : Z) (x : TimelineEntry)
    (l : list TimelineEntry) :
  List.filter (fun e => (days_from_now e =? day)%Z) (insert_by_day x l)
  = List.filter (fun e => (days_from_now e =? day)%Z) (x :: l).
Proof.
  induction l as [| y l IH]; [reflexivity |].
  cbn [insert_by_day].
  destruct (Z.ltb_spec (days_from_now y) (days_from_now x)) as [E | E];
    [| reflexivity].
  cbn [List.filter] in *. rewrite IH.
  destruct (Z.eqb_spec (days_from_now y) day),
           (Z.eqb_spec (days_from_now x) day); try reflexivity; lia.
Qed.

Lemma sort_by_day_stable (day : Z) (l : list TimelineEntry) :
  List.filter (fun e => (days_from_now e =? day)%Z) (sort_by_day l)
  = List.filter (fun e => (days_from_now e =? day)%Z) l.
Proof.
  induction l as [| x l IH]; [reflexivity |].
  cbn [sort_by_day fold_right]. rewrite insert_by_day_stable.
  cbn [List.filter]. fold (sort_by_day l). now rewrite IH.
Qed.

Lemma in_timeline (staff_plan : list (string * StaffAllocation))
    (supply_plan : list ProcurementItem) (days_until_surge : Z)
    (e : TimelineEntry) :
  In e (_generate_action_timeline staff_plan supply_plan days_until_surge)
  <-> (exists item, In item supply_plan /\ e = order_entry days_until_surge item)
      \/ (exists entry, In entry staff_plan
                        /\ In e (deploy_entry days_until_surge entry)).
Proof.
  unfold _generate_action_timeline.
  assert (P := sort_by_day_perm
                 (map (order_entry days_until_surge) supply_plan
                  ++ flat_map (deploy_entry days_until_surge) staff_plan)).
  split.
  - intros H. apply (Permutation_in _ P) in H.
    apply in_app_or in H as [H | H].
    + apply in_map_iff in H as (item & <- & Hin). left. eauto.
    + apply in_flat_map in H as (entry & Hin & He). right. eauto.
  - intros H. apply (Permutation_in _ (Permutation_sym P)).
    apply in_or_app. destruct H as [(item & Hin & ->) | (entry & Hin & He)].
    + left. now apply in_map.
    + right. apply in_flat_map. eauto.
Qed.

(** A score above 80 leaves at most one day between the lead time and the
    surge. *)
Lemma urgent_priority_days (self : t) (resource_type : string)
    (current_stock required days_until_surge : Z) :
  (0 <= current_stock)%Z ->
  80 < calculate_resource_priority self resource_type current_stock required
                                   days_until_surge ->
  (days_until_surge - default 0%Z (lead_times self !! resource_type) <= 1)%Z.
Proof.
  intros Hc Hp.
  set (lead_time := default 0%Z (lead_times self !! resource_type)).
  destruct (Z.le_gt_cases (days_until_surge - lead_time) 1) as [H | H];
    [exact H | exfalso].
  assert (Hd : (lead_time + 2 <= days_until_surge)%Z) by lia.
  pose proof (time_urgency_antitone self resource_type _ _ Hd) as Ht.
  assert (E : time_urgency self resource_type (lead_time + 2) == 5 # 7).
  { unfold time_urgency. fold lead_time.
    destruct (Z.leb_spec (lead_time + 2) lead_time) as [? | _]; [lia |].
    replace (lead_time + 2 - lead_time)%Z with 2%Z by lia.
    reflexivity. }
  rewrite E in Ht.
  pose proof (shortage_ratio_range current_stock required Hc) as [Hs0 Hs1].
  pose proof (time_urgency_range self resource_type days_until_surge) as [Ht0 _].
  pose proof (clinical_criticality_range resource_type) as [Hc0 Hc1].
  unfold calculate_resource_priority in Hp.
  set (s := shortage_ratio current_stock required) in *.
  set (u := time_urgency self resource_type days_until_surge) in *.
  set (c := clinical_criticality resource_type) in *.
  assert (H1 : s * u <= 1 * u) by (apply mult_le_compat_nonneg; lra).
  assert (H0 : 0 <= s * u) by (apply Qmult_le_0_compat; lra).
  assert (H2 : s * u * c <= s * u * 1).
  { rewrite (Qmult_comm (s * u) c), (Qmult_comm (s * u) 1).
    apply mult_le_compat_nonneg; lra. }
  assert (E' : 100 * s * u * c == 100 * (s * u * c)) by ring.
  destruct (qmin_spec 100 (100 * s * u * c)) as [[? Em] | [? Em]];
    rewrite Em in Hp; lra.
Qed.

End TimelineProps.

(** X7.  Every entry of [calculate_staff_needs] deploys exactly the
    missing staff: [to_deploy] is never negative, is zero exactly when the
    available staff meets the requirement, and otherwise fills the gap;
    the recorded coverage is computed after the deployment, so it is
    never below 100 and is 100 unless more staff is available than
    required. *)
Theorem staff_needs_cover_requirement
    (required_staff available_staff : gmap string Z)
    (staff_type : string) (details : Agent.StaffAllocation) :
  In (staff_type, details)
     (Agent.calculate_staff_needs required_staff available_staff) ->
  In staff_type ["doctors"; "nurses"; "support_staff"]
  /\ Agent.staff_required details = default 0%Z (required_staff !! staff_type)
  /\ Agent.staff_available details = default 0%Z (available_staff !! staff_type)
  /\ (0 <= Agent.to_deploy details)%Z
  /\ (Agent.to_deploy details = 0%Z
      <-> (Agent.staff_required details <= Agent.staff_available details)%Z)
  /\ ((0 < Agent.to_deploy details)%Z ->
      (Agent.staff_available details + Agent.to_deploy details
       = Agent.staff_required details)%Z)
  /\ 100 <= Agent.coverage details
  /\ (~ (0 < Agent.staff_required details < Agent.staff_available details)%Z ->
      Agent.coverage details == 100).
Proof.
  unfold Agent.calculate_staff_needs. intros Hin.
  apply in_map_iff in Hin as (name & E & Hname).
  unfold Agent.staff_allocation in E. injection E as <- <-.
  cbn [Agent.staff_required Agent.staff_available Agent.to_deploy
       Agent.coverage].
  set (required := default 0%Z (required_staff !! name)).
  set (available := default 0%Z (available_staff !! name)).
  split; [exact Hname |]. split; [reflexivity |]. split; [reflexivity |].
  split; [lia |]. split; [lia |]. split; [lia |].
  destruct (Z.ltb_spec 0 required) as [Hr | Hr]; [| split; [lra | reflexivity]].
  pose proof (of_int_pos _ Hr) as Hpos. split.
  - assert (H : 1 <= of_int (available + Z.max 0 (required - available))
                     / of_int required).
    { apply Qle_shift_div_l; [exact Hpos |].
      rewrite Qmult_1_l. apply of_int_le. lia. }
    lra.
  - intros Hn.
    replace (available + Z.max 0 (required - available))%Z with required
      by lia.
    field. lra.
Qed.

Lemma staff_needs_cover_requirement_witness :
  let details :=
    snd (Agent.staff_allocation {[ "doctors" := 25%Z ]}
                                {[ "doctors" := 10%Z ]} "doctors") in
  In "doctors" ["doctors"; "nurses"; "support_staff"]
  /\ Agent.staff_required details
     = default 0%Z (({[ "doctors" := 25%Z ]} : gmap string Z) !! "doctors")
  /\ Agent.staff_available details
     = default 0%Z (({[ "doctors" := 10%Z ]} : gmap string Z) !! "doctors")
  /\ (0 <= Agent.to_deploy details)%Z
  /\ (Agent.to_deploy details = 0%Z
      <-> (Agent.staff_required details <= Agent.staff_available details)%Z)
  /\ ((0 < Agent.to_deploy details)%Z ->
      (Agent.staff_available details + Agent.to_deploy details
       = Agent.staff_required details)%Z)
  /\ 100 <= Agent.coverage details
  /\ (~ (0 < Agent.staff_required details < Agent.staff_available details)%Z ->
      Agent.coverage details == 100).
Proof.
  intros details.
  apply (staff_needs_cover_requirement {[ "doctors" := 25%Z ]}
           {[ "doctors" := 10%Z ]} "doctors" details).
  left. reflexivity.
Defined.

(** X8.  The action timeline is in non-decreasing order of
    [days_from_now] and holds one order for each item of the supply plan
    and one deployment for each staff type with [to_deploy > 0], nothing
    else. *)
Theorem action_timeline_sorted
    (staff_plan : list (string * Agent.StaffAllocation))
    (supply_plan : list Agent.ProcurementItem) (days_until_surge : Z) :
  let timeline :=
    AgentPlan._generate_action_timeline staff_plan supply_plan
                                        days_until_surge in
  StronglySorted
    (fun a b => (AgentPlan.days_from_now a <= AgentPlan.days_from_now b)%Z)
    timeline
  /\ Permutation timeline
       (map (AgentPlan.order_entry days_until_surge) supply_plan
        ++ flat_map (AgentPlan.deploy_entry days_until_surge) staff_plan)
  /\ length timeline
     = (length supply_plan
        + length (List.filter
                    (fun entry => (0 <? Agent.to_deploy (snd entry))%Z)
                    staff_plan))%nat.
Proof.
  intros timeline. split; [apply sort_by_day_sorted |].
  assert (P : Permutation timeline
       (map (AgentPlan.order_entry days_until_surge) supply_plan
        ++ flat_map (AgentPlan.deploy_entry days_until_surge) staff_plan))
    by apply sort_by_day_perm.
  split; [exact P |].
  rewrite (Permutation_length P), length_app, length_map. f_equal.
  clear. induction staff_plan as [| [staff_type details] l IH];
    [reflexivity |].
  cbn [flat_map List.filter AgentPlan.deploy_entry snd].
  destruct (0 <? Agent.to_deploy details)%Z; simpl; now rewrite IH.
Qed.

(** X9.  The timeline sort is stable: the actions of any one day appear
    in the order they were appended, the supply orders in the order of
    the supply plan first, the staff deployments after them. *)
Theorem action_timeline_stable
    (staff_plan : list (string * Agent.StaffAllocation))
    (supply_plan : list Agent.ProcurementItem) (days_until_surge day : Z) :
  List.filter (fun e => (AgentPlan.days_from_now e =? day)%Z)
    (AgentPlan._generate_action_timeline staff_plan supply_plan
                                         days_until_surge)
  = List.filter (fun e => (AgentPlan.days_from_now e =? day)%Z)
      (map (AgentPlan.order_entry days_until_surge) supply_plan)
    ++ List.filter (fun e => (AgentPlan.days_from_now e =? day)%Z)
         (flat_map (AgentPlan.deploy_entry days_until_surge) staff_plan).
Proof.
  unfold AgentPlan._generate_action_timeline.
  now rewrite sort_by_day_stable, List.filter_app.
Qed.

(** X10.  With no negative stock, every item of the supply plan that is
    marked [order_immediately] is scheduled for today in the timeline,
    and so is every timeline entry of priority URGENT. *)
Theorem urgent_orders_scheduled_today
    (self : Agent.t) (required_supplies : list (string * Z))
    (current_inventory : gmap string Z) (days_until_surge : Z)
    (plan : list Agent.ProcurementItem)
    (staff_plan : list (string * Agent.StaffAllocation)) :
  (forall supply_type stock,
     current_inventory !! supply_type = Some stock -> (0 <= stock)%Z) ->
  Agent.calculate_supply_needs self required_supplies current_inventory
                               days_until_surge = Ok plan ->
  (forall item,
     In item plan -> Agent.order_immediately item = true ->
     AgentPlan.days_from_now (AgentPlan.order_entry days_until_surge item)
     = 0%Z)
  /\ (forall e,
        In e (AgentPlan._generate_action_timeline staff_plan plan
                                                  days_until_surge) ->
        AgentPlan.timeline_priority e = AgentPlan.URGENT ->
        AgentPlan.days_from_now e = 0%Z).
Proof.
  intros Hinv Hplan.
  assert (Hitem : forall item, In item plan ->
            80 < Agent.priority item
            \/ Agent.delivery_possible item = false ->
            (days_until_surge - Agent.lead_time_days item - 1 <= 0)%Z).
  { intros item Hin Hcase.
    destruct (calculate_supply_needs_items _ _ _ _ _ _ Hplan Hin)
      as (supply_type & required & lead_time & _ & _ & Hl & ->).
    cbn [Agent.procurement_item Agent.priority Agent.delivery_possible
         Agent.lead_time_days] in *.
    destruct Hcase as [Hp | Hd].
    - apply urgent_priority_days in Hp.
      + rewrite Hl in Hp. simpl in Hp. lia.
      + destruct (current_inventory !! supply_type) as [stock |] eqn:E;
          simpl; [eapply Hinv, E | lia].
    - apply Z.ltb_ge in Hd. lia. }
  split.
  - intros item Hin Him.
    cbn [AgentPlan.order_entry AgentPlan.days_from_now].
    assert (Hcase : 80 < Agent.priority item
                    \/ Agent.delivery_possible item = false).
    { destruct (calculate_supply_needs_items _ _ _ _ _ _ Hplan Hin)
        as (supply_type & required & lead_time & _ & _ & _ & ->).
      cbn [Agent.procurement_item Agent.priority Agent.delivery_possible
           Agent.order_immediately] in *.
      apply orb_true_iff in Him as [Hp | Hd].
      - left. now apply qgtb_true.
      - right. now apply negb_true_iff. }
    specialize (Hitem item Hin Hcase). lia.
  - intros e He Hurgent. apply in_timeline in He.
    destruct He as [(item & Hin & ->) | ([staff_type details] & _ & He)].
    + cbn [AgentPlan.order_entry AgentPlan.days_from_now
           AgentPlan.timeline_priority] in *.
      destruct (qgtb (Agent.priority item) 80) eqn:Hp; [| discriminate].
      apply qgtb_true in Hp.
      specialize (Hitem item Hin (or_introl Hp)). lia.
    + cbn [AgentPlan.deploy_entry] in He.
      destruct (0 <? Agent.to_deploy details)%Z; [| destruct He].
      destruct He as [<- | []]. discriminate.
Qed.

Lemma urgent_orders_scheduled_today_witness :
  let current_inventory : gmap string Z := {[ "oxygen_liters" := 10%Z ]} in
  let plan :=
    [Agent.procurement_item Agent.init current_inventory 2
                            "oxygen_liters" 3000 1] in
  (forall item,
     In item plan -> Agent.order_immediately item = true ->
     AgentPlan.days_from_now (AgentPlan.order_entry 2 item) = 0%Z)
  /\ (forall e,
        In e (AgentPlan._generate_action_timeline [] plan 2) ->
        AgentPlan.timeline_priority e = AgentPlan.URGENT ->
        AgentPlan.days_from_now e = 0%Z).
Proof.
  intros current_inventory plan.
  apply (urgent_orders_scheduled_today Agent.init
           [("oxygen_liters", 3000%Z)] current_inventory 2 plan []).
  - intros supply_type stock H. unfold current_inventory in H.
    apply lookup_singleton_Some in H as [_ <-]. lia.
  - vm_compute. reflexivity.
Defined.

(** The item of the example above is urgent: its score is above 80. *)
Example urgent_oxygen_order :
  let item :=
    Agent.procurement_item Agent.init {[ "oxygen_liters" := 10%Z ]} 2
                           "oxygen_liters" 3000 1 in
  80 < Agent.priority item
  /\ Agent.order_immediately item = true
  /\ AgentPlan.timeline_priority (AgentPlan.order_entry 2 item)
     = AgentPlan.URGENT.
Proof. vm_compute. repeat split. Qed.

(** ** Comprehensive resource plan and readiness *)

Section ComprehensivePlanProps.
Import Agent AgentPlan.

Lemma fold_left_Qplus (xs : list Q) (acc : Q) :
  fold_left Qplus xs acc == acc + qsum xs.
Proof.
  unfold qsum. revert acc. induction xs as [| x xs IH]; intros acc; simpl.
  - ring.
  - rewrite IH, (IH (0 + x)). ring.
Qed.

Lemma qsum_cons (x : Q) (xs : list Q) : qsum (x :: xs) == x + qsum xs.
Proof. unfold qsum at 1. simpl. rewrite fold_left_Qplus. ring. Qed.

Lemma inject_length_cons {A} (x : A) (xs : list A) :
  inject_Z (Z.of_nat (length (x :: xs)))
  == inject_Z (Z.of_nat (length xs)) + 1.
Proof.
  cbn [length]. rewrite Nat2Z.inj_succ. unfold Z.succ.
  now rewrite inject_Z_plus.
Qed.

Lemma qsum_ge (c : Q) (xs : list Q) :
  Forall (fun x => c <= x) xs ->
  inject_Z (Z.of_nat (length xs)) * c <= qsum xs.
Proof.
  induction 1 as [| x xs Hx _ IH].
  - change (0 * c <= 0). lra.
  - rewrite qsum_cons, inject_length_cons.
    set (n := inject_Z (Z.of_nat (length xs))) in *.
    assert (E : (n + 1) * c == n * c + c) by ring.
    rewrite E. lra.
Qed.

Lemma qsum_const (c : Q) (xs : list Q) :
  Forall (fun x => x == c) xs ->
  qsum xs == inject_Z (Z.of_nat (length xs)) * c.
Proof.
  induction 1 as [| x xs Hx _ IH].
  - change (0 == 0 * c). ring.
  - rewrite qsum_cons, inject_length_cons, IH, Hx. ring.
Qed.

Lemma length_pos {A} (x : A) (xs : list A) :
  0 < inject_Z (Z.of_nat (length (x :: xs))).
Proof.
  replace 0 with (inject_Z 0) by reflexivity. rewrite <- Zlt_Qlt.
  cbn [length]. lia.
Qed.

Lemma mean_or_100_ge (xs : list Q) :
  Forall (fun x => 100 <= x) xs -> 100 <= mean_or_100 xs.
Proof.
  intros H. unfold mean_or_100. destruct xs as [| x xs]; unfold truthy; [lra |].
  unfold np_mean. apply Qle_shift_div_l; [apply length_pos |].
  rewrite Qmult_comm. now apply qsum_ge.
Qed.

Lemma mean_or_100_const (xs : list Q) :
  Forall (fun x => x == 100) xs -> mean_or_100 xs == 100.
Proof.
  intros H. unfold mean_or_100. destruct xs as [| x xs]; unfold truthy;
    [reflexivity |].
  unfold np_mean. rewrite (qsum_const 100 _ H).
  pose proof (length_pos x xs). field. lra.
Qed.

(** With a non-negative buffer, what is ordered brings the stock of an
    item up to its requirement at least. *)
Lemma procurement_item_coverage (self : t) (current_inventory : gmap string Z)
    (days_until_surge : Z) (supply_type : string) (required lead_time : Z) :
  0 <= inventory_buffer self ->
  supply_coverage (procurement_item self current_inventory days_until_surge
                                    supply_type required lead_time) == 100.
Proof.
  intros Hb. unfold supply_coverage.
  cbn [procurement_item Agent.required Agent.current_stock Agent.to_order].
  set (current := default 0%Z (current_inventory !! supply_type)).
  destruct (Z.ltb_spec 0 required) as [Hr | Hr]; [| reflexivity].
  pose proof (of_int_pos _ Hr) as Hpos.
  assert (Hk : (required - current
                <= py_int (of_int required * (1 + inventory_buffer self)
                           - of_int current))%Z).
  { apply py_int_ge. unfold Z.sub. rewrite inject_Z_plus, inject_Z_opp.
    fold (of_int required). fold (of_int current).
    assert (0 <= of_int required * inventory_buffer self)
      by (apply Qmult_le_0_compat; lra).
    assert (E : of_int required * (1 + inventory_buffer self)
                == of_int required + of_int required * inventory_buffer self)
      by ring.
    rewrite E. lra. }
  unfold buffered_shortage.
  assert (H : 1 <= of_int (current + Z.max 0
                      (py_int (of_int required * (1 + inventory_buffer self)
                               - of_int current)))
                   / of_int required).
  { apply Qle_shift_div_l; [exact Hpos |].
    rewrite Qmult_1_l. apply of_int_le. lia. }
  match goal with |- qmin 100 ?c == 100 =>
    destruct (qmin_spec 100 c) as [[? ->] | [? ->]]; lra
  end.
Qed.

(** What the returned plan is made of. *)
Lemma comprehensive_plan_inv (self : t) (surge_prediction : SurgePrediction)
    (current_resources : gmap string Z) (days_until_surge : Z)
    (plan : ResourcePlan) :
  generate_comprehensive_resource_plan self surge_prediction current_resources
                                       days_until_surge = Ok plan ->
  exists required_staff available_staff required_supplies current_inventory,
    AgentPlan.staff_allocation plan
    = calculate_staff_needs required_staff available_staff
    /\ calculate_supply_needs self required_supplies current_inventory
                              days_until_surge
       = Ok (supply_procurement plan)
    /\ map fst required_supplies
       = ["ppe_kits"; "oxygen_liters"; "iv_fluids_ml"; "medications_units";
          "bed_linens"]
    /\ action_timeline plan
       = _generate_action_timeline (AgentPlan.staff_allocation plan)
                                   (supply_procurement plan) days_until_surge
    /\ readiness_score plan
       = _calculate_readiness_score (AgentPlan.staff_allocation plan)
                                    (supply_procurement plan).
Proof.
  unfold generate_comprehensive_resource_plan. intros H.
  destruct (resource_forecast surge_prediction) as [required |];
    [| discriminate].
  rewrite bind_Ok in H. cbv zeta in H.
  match type of H with
  | context [calculate_supply_needs ?s ?r ?i ?d] =>
      destruct (calculate_supply_needs s r i d) as [supply_plan | key] eqn:Hs;
      [| discriminate];
      rewrite bind_Ok in H; injection H as <-;
      eexists _, _, r, i
  end.
  cbn [AgentPlan.staff_allocation supply_procurement action_timeline
       readiness_score].
  split; [reflexivity |]. split; [exact Hs |]. repeat split.
Qed.

End ComprehensivePlanProps.

(** X11.  [generate_comprehensive_resource_plan] raises a KeyError for
    [resource_forecast] when the prediction has no forecast; with a
    forecast, and a lead time on record for each of the five supplies, it
    returns a plan for the given day whose staff allocation lists doctors,
    nurses and support staff, whatever keys the forecast and the resources
    hold. *)
Theorem comprehensive_plan_returns
    (self : Agent.t) (surge_prediction : AgentPlan.SurgePrediction)
    (current_resources : gmap string Z) (days_until_surge : Z) :
  Forall (fun supply_type => is_Some (Agent.lead_times self !! supply_type))
         ["ppe_kits"; "oxygen_liters"; "iv_fluids_ml"; "medications_units";
          "bed_linens"] ->
  match AgentPlan.resource_forecast surge_prediction with
  | None =>
      AgentPlan.generate_comprehensive_resource_plan
        self surge_prediction current_resources days_until_surge
      = KeyError "resource_forecast"
  | Some _ =>
      exists plan,
        AgentPlan.generate_comprehensive_resource_plan
          self surge_prediction current_resources days_until_surge
        = Ok plan
        /\ AgentPlan.surge_date plan
           = AgentPlan.prediction_date surge_prediction
        /\ AgentPlan.plan_days_until_surge plan = days_until_surge
        /\ PyDict.keys (AgentPlan.staff_allocation plan)
           = ["doctors"; "nurses"; "support_staff"]
  end.
Proof.
  intros Hlead. unfold AgentPlan.generate_comprehensive_resource_plan.
  destruct (AgentPlan.resource_forecast surge_prediction) as [required |];
    [| reflexivity].
  rewrite bind_Ok. cbv zeta.
  match goal with
  | |- context [Agent.calculate_supply_needs ?s ?r ?i ?d] =>
      destruct (calculate_supply_needs_returns s r i d) as [supply_plan ->]
  end.
  - repeat (constructor; [cbn [fst]; now inversion Hlead; subst |];
            apply Forall_inv_tail in Hlead).
    constructor.
  - rewrite bind_Ok. eexists. split; [reflexivity |]. repeat split.
Qed.

Lemma comprehensive_plan_returns_witness :
  exists plan,
    AgentPlan.generate_comprehensive_resource_plan
      Agent.init
      (AgentPlan.mkSurgePrediction (Some "2024-11-12")
         (Some {[ "doctors_needed" := 25%Z; "ppe_kits" := 600%Z ]}))
      {[ "doctors" := 10%Z; "ppe_kits" := 200%Z ]} 5
    = Ok plan
    /\ AgentPlan.surge_date plan = Some "2024-11-12"
    /\ AgentPlan.plan_days_until_surge plan = 5%Z
    /\ PyDict.keys (AgentPlan.staff_allocation plan)
       = ["doctors"; "nurses"; "support_staff"].
Proof.
  apply (comprehensive_plan_returns Agent.init
           (AgentPlan.mkSurgePrediction (Some "2024-11-12")
              (Some {[ "doctors_needed" := 25%Z; "ppe_kits" := 600%Z ]}))
           {[ "doctors" := 10%Z; "ppe_kits" := 200%Z ]} 5).
  repeat constructor; vm_compute; eauto.
Defined.

(** X12.  With a non-negative inventory buffer the readiness score of a
    comprehensive plan is never below 100: every supply of the plan counts
    as fully covered, because its coverage is taken after the order, and
    so does every staff type.  The score is the one of the staff
    allocation alone, as if nothing had to be procured. *)
Theorem comprehensive_plan_readiness
    (self : Agent.t) (surge_prediction : AgentPlan.SurgePrediction)
    (current_resources : gmap string Z) (days_until_surge : Z)
    (plan : AgentPlan.ResourcePlan) :
  0 <= Agent.inventory_buffer self ->
  AgentPlan.generate_comprehensive_resource_plan
    self surge_prediction current_resources days_until_surge = Ok plan ->
  Forall (fun item => Agent.supply_coverage item == 100)
         (AgentPlan.supply_procurement plan)
  /\ Forall (fun entry => 100 <= Agent.coverage (snd entry))
            (AgentPlan.staff_allocation plan)
  /\ AgentPlan.readiness_score plan
     == Agent._calculate_readiness_score (AgentPlan.staff_allocation plan) []
  /\ 100 <= AgentPlan.readiness_score plan.
Proof.
  intros Hb Hplan.
  destruct (comprehensive_plan_inv _ _ _ _ _ Hplan)
    as (required_staff & available_staff & required_supplies
        & current_inventory & Hstaff & Hsupply & _ & _ & Hscore).
  assert (Hitems : Forall (fun item => Agent.supply_coverage item == 100)
                          (AgentPlan.supply_procurement plan)).
  { apply List.Forall_forall. intros item Hin.
    destruct (calculate_supply_needs_items _ _ _ _ _ _ Hsupply Hin)
      as (supply_type & required & lead_time & _ & _ & _ & ->).
    now apply procurement_item_coverage. }
  assert (Hcov : Forall (fun entry => 100 <= Agent.coverage (snd entry))
                        (AgentPlan.staff_allocation plan)).
  { rewrite Hstaff. unfold Agent.calculate_staff_needs.
    apply List.Forall_forall. intros entry Hin.
    apply in_map_iff in Hin as (staff_type & <- & _).
    apply staff_coverage_at_least_100. }
  split; [exact Hitems |]. split; [exact Hcov |].
  rewrite Hscore. unfold Agent._calculate_readiness_score.
  assert (Es : Agent.mean_or_100
                 (map Agent.supply_coverage (AgentPlan.supply_procurement plan))
               == 100).
  { apply mean_or_100_const. apply List.Forall_forall. intros x Hx.
    apply in_map_iff in Hx as (item & <- & Hin).
    rewrite List.Forall_forall in Hitems. now apply Hitems. }
  assert (Hm : 100 <= Agent.mean_or_100
                        (map Agent.coverage
                             (PyDict.values (AgentPlan.staff_allocation plan)))).
  { apply mean_or_100_ge. apply List.Forall_forall. intros x Hx.
    apply in_map_iff in Hx as (details & <- & Hin).
    unfold PyDict.values in Hin. apply in_map_iff in Hin as (entry & <- & Hin).
    rewrite List.Forall_forall in Hcov. now apply Hcov. }
  cbv zeta. split.
  - apply py_round_proper; [| reflexivity].
    rewrite Es. reflexivity.
  - assert (E100 : py_round 100 1 == 100)
      by (apply (py_round_exact 100 1 1000); reflexivity).
    rewrite <- E100 at 1. apply py_round_mono. rewrite Es. lra.
Qed.

Lemma comprehensive_plan_readiness_witness :
  exists plan,
    AgentPlan.generate_comprehensive_resource_plan
      Agent.init
      (AgentPlan.mkSurgePrediction (Some "2024-11-12")
         (Some {[ "doctors_needed" := 25%Z; "ppe_kits" := 600%Z ]}))
      {[ "doctors" := 10%Z; "ppe_kits" := 200%Z ]} 5
    = Ok plan
    /\ Forall (fun item => Agent.supply_coverage item == 100)
              (AgentPlan.supply_procurement plan)
    /\ Forall (fun entry => 100 <= Agent.coverage (snd entry))
              (AgentPlan.staff_allocation plan)
    /\ AgentPlan.readiness_score plan
       == Agent._calculate_readiness_score (AgentPlan.staff_allocation plan) []
    /\ 100 <= AgentPlan.readiness_score plan.
Proof.
  eexists. split; [vm_compute; reflexivity |].
  apply (comprehensive_plan_readiness Agent.init
           (AgentPlan.mkSurgePrediction (Some "2024-11-12")
              (Some {[ "doctors_needed" := 25%Z; "ppe_kits" := 600%Z ]}))
           {[ "doctors" := 10%Z; "ppe_kits" := 200%Z ]} 5).
  - vm_compute. discriminate.
  - vm_compute. reflexivity.
Defined.

(** ** Multi-facility report: totals, listings and what pooling leaves *)

Section PoolingReport.
Import Pooling.
#[local] Open Scope Z_scope.

Lemma tally_wf (amount : Hospital * string -> Z) (w : list (Hospital * string)) :
  PyDict.wf (fold_left (tally amount) w []).
Proof.
  induction w as [| p w IH] using rev_ind; [apply List.NoDup_nil |].
  rewrite fold_left_app. simpl. unfold tally at 1. now apply wf_set.
Qed.

Lemma zsum_nonneg (l : list Z) : Forall (fun x => 0 <= x) l -> 0 <= zsum l.
Proof.
  induction 1 as [| x l Hx _ IH]; [reflexivity |]. rewrite zsum_cons. lia.
Qed.

Lemma zsum_pos (l : list Z) (x : Z) :
  Forall (fun x => 0 <= x) l -> In x l -> 0 < x -> 0 < zsum l.
Proof.
  induction 1 as [| y l Hy Hl IH]; intros Hin Hx; [destruct Hin |].
  rewrite zsum_cons. pose proof (zsum_nonneg l Hl).
  destruct Hin as [-> | Hin]; [lia |]. specialize (IH Hin Hx). lia.
Qed.

(** Requirement minus stock is shortage minus surplus, summed over the
    facilities. *)
Lemma totals_balance (hs : list Hospital) (rt : string) :
  required_total hs rt - available_total hs rt
  = zsum (map (fun h => shortage_of h rt) hs)
    - zsum (map (fun h => surplus_of h rt) hs).
Proof.
  unfold required_total, available_total.
  induction hs as [| h hs IH]; [reflexivity |].
  cbn [map]. rewrite !zsum_cons.
  assert (E : default 0 (required_of h rt)
              - match required_of h rt with
                | Some _ => available_of h rt
                | None => 0
                end
              = shortage_of h rt - surplus_of h rt).
  { unfold shortage_of, surplus_of.
    destruct (required_of h rt) as [req |]; simpl; lia. }
  lia.
Qed.

Lemma surplus_of_pos (h : Hospital) (rt : string) :
  has_surplus h rt -> 0 < surplus_of h rt.
Proof. intros (req & E & Hlt). unfold surplus_of. rewrite E. lia. Qed.

Lemma shortage_of_pos (h : Hospital) (rt : string) :
  has_shortage h rt -> 0 < shortage_of h rt.
Proof. intros (req & E & Hlt). unfold shortage_of. rewrite E. lia. Qed.

Lemma surplus_of_nonneg (hs : list Hospital) (rt : string) :
  Forall (fun x => 0 <= x) (map (fun h => surplus_of h rt) hs).
Proof.
  apply List.Forall_forall. intros x Hx. apply in_map_iff in Hx as (h & <- & _).
  unfold surplus_of. destruct (required_of h rt); lia.
Qed.

Lemma shortage_of_nonneg (hs : list Hospital) (rt : string) :
  Forall (fun x => 0 <= x) (map (fun h => shortage_of h rt) hs).
Proof.
  apply List.Forall_forall. intros x Hx. apply in_map_iff in Hx as (h & <- & _).
  unfold shortage_of. destruct (required_of h rt); lia.
Qed.

(** The entries of a comprehension. *)
Lemma in_holders (d : list (string * list (string * Z))) (rt h_id : string)
    (amount : Z) :
  PyDict.wf d ->
  In (h_id, amount) (holders d rt) ->
  exists inner,
    PyDict.get d h_id = Some inner
    /\ PyDict.mem inner rt = true
    /\ amount = PyDict.get_default inner rt 0.
Proof.
  intros Hwf Hin. unfold holders in Hin.
  apply in_map_iff in Hin as ([k inner] & E & Hin).
  apply (filter_In (fun entry : string * list (string * Z) =>
                      PyDict.mem (snd entry) rt)) in Hin as [Hin Hmem].
  simpl in E, Hmem. injection E as <- <-.
  exists inner. split; [now apply wf_In_get | auto].
Qed.

Section RecordValue.
Variables (cond : Hospital * string -> bool) (amount : Hospital * string -> Z).

(** What a facility's dictionary holds for a type is what the last visit
    under these keys recorded. *)
Lemma record_if_value (w : list (Hospital * string)) (k rt : string) :
  forall inner,
    PyDict.get (fold_left (record_if cond amount) w []) k = Some inner ->
    PyDict.mem inner rt = true ->
    exists p, In p w /\ visit_keys p = (k, rt) /\ cond p = true
              /\ PyDict.get_default inner rt 0 = amount p.
Proof.
  induction w as [| p w IH] using rev_ind; intros inner Hget Hmem;
    [discriminate |].
  assert (Hold : forall q, In q w -> In q (w ++ [p]))
    by (intros q Hq; apply in_app_iff; now left).
  rewrite fold_left_app in Hget. simpl in Hget. unfold record_if at 1 in Hget.
  destruct (cond p) eqn:Hc.
  - destruct (decide (hospital_id (fst p) = k)) as [<- | Hne].
    + rewrite get_set_nested_eq in Hget. injection Hget as <-.
      destruct (decide (snd p = rt)) as [<- | Hrt].
      * exists p. split; [apply in_app_iff; right; now left |].
        split; [reflexivity |]. split; [exact Hc |].
        rewrite get_default_set. now rewrite decide_True.
      * apply mem_set in Hmem as [? | Hmem]; [contradiction |].
        rewrite get_default_set, decide_False by assumption.
        destruct (PyDict.get (fold_left (record_if cond amount) w [])
                             (hospital_id (fst p))) as [old |] eqn:E.
        -- assert (Eo : PyDict.get_default
                          (fold_left (record_if cond amount) w [])
                          (hospital_id (fst p)) [] = old)
             by (unfold PyDict.get_default; now rewrite E).
           rewrite Eo in *.
           destruct (IH old eq_refl Hmem) as (q & Hq & Hk & Hcq & Hv).
           exists q. auto.
        -- assert (Eo : PyDict.get_default
                          (fold_left (record_if cond amount) w [])
                          (hospital_id (fst p)) [] = [])
             by (unfold PyDict.get_default; now rewrite E).
           rewrite Eo in Hmem. discriminate.
    + rewrite get_set_nested_ne in Hget by assumption.
      destruct (IH inner Hget Hmem) as (q & Hq & Hk & Hcq & Hv).
      exists q. auto.
  - destruct (IH inner Hget Hmem) as (q & Hq & Hk & Hcq & Hv).
    exists q. auto.
Qed.

End RecordValue.

Lemma pooling_loop_list (ks : list string) :
  forall f,
    total_requirements (fold_left pooling_step ks f) = total_requirements f
    /\ total_available (fold_left pooling_step ks f) = total_available f
    /\ hospitals_with_surplus (fold_left pooling_step ks f)
       = hospitals_with_surplus f
    /\ hospitals_with_shortage (fold_left pooling_step ks f)
       = hospitals_with_shortage f
    /\ network_procurement (fold_left pooling_step ks f)
       = network_procurement f
    /\ pooling_recommendations (fold_left pooling_step ks f)
       = pooling_recommendations f
         ++ map (fun rt =>
                   opportunity rt (holders (hospitals_with_surplus f) rt)
                                  (holders (hospitals_with_shortage f) rt))
                (List.filter
                   (fun rt =>
                      truthy (holders (hospitals_with_surplus f) rt)
                      && truthy (holders (hospitals_with_shortage f) rt))
                   ks).
Proof.
  induction ks as [| k ks IH]; intros f.
  - simpl. rewrite app_nil_r. repeat split.
  - cbn [fold_left].
    destruct (IH (pooling_step f k)) as (Hr & Ha & Hs & Hh & Hn & Hp).
    destruct (pooling_step_frame f k) as (_ & Hr1 & Ha1 & Hs1 & Hh1 & Hn1).
    rewrite Hr, Ha, Hs, Hh, Hn, Hp, Hs1, Hh1.
    repeat (split; [assumption || reflexivity |]).
    cbn [List.filter]. unfold pooling_step.
    destruct (truthy (holders (hospitals_with_surplus f) k)
              && truthy (holders (hospitals_with_shortage f) k)); [| reflexivity].
    cbn [pooling_recommendations map]. now rewrite <- app_assoc.
Qed.

Lemma network_loop_frame (ks : list string) :
  forall f,
    total_requirements (fold_left network_step ks f) = total_requirements f
    /\ total_available (fold_left network_step ks f) = total_available f
    /\ hospitals_with_surplus (fold_left network_step ks f)
       = hospitals_with_surplus f
    /\ hospitals_with_shortage (fold_left network_step ks f)
       = hospitals_with_shortage f
    /\ pooling_recommendations (fold_left network_step ks f)
       = pooling_recommendations f.
Proof.
  induction ks as [| k ks IH]; intros f; [repeat split |].
  cbn [fold_left].
  destruct (IH (network_step f k)) as (Hr & Ha & Hs & Hh & Hp).
  rewrite Hr, Ha, Hs, Hh, Hp. unfold network_step.
  destruct (0 <? _); repeat split.
Qed.

(** The fields of the frame when the three loops are done. *)
Lemma run_frames (hs : list Hospital) :
  let f := run (enter hs) in
  total_requirements f = fold_left (tally visit_required) (visits hs) []
  /\ total_available f = fold_left (tally visit_available) (visits hs) []
  /\ hospitals_with_surplus f
     = fold_left (record_if surplus_visit surplus_amount) (visits hs) []
  /\ hospitals_with_shortage f
     = fold_left (record_if shortage_visit shortage_amount) (visits hs) []
  /\ pooling_recommendations f
     = map (fun rt =>
              opportunity rt (holders (hospitals_with_surplus f) rt)
                             (holders (hospitals_with_shortage f) rt))
           (List.filter
              (fun rt =>
                 truthy (holders (hospitals_with_surplus f) rt)
                 && truthy (holders (hospitals_with_shortage f) rt))
              (PyDict.keys (total_requirements f)))
  /\ forall rt,
       PyDict.get_default (network_procurement f) rt 0
       = Z.max 0 (PyDict.get_default (total_requirements f) rt 0
                  - PyDict.get_default (total_available f) rt 0).
Proof.
  unfold run. cbv zeta.
  change (hospitals_data (enter hs)) with hs.
  destruct (analysed hs (enter hs)) as (_ & Hr1 & Ha1 & Hs1 & Hh1 & Hp1 & Hn1).
  set (f1 := fold_left analyse_hospital hs (enter hs)) in *.
  simpl in Hr1, Ha1, Hs1, Hh1, Hp1, Hn1.
  destruct (pooling_loop_list (PyDict.keys (total_requirements f1)) f1)
    as (Hr2 & Ha2 & Hs2 & Hh2 & Hn2 & Hp2).
  set (f2 := fold_left pooling_step (PyDict.keys (total_requirements f1)) f1)
    in *.
  destruct (network_loop_frame (PyDict.keys (total_requirements f2)) f2)
    as (Hr3 & Ha3 & Hs3 & Hh3 & Hp3).
  pose proof (fun rt => network_loop (PyDict.keys (total_requirements f2))
                                     rt f2) as Hnet.
  set (f3 := fold_left network_step (PyDict.keys (total_requirements f2)) f2)
    in *.
  simpl in Hnet.
  rewrite Hr3, Ha3, Hs3, Hh3, Hp3, Hr2, Ha2, Hs2, Hh2, Hp2, Hp1.
  repeat (split; [assumption || reflexivity |]).
  intros rt. destruct (Hnet rt) as (_ & _ & Hin & Hout).
  rewrite Hr2, Ha2 in Hin, Hout. rewrite Hn2, Hn1 in Hout.
  set (need := Z.max 0 (PyDict.get_default (total_requirements f1) rt 0
                        - PyDict.get_default (total_available f1) rt 0)) in *.
  destruct (in_dec (fun a b : string => decide (a = b)) rt
              (PyDict.keys (total_requirements f1))) as [Hk | Hk].
  - destruct (Z.ltb_spec 0 need) as [Hpos | Hzero].
    + unfold PyDict.get_default at 1. now rewrite (Hin Hk Hpos).
    + unfold PyDict.get_default at 1. rewrite Hout by (right; exact Hzero).
      simpl. lia.
  - unfold PyDict.get_default at 1. rewrite Hout by (left; exact Hk). simpl.
    assert (Hk' : ~ In rt (PyDict.keys (total_available f1))).
    { rewrite Ha1, (tally_same_keys _ visit_required), <- Hr1. exact Hk. }
    apply get_None_keys in Hk, Hk'. unfold need, PyDict.get_default.
    now rewrite Hk, Hk'.
Qed.

(** The opportunities of the report, by resource type. *)
Lemma in_opportunities (hs : list Hospital) (o : PoolingOpportunity) :
  let f := run (enter hs) in
  In o (pooling_recommendations f)
  <-> exists rt,
        In rt (PyDict.keys (total_requirements f))
        /\ (exists h, In h hs /\ has_surplus h rt)
        /\ (exists h, In h hs /\ has_shortage h rt)
        /\ o = opportunity rt (holders (hospitals_with_surplus f) rt)
                              (holders (hospitals_with_shortage f) rt).
Proof.
  intros f. destruct (run_frames hs) as (_ & _ & Hs & Hh & Hp & _).
  fold f in Hs, Hh, Hp. rewrite Hp, in_map_iff.
  assert (Hc : forall rt,
            truthy (holders (hospitals_with_surplus f) rt)
            && truthy (holders (hospitals_with_shortage f) rt) = true
            <-> (exists h, In h hs /\ has_surplus h rt)
                /\ (exists h, In h hs /\ has_shortage h rt)).
  { intros rt. rewrite andb_true_iff, Hs, Hh.
    rewrite !holders_truthy by apply record_if_wf.
    now rewrite !record_if_listed, surplus_visits, shortage_visits. }
  split.
  - intros (rt & <- & Hin).
    apply (filter_In (fun rt : string =>
             truthy (holders (hospitals_with_surplus f) rt)
             && truthy (holders (hospitals_with_shortage f) rt)))
      in Hin as [Hin Hb].
    apply Hc in Hb as [H1 H2]. exists rt. auto.
  - intros (rt & Hin & H1 & H2 & ->). exists rt. split; [reflexivity |].
    apply (filter_In (fun rt : string =>
             truthy (holders (hospitals_with_surplus f) rt)
             && truthy (holders (hospitals_with_shortage f) rt))).
    split; [exact Hin |]. apply Hc. auto.
Qed.

End PoolingReport.

Section PoolingListings.
Import Pooling.
#[local] Open Scope Z_scope.

(** The facilities a comprehension of the final frame lists. *)
Lemma surplus_listing (hs : list Hospital) (rt h_id : string) (amount : Z) :
  In (h_id, amount) (holders (hospitals_with_surplus (run (enter hs))) rt) ->
  exists h req,
    In h hs /\ hospital_id h = h_id /\ required_of h rt = Some req
    /\ req < available_of h rt /\ amount = available_of h rt - req.
Proof.
  destruct (run_frames hs) as (_ & _ & Hs & _). cbv zeta in Hs. rewrite Hs.
  intros Hin. apply in_holders in Hin as (inner & Hget & Hmem & ->);
    [| apply record_if_wf].
  destruct (record_if_value _ _ _ _ _ _ Hget Hmem)
    as ([h rt'] & Hp & Hk & Hc & ->).
  unfold visit_keys in Hk. simpl in Hk. injection Hk as <- <-.
  apply in_visits in Hp as [Hh Hrt]. simpl in Hh, Hrt.
  apply required_of_keys in Hrt as [req Hreq].
  unfold surplus_visit, surplus_amount, visit_available in *. simpl in *.
  rewrite (visit_required_of _ _ _ Hreq) in *. apply Z.ltb_lt in Hc.
  exists h, req. auto.
Qed.

Lemma shortage_listing (hs : list Hospital) (rt h_id : string) (amount : Z) :
  In (h_id, amount) (holders (hospitals_with_shortage (run (enter hs))) rt) ->
  exists h req,
    In h hs /\ hospital_id h = h_id /\ required_of h rt = Some req
    /\ available_of h rt < req /\ amount = req - available_of h rt.
Proof.
  destruct (run_frames hs) as (_ & _ & _ & Hh & _). cbv zeta in Hh. rewrite Hh.
  intros Hin. apply in_holders in Hin as (inner & Hget & Hmem & ->);
    [| apply record_if_wf].
  destruct (record_if_value _ _ _ _ _ _ Hget Hmem)
    as ([h rt'] & Hp & Hk & Hc & ->).
  unfold visit_keys in Hk. simpl in Hk. injection Hk as <- <-.
  apply in_visits in Hp as [Hin Hrt]. simpl in Hin, Hrt.
  apply required_of_keys in Hrt as [req Hreq].
  unfold shortage_visit, shortage_amount, visit_available in *. simpl in *.
  rewrite (visit_required_of _ _ _ Hreq) in *. apply Z.ltb_lt in Hc.
  exists h, req. auto.
Qed.

Lemma same_identifier (hs : list Hospital) (h h' : Hospital) :
  List.NoDup (map hospital_id hs) ->
  In h hs -> In h' hs -> hospital_id h = hospital_id h' -> h = h'.
Proof.
  induction hs as [| x hs IH]; intros Hnd Hh Hh' E; [destruct Hh |].
  simpl in Hnd. apply List.NoDup_cons_iff in Hnd as [Hx Hnd].
  destruct Hh as [-> | Hh], Hh' as [-> | Hh'].
  - reflexivity.
  - exfalso. apply Hx. rewrite E. now apply in_map.
  - exfalso. apply Hx. rewrite <- E. now apply in_map.
  - now apply IH.
Qed.

Lemma truthy_nonempty {A} (l : list A) : truthy l = true -> l <> [].
Proof. destruct l; [discriminate | discriminate]. Qed.

End PoolingListings.

(** X13.  The two totals of the multi-facility report have the same keys
    in the same order, each resource type once: the types some facility
    requires.  For each type the first total is the sum of the
    requirements and the second the sum of the stock, both over the
    facilities that require the type; stock of a type a facility does not
    require is not counted. *)
Theorem pooling_report_totals (hospitals_data : list Pooling.Hospital) :
  Forall (fun h => PyDict.wf (Pooling.required_resources h)) hospitals_data ->
  let out := Pooling.generate_multi_hospital_recommendations hospitals_data in
  PyDict.keys (Pooling.report_total_available out)
  = PyDict.keys (Pooling.report_total_requirements out)
  /\ List.NoDup (PyDict.keys (Pooling.report_total_requirements out))
  /\ (forall rt,
        In rt (PyDict.keys (Pooling.report_total_requirements out))
        <-> exists h, In h hospitals_data
                      /\ is_Some (Pooling.required_of h rt))
  /\ (forall rt,
        PyDict.get_default (Pooling.report_total_requirements out) rt 0%Z
        = Pooling.required_total hospitals_data rt
        /\ PyDict.get_default (Pooling.report_total_available out) rt 0%Z
           = Pooling.available_total hospitals_data rt).
Proof.
  intros Hwf out. unfold out, Pooling.generate_multi_hospital_recommendations,
    Pooling.report.
  cbn [Pooling.report_total_requirements Pooling.report_total_available].
  destruct (run_frames hospitals_data) as (Hr & Ha & _).
  cbv zeta in Hr, Ha. rewrite Hr, Ha.
  split; [apply tally_same_keys |]. split; [apply tally_wf |]. split.
  - intros rt. rewrite tally_keys. split.
    + intros (p & Hp & <-). apply in_visits in Hp as [Hh Hk].
      exists (fst p). split; [exact Hh | now apply required_of_keys].
    + intros (h & Hh & Hs). exists (h, rt). split; [| reflexivity].
      apply in_visits. split; [exact Hh | now apply required_of_keys].
  - intros rt.
    rewrite !tally_total, required_contribution, available_contribution
      by exact Hwf.
    auto.
Qed.

Lemma pooling_report_totals_witness :
  let hospitals_data :=
    [ Pooling.mkHospital "A" [("ppe_kits", 1000%Z)]
        {[ "ppe_kits" := 500%Z; "oxygen_liters" := 90%Z ]};
      Pooling.mkHospital "B" [("ppe_kits", 200%Z); ("oxygen_liters", 50%Z)]
        {[ "ppe_kits" := 1000%Z ]} ] in
  let out := Pooling.generate_multi_hospital_recommendations hospitals_data in
  PyDict.keys (Pooling.report_total_available out)
  = PyDict.keys (Pooling.report_total_requirements out)
  /\ List.NoDup (PyDict.keys (Pooling.report_total_requirements out))
  /\ (forall rt,
        In rt (PyDict.keys (Pooling.report_total_requirements out))
        <-> exists h, In h hospitals_data
                      /\ is_Some (Pooling.required_of h rt))
  /\ (forall rt,
        PyDict.get_default (Pooling.report_total_requirements out) rt 0%Z
        = Pooling.required_total hospitals_data rt
        /\ PyDict.get_default (Pooling.report_total_available out) rt 0%Z
           = Pooling.available_total hospitals_data rt).
Proof.
  intros hospitals_data.
  apply (pooling_report_totals hospitals_data).
  repeat (apply List.Forall_cons;
          [unfold PyDict.wf; simpl;
           repeat (apply List.NoDup_cons; [simpl; intuition discriminate |]);
           apply List.NoDup_nil |]).
  apply List.Forall_nil.
Defined.

(** The oxygen of facility A in the example above, which A does not
    require, is left out of the total. *)
Example unrequired_stock_not_counted :
  Pooling.report_total_available
    (Pooling.generate_multi_hospital_recommendations
       [ Pooling.mkHospital "A" [("ppe_kits", 1000%Z)]
           {[ "ppe_kits" := 500%Z; "oxygen_liters" := 90%Z ]};
         Pooling.mkHospital "B" [("ppe_kits", 200%Z); ("oxygen_liters", 50%Z)]
           {[ "ppe_kits" := 1000%Z ]} ])
  = [("ppe_kits", 1500%Z); ("oxygen_liters", 0%Z)].
Proof. vm_compute. reflexivity. Qed.

(** X14.  What pooling cannot cover is what the network procures: on
    facilities with distinct identifiers every pooling opportunity
    transfers a positive amount, no more than the surplus or the shortage,
    and the network procurement need of its resource type is the total
    shortage less the transfer.  For any type the need is
    [max(0, shortages - surpluses)] summed over the facilities. *)
Theorem pooling_covers_shortage (hospitals_data : list Pooling.Hospital) :
  Pooling.wf_input hospitals_data ->
  let out := Pooling.generate_multi_hospital_recommendations hospitals_data in
  (forall o,
     In o (Pooling.pooling_opportunities out) ->
     (0 < Pooling.can_transfer o)%Z
     /\ (Pooling.can_transfer o <= Pooling.total_surplus o)%Z
     /\ (Pooling.can_transfer o <= Pooling.total_shortage o)%Z
     /\ PyDict.get_default (Pooling.network_procurement_needed out)
                           (Pooling.resource o) 0%Z
        = (Pooling.total_shortage o - Pooling.can_transfer o)%Z)
  /\ (forall rt,
        PyDict.get_default (Pooling.network_procurement_needed out) rt 0%Z
        = Z.max 0
            (Pooling.zsum (map (fun h => Pooling.shortage_of h rt)
                               hospitals_data)
             - Pooling.zsum (map (fun h => Pooling.surplus_of h rt)
                                 hospitals_data))).
Proof.
  intros Hwf out. pose proof (nodup_visits _ Hwf) as Hnd.
  destruct Hwf as [_ Hreq].
  unfold out, Pooling.generate_multi_hospital_recommendations, Pooling.report.
  cbn [Pooling.pooling_opportunities Pooling.network_procurement_needed].
  destruct (run_frames hospitals_data) as (Hr & Ha & Hs & Hh & _ & Hn).
  cbv zeta in Hr, Ha, Hs, Hh, Hn.
  assert (Hneed : forall rt,
    PyDict.get_default
      (Pooling.network_procurement (Pooling.run (Pooling.enter hospitals_data)))
      rt 0%Z
    = Z.max 0
        (Pooling.zsum (map (fun h => Pooling.shortage_of h rt) hospitals_data)
         - Pooling.zsum (map (fun h => Pooling.surplus_of h rt)
                             hospitals_data))).
  { intros rt.
    rewrite Hn, Hr, Ha, !tally_total, required_contribution,
      available_contribution by exact Hreq.
    now rewrite totals_balance. }
  split; [| exact Hneed].
  intros o Ho. pose proof (in_opportunities hospitals_data o) as Hio.
  cbv zeta in Hio. apply Hio in Ho
    as (rt & _ & (h1 & Hh1 & Hs1) & (h2 & Hh2 & Hs2) & ->).
  cbn [Pooling.opportunity Pooling.can_transfer Pooling.total_surplus
       Pooling.total_shortage Pooling.resource].
  rewrite Hneed, !holders_sum, Hs, Hh, !record_if_column by exact Hnd.
  rewrite surplus_contribution, shortage_contribution by exact Hreq.
  assert (Hp1 : (0 < Pooling.zsum (map (fun h => Pooling.surplus_of h rt)
                                       hospitals_data))%Z).
  { apply (zsum_pos _ (Pooling.surplus_of h1 rt));
      [apply surplus_of_nonneg | | now apply surplus_of_pos].
    apply (in_map (fun h => Pooling.surplus_of h rt)), Hh1. }
  assert (Hp2 : (0 < Pooling.zsum (map (fun h => Pooling.shortage_of h rt)
                                       hospitals_data))%Z).
  { apply (zsum_pos _ (Pooling.shortage_of h2 rt));
      [apply shortage_of_nonneg | | now apply shortage_of_pos].
    apply (in_map (fun h => Pooling.shortage_of h rt)), Hh2. }
  lia.
Qed.

Lemma pooling_covers_shortage_witness :
  let hospitals_data :=
    [ Pooling.mkHospital "A" [("ppe_kits", 1000%Z)] {[ "ppe_kits" := 300%Z ]};
      Pooling.mkHospital "B" [("ppe_kits", 200%Z)] {[ "ppe_kits" := 600%Z ]} ] in
  let out := Pooling.generate_multi_hospital_recommendations hospitals_data in
  (forall o,
     In o (Pooling.pooling_opportunities out) ->
     (0 < Pooling.can_transfer o)%Z
     /\ (Pooling.can_transfer o <= Pooling.total_surplus o)%Z
     /\ (Pooling.can_transfer o <= Pooling.total_shortage o)%Z
     /\ PyDict.get_default (Pooling.network_procurement_needed out)
                           (Pooling.resource o) 0%Z
        = (Pooling.total_shortage o - Pooling.can_transfer o)%Z)
  /\ (forall rt,
        PyDict.get_default (Pooling.network_procurement_needed out) rt 0%Z
        = Z.max 0
            (Pooling.zsum (map (fun h => Pooling.shortage_of h rt)
                               hospitals_data)
             - Pooling.zsum (map (fun h => Pooling.surplus_of h rt)
                                 hospitals_data))).
Proof.
  intros hospitals_data.
  apply (pooling_covers_shortage hospitals_data).
  split.
  - simpl. repeat (apply List.NoDup_cons; [simpl; intuition discriminate |]).
    apply List.NoDup_nil.
  - repeat (apply List.Forall_cons;
            [unfold PyDict.wf; simpl;
             repeat (apply List.NoDup_cons; [simpl; tauto |]);
             apply List.NoDup_nil |]).
    apply List.Forall_nil.
Defined.

(** A lacks 700 kits, B can spare 400: 400 are transferred and 300 are
    procured. *)
Example pooling_leaves_a_need :
  let out :=
    Pooling.generate_multi_hospital_recommendations
      [ Pooling.mkHospital "A" [("ppe_kits", 1000%Z)] {[ "ppe_kits" := 300%Z ]};
        Pooling.mkHospital "B" [("ppe_kits", 200%Z)] {[ "ppe_kits" := 600%Z ]} ] in
  map Pooling.can_transfer (Pooling.pooling_opportunities out) = [400%Z]
  /\ Pooling.network_procurement_needed out = [("ppe_kits", 300%Z)].
Proof. vm_compute. split; reflexivity. Qed.

(** X15.  The report holds at most one pooling opportunity per resource
    type, and each one lists the facilities that the report's surplus and
    shortage dictionaries record for its type: both lists are non-empty
    and the two totals are their sums. *)
Theorem one_opportunity_per_type (hospitals_data : list Pooling.Hospital) :
  let out := Pooling.generate_multi_hospital_recommendations hospitals_data in
  List.NoDup (map Pooling.resource (Pooling.pooling_opportunities out))
  /\ forall o,
       In o (Pooling.pooling_opportunities out) ->
       In (Pooling.resource o)
          (PyDict.keys (Pooling.report_total_requirements out))
       /\ Pooling.surplus_hospitals o
          = Pooling.holders (Pooling.report_hospitals_with_surplus out)
                            (Pooling.resource o)
       /\ Pooling.shortage_hospitals o
          = Pooling.holders (Pooling.report_hospitals_with_shortage out)
                            (Pooling.resource o)
       /\ Pooling.surplus_hospitals o <> []
       /\ Pooling.shortage_hospitals o <> []
       /\ Pooling.total_surplus o
          = Pooling.zsum (map snd (Pooling.surplus_hospitals o))
       /\ Pooling.total_shortage o
          = Pooling.zsum (map snd (Pooling.shortage_hospitals o))
       /\ Pooling.can_transfer o
          = Z.min (Pooling.total_surplus o) (Pooling.total_shortage o).
Proof.
  intros out. unfold out, Pooling.generate_multi_hospital_recommendations,
    Pooling.report.
  cbn [Pooling.pooling_opportunities Pooling.report_total_requirements
       Pooling.report_hospitals_with_surplus
       Pooling.report_hospitals_with_shortage].
  destruct (run_frames hospitals_data) as (Hr & _ & _ & _ & Hp & _).
  cbv zeta in Hr, Hp. rewrite Hp. split.
  - rewrite map_map. cbn [Pooling.opportunity Pooling.resource].
    rewrite map_id. apply List.NoDup_filter. rewrite Hr. apply tally_wf.
  - intros o Ho. apply in_map_iff in Ho as (rt & <- & Hin).
    apply (filter_In (fun rt : string =>
             truthy (Pooling.holders
                       (Pooling.hospitals_with_surplus
                          (Pooling.run (Pooling.enter hospitals_data))) rt)
             && truthy (Pooling.holders
                          (Pooling.hospitals_with_shortage
                             (Pooling.run (Pooling.enter hospitals_data))) rt)))
      in Hin as [Hin Hb].
    apply andb_true_iff in Hb as [Hb1 Hb2].
    cbn [Pooling.opportunity Pooling.resource Pooling.surplus_hospitals
         Pooling.shortage_hospitals Pooling.total_surplus
         Pooling.total_shortage Pooling.can_transfer].
    repeat split; try assumption; now apply truthy_nonempty.
Qed.

(** X16.  Every facility an opportunity lists with a surplus is one of
    the input that requires the type and holds more than it requires, and
    the amount listed is the difference; likewise, with the sides
    exchanged, for the shortages.  The amounts are positive. *)
Theorem pooling_listed_amounts (hospitals_data : list Pooling.Hospital)
    (o : Pooling.PoolingOpportunity) (h_id : string) (amount : Z) :
  In o (Pooling.pooling_opportunities
          (Pooling.generate_multi_hospital_recommendations hospitals_data)) ->
  (In (h_id, amount) (Pooling.surplus_hospitals o) ->
   (0 < amount)%Z
   /\ exists h req,
        In h hospitals_data /\ Pooling.hospital_id h = h_id
        /\ Pooling.required_of h (Pooling.resource o) = Some req
        /\ amount = (Pooling.available_of h (Pooling.resource o) - req)%Z)
  /\ (In (h_id, amount) (Pooling.shortage_hospitals o) ->
      (0 < amount)%Z
      /\ exists h req,
           In h hospitals_data /\ Pooling.hospital_id h = h_id
           /\ Pooling.required_of h (Pooling.resource o) = Some req
           /\ amount = (req - Pooling.available_of h (Pooling.resource o))%Z).
Proof.
  unfold Pooling.generate_multi_hospital_recommendations, Pooling.report.
  cbn [Pooling.pooling_opportunities]. intros Ho.
  pose proof (in_opportunities hospitals_data o) as Hio.
  cbv zeta in Hio. apply Hio in Ho as (rt & _ & _ & _ & ->).
  cbn [Pooling.opportunity Pooling.resource Pooling.surplus_hospitals
       Pooling.shortage_hospitals].
  split; intros Hin.
  - apply surplus_listing in Hin as (h & req & Hh & Hid & Hreq & Hlt & ->).
    split; [lia |]. exists h, req. auto.
  - apply shortage_listing in Hin as (h & req & Hh & Hid & Hreq & Hlt & ->).
    split; [lia |]. exists h, req. auto.
Qed.

Lemma pooling_listed_amounts_witness :
  let hospitals_data :=
    [ Pooling.mkHospital "A" [("ppe_kits", 1000%Z)] {[ "ppe_kits" := 300%Z ]};
      Pooling.mkHospital "B" [("ppe_kits", 200%Z)] {[ "ppe_kits" := 600%Z ]} ] in
  let o :=
    Pooling.opportunity "ppe_kits" [("B", 400%Z)] [("A", 700%Z)] in
  (In ("B", 400%Z) (Pooling.surplus_hospitals o) ->
   (0 < 400)%Z
   /\ exists h req,
        In h hospitals_data /\ Pooling.hospital_id h = "B"
        /\ Pooling.required_of h (Pooling.resource o) = Some req
        /\ 400%Z = (Pooling.available_of h (Pooling.resource o) - req)%Z)
  /\ (In ("B", 400%Z) (Pooling.shortage_hospitals o) ->
      (0 < 400)%Z
      /\ exists h req,
           In h hospitals_data /\ Pooling.hospital_id h = "B"
           /\ Pooling.required_of h (Pooling.resource o) = Some req
           /\ 400%Z = (req - Pooling.available_of h (Pooling.resource o))%Z).
Proof.
  intros hospitals_data o.
  apply (pooling_listed_amounts hospitals_data o "B" 400).
  vm_compute. left. reflexivity.
Defined.

(** X17.  On facilities with distinct identifiers no facility is listed
    on both sides of an opportunity: a facility never gives and receives
    the same resource type. *)
Theorem no_facility_on_both_sides (hospitals_data : list Pooling.Hospital)
    (o : Pooling.PoolingOpportunity) (h_id : string) (surplus shortage : Z) :
  List.NoDup (map Pooling.hospital_id hospitals_data) ->
  In o (Pooling.pooling_opportunities
          (Pooling.generate_multi_hospital_recommendations hospitals_data)) ->
  In (h_id, surplus) (Pooling.surplus_hospitals o) ->
  ~ In (h_id, shortage) (Pooling.shortage_hospitals o).
Proof.
  unfold Pooling.generate_multi_hospital_recommendations, Pooling.report.
  cbn [Pooling.pooling_opportunities]. intros Hnd Ho.
  pose proof (in_opportunities hospitals_data o) as Hio.
  cbv zeta in Hio. apply Hio in Ho as (rt & _ & _ & _ & ->).
  cbn [Pooling.opportunity Pooling.surplus_hospitals
       Pooling.shortage_hospitals].
  intros H1 H2.
  apply surplus_listing in H1 as (h & req & Hh & Hid & Hreq & Hlt & _).
  apply shortage_listing in H2 as (h' & req' & Hh' & Hid' & Hreq' & Hlt' & _).
  assert (h = h') as <-
    by (apply (same_identifier hospitals_data); congruence).
  rewrite Hreq in Hreq'. injection Hreq' as <-. lia.
Qed.

Lemma no_facility_on_both_sides_witness :
  let o := Pooling.opportunity "ppe_kits" [("B", 400%Z)] [("A", 700%Z)] in
  ~ In ("B", 700%Z) (Pooling.shortage_hospitals o).
Proof.
  intros o.
  apply (no_facility_on_both_sides
           [ Pooling.mkHospital "A" [("ppe_kits", 1000%Z)]
               {[ "ppe_kits" := 300%Z ]};
             Pooling.mkHospital "B" [("ppe_kits", 200%Z)]
               {[ "ppe_kits" := 600%Z ]} ]
           o "B" 400 700).
  - simpl. repeat (apply List.NoDup_cons; [simpl; intuition discriminate |]).
    apply List.NoDup_nil.
  - vm_compute. left. reflexivity.
  - simpl. left. reflexivity.
Defined.

(** ** Surge predictor: severity order, risk factors, ignored events *)

Section SurgeMore.
Import SurgePredictor.

Lemma severity_of_mono (m m' : Q) :
  m <= m' ->
  (severity_rank (severity_of m) <= severity_rank (severity_of m'))%Z.
Proof.
  intros H. unfold severity_of. thresholds; simpl; try lia; exfalso; lra.
Qed.

#[local] Instance severity_of_proper : Proper (Qeq ==> eq) severity_of.
Proof.
  intros x y E. unfold severity_of.
  thresholds; try reflexivity; exfalso; lra.
Qed.

Lemma classify_surge_level_severity (m : Q) :
  RecommendationEngine._classify_surge_level m
  = level_of_severity (severity_of m).
Proof.
  unfold RecommendationEngine._classify_surge_level, severity_of,
    RecommendationEngine.critical_surge, RecommendationEngine.major_surge,
    RecommendationEngine.moderate_surge, RecommendationEngine.minor_surge.
  thresholds; try reflexivity; exfalso; lra.
Qed.

#[local] Instance classify_surge_level_proper :
  Proper (Qeq ==> eq) RecommendationEngine._classify_surge_level.
Proof.
  intros x y E. rewrite !classify_surge_level_severity.
  now rewrite (severity_of_proper _ _ E).
Qed.

Lemma is_major_spec (event : string) :
  bool_decide (event ∈ ["Diwali"; "Ganesh Chaturthi"]) = true
  <-> event = "Diwali" \/ event = "Ganesh Chaturthi".
Proof.
  rewrite bool_decide_eq_true, !elem_of_cons, elem_of_nil. tauto.
Qed.

Lemma is_monsoon_spec (event : string) :
  bool_decide (event = "Monsoon Season") = true <-> event = "Monsoon Season".
Proof. apply bool_decide_eq_true. Qed.

Lemma is_known_spec (event : string) :
  bool_decide (event ∈ ["Diwali"; "Ganesh Chaturthi"; "Monsoon Season"]) = true
  <-> event = "Diwali" \/ event = "Ganesh Chaturthi"
      \/ event = "Monsoon Season".
Proof.
  rewrite bool_decide_eq_true, !elem_of_cons, elem_of_nil. tauto.
Qed.

(** An event under another name leaves the running pair as it is. *)
Lemma event_factor_unknown (acc : Acc) (event : string) :
  bool_decide (event ∈ ["Diwali"; "Ganesh Chaturthi"; "Monsoon Season"])
  = false ->
  event_factor acc event = acc.
Proof.
  intros H. destruct acc as [m rf]. unfold event_factor.
  destruct (bool_decide (event ∈ ["Diwali"; "Ganesh Chaturthi"])) eqn:E1.
  - apply is_major_spec in E1.
    assert (K : bool_decide
                  (event ∈ ["Diwali"; "Ganesh Chaturthi"; "Monsoon Season"])
                = true) by (apply is_known_spec; tauto).
    congruence.
  - destruct (bool_decide (event = "Monsoon Season")) eqn:E2; [| reflexivity].
    apply is_monsoon_spec in E2.
    assert (K : bool_decide
                  (event ∈ ["Diwali"; "Ganesh Chaturthi"; "Monsoon Season"])
                = true) by (apply is_known_spec; tauto).
    congruence.
Qed.

Lemma events_filter_known (events : list string) :
  forall acc,
    fold_left event_factor
      (List.filter
         (fun event =>
            bool_decide
              (event ∈ ["Diwali"; "Ganesh Chaturthi"; "Monsoon Season"]))
         events) acc
    = fold_left event_factor events acc.
Proof.
  induction events as [| event events IH]; intros acc; [reflexivity |].
  cbn [List.filter fold_left].
  destruct (bool_decide _) eqn:E.
  - cbn [fold_left]. apply IH.
  - rewrite (event_factor_unknown acc event E). apply IH.
Qed.

(** The bonus of the events alone. *)
Lemma events_bonus (events : list string) (acc : Acc) :
  fst (fold_left event_factor events acc)
  == fst acc + fst (fold_left event_factor events (0, [])).
Proof.
  destruct (events_add events) as (k & _ & H).
  rewrite (H acc), (H (0, [])). simpl. ring.
Qed.

Lemma events_bonus_nonneg (events : list string) :
  0 <= fst (fold_left event_factor events (0, [])).
Proof.
  destruct (events_add events) as (k & Hk & H). rewrite (H (0, [])). simpl.
  unfold Qle, Qplus. simpl. lia.
Qed.

Lemma event_bonus_cases (event : string) :
  (bool_decide (event ∈ ["Diwali"; "Ganesh Chaturthi"; "Monsoon Season"])
   = true
   /\ 1 # 10 <= fst (event_factor (0, []) event))
  \/ (bool_decide (event ∈ ["Diwali"; "Ganesh Chaturthi"; "Monsoon Season"])
      = false
      /\ event_factor (0, []) event = (0, [])).
Proof.
  destruct (bool_decide
              (event ∈ ["Diwali"; "Ganesh Chaturthi"; "Monsoon Season"]))
    eqn:K.
  - left. split; [reflexivity |]. apply is_known_spec in K.
    unfold event_factor.
    destruct (bool_decide (event ∈ ["Diwali"; "Ganesh Chaturthi"])) eqn:E1;
      [simpl; lra |].
    destruct (bool_decide (event = "Monsoon Season")) eqn:E2; [simpl; lra |].
    exfalso.
    assert (N1 : ~ (event = "Diwali" \/ event = "Ganesh Chaturthi"))
      by (rewrite <- is_major_spec; congruence).
    assert (N2 : event <> "Monsoon Season")
      by (rewrite <- is_monsoon_spec; congruence).
    tauto.
  - right. split; [reflexivity |]. now apply event_factor_unknown.
Qed.

Lemma events_bonus_zero (events : list string) :
  fst (fold_left event_factor events (0, [])) == 0
  <-> Forall (fun event =>
                event <> "Diwali" /\ event <> "Ganesh Chaturthi"
                /\ event <> "Monsoon Season") events.
Proof.
  induction events as [| event events IH].
  - simpl. split; [constructor | reflexivity].
  - cbn [fold_left]. rewrite events_bonus.
    pose proof (events_bonus_nonneg events) as Hn.
    destruct (event_bonus_cases event) as [[K Hb] | [K E]].
    + apply is_known_spec in K. split.
      * intros H. exfalso. lra.
      * intros H. inversion H; subst. tauto.
    + rewrite E. simpl fst. split.
      * intros H. constructor.
        -- assert (N : ~ (event = "Diwali" \/ event = "Ganesh Chaturthi"
                          \/ event = "Monsoon Season"))
             by (rewrite <- is_known_spec; congruence).
           tauto.
        -- apply IH. lra.
      * intros H. inversion H; subst.
        assert (fst (fold_left event_factor events (0, [])) == 0)
          by now apply IH.
        lra.
Qed.

(** The risk factors each step appends. *)
Lemma aqi_factor_snd (aqi m : Q) (rf : list RiskFactor) :
  snd (aqi_factor aqi (m, rf)) = rf ++ snd (aqi_factor aqi (0, [])).
Proof.
  unfold aqi_factor. thresholds; simpl; rewrite ?app_nil_r; reflexivity.
Qed.

Lemma rainfall_factor_snd (rainfall m : Q) (rf : list RiskFactor) :
  snd (rainfall_factor rainfall (m, rf))
  = rf ++ snd (rainfall_factor rainfall (0, [])).
Proof.
  unfold rainfall_factor. thresholds; simpl; rewrite ?app_nil_r; reflexivity.
Qed.

Lemma heat_factor_snd (max_temp m : Q) (rf : list RiskFactor) :
  snd (heat_factor max_temp (m, rf))
  = rf ++ snd (heat_factor max_temp (0, [])).
Proof.
  unfold heat_factor. thresholds; simpl; rewrite ?app_nil_r; reflexivity.
Qed.

Lemma events_snd (events : list string) :
  forall m rf,
    snd (fold_left event_factor events (m, rf))
    = rf ++ map MajorFestival
              (List.filter
                 (fun event =>
                    bool_decide (event ∈ ["Diwali"; "Ganesh Chaturthi"]))
                 events).
Proof.
  induction events as [| event events IH]; intros m rf.
  - simpl. now rewrite app_nil_r.
  - cbn [fold_left List.filter]. unfold event_factor at 2.
    destruct (bool_decide (event ∈ ["Diwali"; "Ganesh Chaturthi"])).
    + rewrite IH. cbn [map]. now rewrite <- app_assoc.
    + destruct (bool_decide (event = "Monsoon Season")); apply IH.
Qed.

Lemma risk_factors_accumulate (date_str : string) (aqi : Q)
    (weather : gmap string Q) (events : list string) :
  risk_factors (predict date_str aqi weather events)
  = snd (aqi_factor aqi (0, []))
    ++ snd (rainfall_factor (weather_get weather "rainfall" 0) (0, []))
    ++ snd (heat_factor (weather_get weather "max_temp" 0) (0, []))
    ++ map MajorFestival
         (List.filter
            (fun event => bool_decide (event ∈ ["Diwali"; "Ganesh Chaturthi"]))
            events).
Proof.
  unfold predict.
  destruct (accumulate aqi weather events) as [m rf] eqn:E.
  cbn [risk_factors]. change rf with (snd (m, rf)). rewrite <- E.
  unfold accumulate.
  destruct (aqi_factor aqi (1, [])) as [m1 rf1] eqn:E1.
  destruct (rainfall_factor _ (m1, rf1)) as [m2 rf2] eqn:E2.
  destruct (heat_factor _ (m2, rf2)) as [m3 rf3] eqn:E3.
  rewrite events_snd.
  change rf3 with (snd (m3, rf3)). rewrite <- E3, heat_factor_snd.
  change rf2 with (snd (m2, rf2)). rewrite <- E2, rainfall_factor_snd.
  change rf1 with (snd (m1, rf1)). rewrite <- E1, aqi_factor_snd.
  simpl. now rewrite <- !app_assoc.
Qed.

Lemma multiplier_at_least_one (date_str : string) (aqi : Q)
    (weather : gmap string Q) (events : list string) :
  1 <= multiplier (predict date_str aqi weather events).
Proof.
  rewrite multiplier_unrounded.
  destruct (accumulate_sum aqi weather events) as (k & Hk & Hsum & _).
  rewrite Hsum.
  destruct (aqi_bonus_tenths aqi) as (a & Ha0 & Ea).
  destruct (rainfall_bonus_tenths (weather_get weather "rainfall" 0))
    as (r & Hr0 & Er).
  destruct (heat_bonus_tenths (weather_get weather "max_temp" 0))
    as (t & Ht0 & Et).
  rewrite Ea, Er, Et. unfold Qle, Qplus. simpl. lia.
Qed.

(** The accumulated multiplier with its event bonus spelt out. *)
Lemma accumulate_bonus (aqi : Q) (weather : gmap string Q)
    (events : list string) :
  fst (accumulate aqi weather events)
  == 1 + fst (aqi_factor aqi (0, []))
       + fst (rainfall_factor (weather_get weather "rainfall" 0) (0, []))
       + fst (heat_factor (weather_get weather "max_temp" 0) (0, []))
       + fst (fold_left event_factor events (0, [])).
Proof.
  unfold accumulate. rewrite events_bonus.
  destruct (aqi_factor aqi (1, [])) as [m1 rf1] eqn:E1.
  destruct (rainfall_factor _ (m1, rf1)) as [m2 rf2] eqn:E2.
  destruct (heat_factor _ (m2, rf2)) as [m3 rf3] eqn:E3.
  pose proof (aqi_factor_adds aqi 1 []) as H1. rewrite E1 in H1.
  pose proof (rainfall_factor_adds
                (weather_get weather "rainfall" 0) m1 rf1) as H2.
  rewrite E2 in H2.
  pose proof (heat_factor_adds
                (weather_get weather "max_temp" 0) m2 rf2) as H3.
  rewrite E3 in H3. simpl in *. rewrite H3, H2, H1. ring.
Qed.

End SurgeMore.

(** X18.  The severity never drops when the AQI, the rainfall and the
    maximum temperature do not drop and events are added at the end of the
    list; nor does the multiplier.  The date plays no part. *)
Theorem severity_monotone
    (date_str date_str' : string) (aqi aqi' : Q)
    (weather weather' : gmap string Q) (events more : list string) :
  aqi <= aqi' ->
  weather_get weather "rainfall" 0 <= weather_get weather' "rainfall" 0 ->
  weather_get weather "max_temp" 0 <= weather_get weather' "max_temp" 0 ->
  let p := SurgePredictor.predict date_str aqi weather events in
  let p' := SurgePredictor.predict date_str' aqi' weather' (events ++ more) in
  multiplier p <= multiplier p'
  /\ (severity_rank (severity p) <= severity_rank (severity p'))%Z.
Proof.
  intros Ha Hr Ht p p'. unfold p, p'.
  assert (H : fst (SurgePredictor.accumulate aqi weather events)
              <= fst (SurgePredictor.accumulate aqi' weather'
                        (events ++ more))).
  { rewrite !accumulate_bonus, fold_left_app.
    rewrite (events_bonus more
               (fold_left SurgePredictor.event_factor events (0, []))).
    pose proof (aqi_bonus_mono _ _ Ha).
    pose proof (rainfall_bonus_mono _ _ Hr).
    pose proof (heat_bonus_mono _ _ Ht).
    pose proof (events_bonus_nonneg more). lra. }
  split.
  - now rewrite !multiplier_unrounded.
  - rewrite !severity_unrounded. now apply severity_of_mono.
Qed.

Lemma severity_monotone_witness :
  let p := SurgePredictor.predict "2024-07-01" 150
             {[ "rainfall" := 20; "max_temp" := 30 ]} ["Monsoon Season"] in
  let p' := SurgePredictor.predict "2024-09-08" 320
              {[ "rainfall" := 60; "max_temp" := 30 ]}
              (["Monsoon Season"] ++ ["Ganesh Chaturthi"]) in
  multiplier p <= multiplier p'
  /\ (severity_rank (severity p) <= severity_rank (severity p'))%Z.
Proof.
  apply (severity_monotone "2024-07-01" "2024-09-08" 150 320
           {[ "rainfall" := 20; "max_temp" := 30 ]}
           {[ "rainfall" := 60; "max_temp" := 30 ]}
           ["Monsoon Season"] ["Ganesh Chaturthi"]);
    vm_compute; discriminate.
Defined.

(** X19.  The level the recommendation engine assigns to the multiplier
    [predict] reports is the severity [predict] reports, with [none]
    named [normal]: the two threshold tables agree, also after the
    multiplier is rounded. *)
Theorem engine_level_is_predictor_severity
    (date_str : string) (aqi : Q) (weather : gmap string Q)
    (events : list string) :
  let p := SurgePredictor.predict date_str aqi weather events in
  RecommendationEngine._classify_surge_level (multiplier p)
  = level_of_severity (severity p).
Proof.
  intros p. unfold p.
  rewrite (classify_surge_level_proper _ _
             (multiplier_unrounded date_str aqi weather events)).
  rewrite severity_unrounded. apply classify_surge_level_severity.
Qed.

(** X20.  [predict] lists no risk factor exactly when the AQI is at most
    200, the rainfall at most 50, the maximum temperature at most 36 and
    no event is Diwali or Ganesh Chaturthi.  Rainfall between 10 and 50
    and the monsoon season raise the multiplier without being listed. *)
Theorem risk_factors_empty_iff
    (date_str : string) (aqi : Q) (weather : gmap string Q)
    (events : list string) :
  risk_factors (SurgePredictor.predict date_str aqi weather events) = []
  <-> aqi <= 200
      /\ weather_get weather "rainfall" 0 <= 50
      /\ weather_get weather "max_temp" 0 <= 36
      /\ Forall (fun event => event <> "Diwali" /\ event <> "Ganesh Chaturthi")
                events.
Proof.
  rewrite risk_factors_accumulate.
  assert (Ha : snd (SurgePredictor.aqi_factor aqi (0, [])) = []
               <-> aqi <= 200).
  { unfold SurgePredictor.aqi_factor. thresholds; simpl;
      (split; [intros H; try discriminate H; lra
              | intros H; try reflexivity; exfalso; lra]). }
  assert (Hr : snd (SurgePredictor.rainfall_factor
                      (weather_get weather "rainfall" 0) (0, [])) = []
               <-> weather_get weather "rainfall" 0 <= 50).
  { unfold SurgePredictor.rainfall_factor. thresholds; simpl;
      (split; [intros H; try discriminate H; lra
              | intros H; try reflexivity; exfalso; lra]). }
  assert (Ht : snd (SurgePredictor.heat_factor
                      (weather_get weather "max_temp" 0) (0, [])) = []
               <-> weather_get weather "max_temp" 0 <= 36).
  { unfold SurgePredictor.heat_factor. thresholds; simpl;
      (split; [intros H; try discriminate H; lra
              | intros H; try reflexivity; exfalso; lra]). }
  assert (He : map MajorFestival
                 (List.filter
                    (fun event =>
                       bool_decide (event ∈ ["Diwali"; "Ganesh Chaturthi"]))
                    events) = []
               <-> Forall (fun event =>
                             event <> "Diwali" /\ event <> "Ganesh Chaturthi")
                          events).
  { induction events as [| event events IH]; [split; [constructor | reflexivity] |].
    cbn [List.filter].
    destruct (bool_decide (event ∈ ["Diwali"; "Ganesh Chaturthi"])) eqn:E.
    - apply is_major_spec in E. split; [discriminate |].
      intros H. inversion H; subst. tauto.
    - assert (N : ~ (event = "Diwali" \/ event = "Ganesh Chaturthi"))
        by (rewrite <- is_major_spec; congruence).
      rewrite IH. split.
      + intros H. constructor; [tauto | exact H].
      + intros H. now inversion H. }
  rewrite <- Ha, <- Hr, <- Ht, <- He. split.
  - intros H. apply app_eq_nil in H as [H1 H].
    apply app_eq_nil in H as [H2 H]. apply app_eq_nil in H as [H3 H4]. auto.
  - intros (-> & -> & -> & ->). reflexivity.
Qed.

(** Moderate rain in the monsoon season: a minor surge with no risk
    factor listed. *)
Example surge_without_risk_factor :
  let p := SurgePredictor.predict "2024-07-15" 150 {[ "rainfall" := 20 ]}
             ["Monsoon Season"] in
  multiplier p == 12 # 10 /\ severity p = minor /\ risk_factors p = [].
Proof. vm_compute. repeat split. Qed.

(** X21.  The multiplier is exactly 1.0 when, and only when, nothing is
    raised: an AQI of at most 200, rainfall of at most 10, a maximum
    temperature of at most 36, and no event named Diwali, Ganesh
    Chaturthi or Monsoon Season.  The severity is then [none]. *)
Theorem multiplier_one_iff
    (date_str : string) (aqi : Q) (weather : gmap string Q)
    (events : list string) :
  let p := SurgePredictor.predict date_str aqi weather events in
  (multiplier p == 1
   <-> aqi <= 200
       /\ weather_get weather "rainfall" 0 <= 10
       /\ weather_get weather "max_temp" 0 <= 36
       /\ Forall (fun event =>
                    event <> "Diwali" /\ event <> "Ganesh Chaturthi"
                    /\ event <> "Monsoon Season") events)
  /\ (multiplier p == 1 -> severity p = none).
Proof.
  intros p. unfold p.
  assert (Hm := multiplier_unrounded date_str aqi weather events).
  assert (Hs := accumulate_bonus aqi weather events).
  pose proof (events_bonus_nonneg events) as He0.
  pose proof (events_bonus_zero events) as He.
  assert (Ha : 0 <= fst (SurgePredictor.aqi_factor aqi (0, []))
               /\ (fst (SurgePredictor.aqi_factor aqi (0, [])) == 0
                   <-> aqi <= 200)).
  { unfold SurgePredictor.aqi_factor. thresholds; simpl;
      (split; [lra | split; intros H; lra]). }
  assert (Hr : 0 <= fst (SurgePredictor.rainfall_factor
                           (weather_get weather "rainfall" 0) (0, []))
               /\ (fst (SurgePredictor.rainfall_factor
                          (weather_get weather "rainfall" 0) (0, [])) == 0
                   <-> weather_get weather "rainfall" 0 <= 10)).
  { unfold SurgePredictor.rainfall_factor. thresholds; simpl;
      (split; [lra | split; intros H; lra]). }
  assert (Ht : 0 <= fst (SurgePredictor.heat_factor
                           (weather_get weather "max_temp" 0) (0, []))
               /\ (fst (SurgePredictor.heat_factor
                          (weather_get weather "max_temp" 0) (0, [])) == 0
                   <-> weather_get weather "max_temp" 0 <= 36)).
  { unfold SurgePredictor.heat_factor. thresholds; simpl;
      (split; [lra | split; intros H; lra]). }
  destruct Ha as [Ha0 Ha], Hr as [Hr0 Hr], Ht as [Ht0 Ht].
  split.
  - rewrite Hm, Hs, <- Ha, <- Hr, <- Ht, <- He. split.
    + intros H. repeat split; lra.
    + intros (H1 & H2 & H3 & H4). lra.
  - intros H. rewrite severity_unrounded. rewrite Hm in H.
    rewrite (severity_of_proper _ _ H). reflexivity.
Qed.

(** X22.  Events under any other name are ignored: the prediction is the
    one for the list with only Diwali, Ganesh Chaturthi and Monsoon
    Season kept, in their order, whatever the date string. *)
Theorem unknown_events_ignored
    (date_str date_str' : string) (aqi : Q) (weather : gmap string Q)
    (events : list string) :
  SurgePredictor.predict date_str aqi weather events
  = SurgePredictor.predict date_str' aqi weather
      (List.filter
         (fun event =>
            bool_decide
              (event ∈ ["Diwali"; "Ganesh Chaturthi"; "Monsoon Season"]))
         events).
Proof.
  unfold SurgePredictor.predict, SurgePredictor.accumulate.
  now rewrite events_filter_known.
Qed.

(** X23.  A row of the monitor for a non-negative baseline: the predicted
    total is at least the baseline, every category count lies between 0
    and the total, and the five counts add up to the total less at most
    four. *)
Theorem monitor_row_bounds
    (target_date_str : string) (aqi_data : option Q)
    (target_weather : gmap string Q) (events : list string) (baseline : Z) :
  (0 <= baseline)%Z ->
  let row :=
    Monitor.predict_for_day target_date_str aqi_data target_weather events
                            baseline in
  (baseline <= Monitor.total_admissions row)%Z
  /\ Forall (fun count => (0 <= count <= Monitor.total_admissions row)%Z)
            [respiratory (Monitor.admissions row);
             waterborne (Monitor.admissions row);
             heat (Monitor.admissions row);
             trauma (Monitor.admissions row);
             other (Monitor.admissions row)]
  /\ (Monitor.total_admissions row - 4
      <= breakdown_sum (Monitor.admissions row)
      <= Monitor.total_admissions row)%Z.
Proof.
  intros Hb row. unfold row, Monitor.predict_for_day.
  cbn [Monitor.total_admissions Monitor.admissions].
  set (current_aqi := match aqi_data with Some aqi => aqi | None => 150 end).
  pose proof (multiplier_at_least_one target_date_str current_aqi
                target_weather events) as Hm.
  set (m := multiplier _) in *.
  assert (Htot : (baseline <= py_int (of_int baseline * m))%Z).
  { apply py_int_ge. pose proof (of_int_nonneg _ Hb) as H0.
    fold (of_int baseline).
    assert (H : of_int baseline * 1 <= of_int baseline * m).
    { rewrite (Qmult_comm _ 1), (Qmult_comm _ m).
      apply Qmult_le_compat_r; assumption. }
    lra. }
  set (total := py_int (of_int baseline * m)) in *.
  assert (Ht : (0 <= total)%Z) by lia.
  split; [exact Htot |]. split.
  - clear - Ht. unfold calculate_admission_breakdown.
    destruct (qgtb current_aqi 200),
      (qgtb (weather_get target_weather "rainfall" 0) 30),
      (qgtb (weather_get target_weather "max_temp" 0) 35), (truthy events);
      cbn [respiratory waterborne heat trauma other];
      unfold py_int, of_int; simpl;
      rewrite ?Z.quot_div_nonneg by lia;
      repeat (constructor;
              [Z.to_euclidean_division_equations; lia |]);
      constructor.
  - now apply admission_breakdown_sum_bounds.
Qed.

Lemma monitor_row_bounds_witness :
  let row :=
    Monitor.predict_for_day "2024-11-02" (Some 420)
      {[ "rainfall" := 0; "max_temp" := 33 ]} ["Diwali"] 120 in
  (120 <= Monitor.total_admissions row)%Z
  /\ Forall (fun count => (0 <= count <= Monitor.total_admissions row)%Z)
            [respiratory (Monitor.admissions row);
             waterborne (Monitor.admissions row);
             heat (Monitor.admissions row);
             trauma (Monitor.admissions row);
             other (Monitor.admissions row)]
  /\ (Monitor.total_admissions row - 4
      <= breakdown_sum (Monitor.admissions row)
      <= Monitor.total_admissions row)%Z.
Proof.
  apply (monitor_row_bounds "2024-11-02" (Some 420)
           {[ "rainfall" := 0; "max_temp" := 33 ]} ["Diwali"] 120).
  lia.
Defined.

(** ** Resource service: orders, displayed percentage, missing facility *)

Section ResourceServiceMore.
Import ResourceMappings ResourceService.

Lemma supply_status_percentage (buffer : Q) (inv : gmap string Z)
    (admissions : gmap string Z) (entry : string * gmap string Q) :
  let item := supply_status buffer inv admissions entry in
  stock_percentage item
  = py_round (stock_percentage_of (current_stock item) (projected_need item)) 1.
Proof.
  destruct entry as [supply_name requirements]. unfold supply_status.
  destruct (classify _) as [st act]. reflexivity.
Qed.

Lemma classify_cases (stock_percentage : Q) :
  (stock_percentage < 50
   /\ classify stock_percentage = (CRITICAL, ORDER_IMMEDIATELY))
  \/ (50 <= stock_percentage < 80
      /\ classify stock_percentage = (LOW, ORDER_IMMEDIATELY))
  \/ (80 <= stock_percentage /\ classify stock_percentage = (OK, NoAction)).
Proof.
  unfold classify. thresholds; [left | right; left | right; right]; auto.
Qed.

(** A coverage below 100% means the stock is below a positive need. *)
Lemma stock_percentage_below (current_stock projected_need : Z) :
  stock_percentage_of current_stock projected_need < 100 ->
  (0 < projected_need /\ current_stock < projected_need)%Z.
Proof.
  unfold stock_percentage_of.
  destruct (Z.ltb_spec 0 projected_need) as [Hp | Hp]; [| lra].
  intros H. split; [exact Hp |].
  destruct (Z.lt_ge_cases current_stock projected_need) as [Hlt | Hge];
    [exact Hlt | exfalso].
  pose proof (of_int_pos _ Hp) as Hpos.
  assert (1 <= of_int current_stock / of_int projected_need).
  { apply Qle_shift_div_l; [exact Hpos |].
    rewrite Qmult_1_l. apply of_int_le. lia. }
  lra.
Qed.

(** A larger need never raises the coverage across a threshold. *)
Lemma stock_percentage_antitone (current_stock projected_need projected_need' : Z)
    (bound : Q) :
  (0 <= projected_need <= projected_need')%Z -> 0 <= bound <= 100 ->
  stock_percentage_of current_stock projected_need < bound ->
  stock_percentage_of current_stock projected_need' < bound.
Proof.
  intros [H0 Hle] [Hb0 Hb1]. unfold stock_percentage_of.
  destruct (Z.ltb_spec 0 projected_need) as [Hp | Hp]; [| lra].
  destruct (Z.ltb_spec 0 projected_need') as [Hp' | Hp']; [| lia].
  pose proof (of_int_pos _ Hp) as Hpos. pose proof (of_int_pos _ Hp') as Hpos'.
  pose proof (of_int_le _ _ Hle) as Hq.
  intros H.
  destruct (Z.lt_ge_cases current_stock 0) as [Hneg | Hnn].
  - assert (of_int current_stock / of_int projected_need' < 0).
    { apply Qlt_shift_div_r; [exact Hpos' |]. rewrite Qmult_0_l.
      unfold of_int. replace 0 with (inject_Z 0) by reflexivity.
      rewrite <- Zlt_Qlt. lia. }
    lra.
  - pose proof (of_int_nonneg _ Hnn) as Hc.
    assert (Hr : 0 <= of_int current_stock / of_int projected_need).
    { apply Qle_shift_div_l; [exact Hpos |]. now rewrite Qmult_0_l. }
    assert (of_int current_stock / of_int projected_need'
            <= of_int current_stock / of_int projected_need).
    { apply Qle_shift_div_r; [exact Hpos' |].
      assert (E : of_int current_stock
                  == of_int current_stock / of_int projected_need
                     * of_int projected_need) by (field; lra).
      rewrite E at 1.
      rewrite !(Qmult_comm (of_int current_stock / of_int projected_need)).
      apply Qmult_le_compat_r; assumption. }
    lra.
Qed.

Lemma qsum_map_le {A} (f g : A -> Q) (l : list A) :
  (forall x, In x l -> f x <= g x) -> qsum (map f l) <= qsum (map g l).
Proof.
  induction l as [| x l IH]; intros H; [unfold qsum; simpl; lra |].
  cbn [map]. rewrite !qsum_cons.
  assert (f x <= g x) by (apply H; now left).
  assert (qsum (map f l) <= qsum (map g l))
    by (apply IH; intros y Hy; apply H; now right).
  lra.
Qed.

Lemma base_need_mono (admissions admissions' : gmap string Z)
    (supply_name : string) (requirements : gmap string Q) :
  In (supply_name, requirements) SUPPLY_REQUIREMENTS ->
  (forall category,
     (default 0 (admissions !! category)
      <= default 0 (admissions' !! category))%Z) ->
  base_need admissions requirements <= base_need admissions' requirements.
Proof.
  intros Hin Hle. unfold base_need. apply qsum_map_le. intros c Hc.
  pose proof (supply_rates_nonneg _ _ Hin) as Hr.
  rewrite List.Forall_forall in Hr.
  apply Qmult_le_compat_r; [apply of_int_le, Hle | apply Hr, Hc].
Qed.

Lemma py_int_mono_nonneg (x y : Q) :
  0 <= x -> x <= y -> (0 <= py_int x <= py_int y)%Z.
Proof.
  intros Hx Hxy. rewrite !py_int_nonneg by lra. split.
  - replace 0%Z with (Qfloor 0) by reflexivity. now apply Qfloor_resp_le.
  - now apply Qfloor_resp_le.
Qed.

Lemma Forall2_map_same {A B} (R : B -> B -> Prop) (f g : A -> B) (l : list A) :
  (forall x, In x l -> R (f x) (g x)) -> Forall2 R (map f l) (map g l).
Proof.
  induction l as [| x l IH]; intros H; [constructor |].
  cbn [map]. constructor; [apply H; now left |].
  apply IH. intros y Hy. apply H. now right.
Qed.

End ResourceServiceMore.

(** X24.  An item marked ORDER_IMMEDIATELY always has a positive need and
    a positive quantity to order; the quantity is zero exactly when the
    stock covers the projected need; and the action is "None" exactly
    when the status is OK. *)
Theorem order_action_needs_quantity
    (inventory_data : gmap string HospitalInfo) (hospital_id : string)
    (admissions : gmap string Z) (item : ResourceService.SupplyStatus) :
  In item (ResourceService.calculate_supply_needs
             inventory_data hospital_id admissions) ->
  (ResourceService.action_required item = ORDER_IMMEDIATELY ->
   (0 < ResourceService.projected_need item)%Z
   /\ (0 < ResourceService.quantity_to_order item)%Z)
  /\ (ResourceService.quantity_to_order item = 0%Z
      <-> (ResourceService.projected_need item
           <= ResourceService.current_stock item)%Z)
  /\ (ResourceService.action_required item = NoAction
      <-> ResourceService.status item = OK).
Proof.
  intros Hin. unfold ResourceService.calculate_supply_needs in Hin.
  apply in_map_iff in Hin as ([supply_name requirements] & <- & Hentry).
  destruct (supply_status_fields
              (ResourceService.safety_buffer
                 (ResourceService.hospital_type inventory_data hospital_id))
              (ResourceService.current_inventory inventory_data hospital_id)
              admissions supply_name requirements)
    as (_ & _ & _ & Hqty & Hclass).
  set (item := ResourceService.supply_status _ _ _ _) in *.
  destruct (classify_cases
              (ResourceService.stock_percentage_of
                 (ResourceService.current_stock item)
                 (ResourceService.projected_need item)))
    as [[Hp E] | [[Hp E] | [Hp E]]];
    rewrite E in Hclass; injection Hclass as Hs Ha; rewrite Hs, Ha, Hqty.
  - assert (Hb : ResourceService.stock_percentage_of
                   (ResourceService.current_stock item)
                   (ResourceService.projected_need item) < 100) by lra.
    destruct (stock_percentage_below _ _ Hb) as [H1 H2].
    split; [intros _; lia |]. split; [lia |]. split; discriminate.
  - assert (Hb : ResourceService.stock_percentage_of
                   (ResourceService.current_stock item)
                   (ResourceService.projected_need item) < 100) by lra.
    destruct (stock_percentage_below _ _ Hb) as [H1 H2].
    split; [intros _; lia |]. split; [lia |]. split; discriminate.
  - split; [discriminate |]. split; [lia |]. split; reflexivity.
Qed.

Lemma order_action_needs_quantity_witness :
  let item := ResourceService.mkSupplyStatus "Gloves/PPE" 27 30 (900 # 10)
                OK NoAction 3 in
  (ResourceService.action_required item = ORDER_IMMEDIATELY ->
   (0 < ResourceService.projected_need item)%Z
   /\ (0 < ResourceService.quantity_to_order item)%Z)
  /\ (ResourceService.quantity_to_order item = 0%Z
      <-> (ResourceService.projected_need item
           <= ResourceService.current_stock item)%Z)
  /\ (ResourceService.action_required item = NoAction
      <-> ResourceService.status item = OK).
Proof.
  intros item.
  apply (order_action_needs_quantity
           {[ "HIN_H5" := mkHospitalInfo "Hinduja Hospital" "Private"
                            {[ "Gloves/PPE" := 27%Z ]} ]}
           "HIN_H5" {[ "respiratory" := 1%Z ]} item).
  apply (nth_error_In _ 7). vm_compute. reflexivity.
Defined.

(** The converse fails: the item of the example above is OK with no
    action, and still three kits short. *)
Example ok_item_with_order_quantity :
  exists item,
    In item (ResourceService.calculate_supply_needs
               {[ "HIN_H5" := mkHospitalInfo "Hinduja Hospital" "Private"
                                {[ "Gloves/PPE" := 27%Z ]} ]}
               "HIN_H5" {[ "respiratory" := 1%Z ]})
    /\ ResourceService.status item = OK
    /\ ResourceService.action_required item = NoAction
    /\ ResourceService.quantity_to_order item = 3%Z.
Proof.
  exists (ResourceService.mkSupplyStatus "Gloves/PPE" 27 30 (900 # 10)
            OK NoAction 3).
  split; [apply (nth_error_In _ 7); vm_compute; reflexivity |].
  repeat split.
Qed.

(** X25.  The percentage an item displays, rounded to one decimal, stays
    on the side of the thresholds its status was decided on: at most 50
    for CRITICAL, from 50 to 80 for LOW, at least 80 for OK.  It can read
    50.0 for a CRITICAL item. *)
Theorem displayed_percentage_in_band
    (inventory_data : gmap string HospitalInfo) (hospital_id : string)
    (admissions : gmap string Z) (item : ResourceService.SupplyStatus) :
  In item (ResourceService.calculate_supply_needs
             inventory_data hospital_id admissions) ->
  (ResourceService.status item = CRITICAL ->
   ResourceService.stock_percentage item <= 50)
  /\ (ResourceService.status item = LOW ->
      50 <= ResourceService.stock_percentage item <= 80)
  /\ (ResourceService.status item = OK ->
      80 <= ResourceService.stock_percentage item).
Proof.
  intros Hin. unfold ResourceService.calculate_supply_needs in Hin.
  apply in_map_iff in Hin as ([supply_name requirements] & <- & Hentry).
  destruct (supply_status_fields
              (ResourceService.safety_buffer
                 (ResourceService.hospital_type inventory_data hospital_id))
              (ResourceService.current_inventory inventory_data hospital_id)
              admissions supply_name requirements)
    as (_ & _ & _ & _ & Hclass).
  pose proof (supply_status_percentage
                (ResourceService.safety_buffer
                   (ResourceService.hospital_type inventory_data hospital_id))
                (ResourceService.current_inventory inventory_data hospital_id)
                admissions (supply_name, requirements)) as Hpct.
  cbv zeta in Hpct.
  set (item := ResourceService.supply_status _ _ _ _) in *.
  rewrite Hpct.
  assert (E50 : py_round 50 1 == 50)
    by (apply (py_round_exact 50 1 500); reflexivity).
  assert (E80 : py_round 80 1 == 80)
    by (apply (py_round_exact 80 1 800); reflexivity).
  set (pct := ResourceService.stock_percentage_of _ _) in *.
  destruct (classify_cases pct) as [[Hp E] | [[Hp E] | [Hp E]]];
    rewrite E in Hclass; injection Hclass as Hs Ha; rewrite Hs.
  - split; [| split; discriminate]. intros _.
    rewrite <- E50. apply py_round_mono. lra.
  - split; [discriminate |]. split; [| discriminate]. intros _. split.
    + rewrite <- E50. apply py_round_mono. lra.
    + rewrite <- E80. apply py_round_mono. lra.
  - split; [discriminate |]. split; [discriminate |]. intros _.
    rewrite <- E80. apply py_round_mono. lra.
Qed.

Lemma displayed_percentage_in_band_witness :
  let item := ResourceService.mkSupplyStatus "Gloves/PPE" 1499 3000 (500 # 10)
                CRITICAL ORDER_IMMEDIATELY 1501 in
  (ResourceService.status item = CRITICAL ->
   ResourceService.stock_percentage item <= 50)
  /\ (ResourceService.status item = LOW ->
      50 <= ResourceService.stock_percentage item <= 80)
  /\ (ResourceService.status item = OK ->
      80 <= ResourceService.stock_percentage item).
Proof.
  intros item.
  apply (displayed_percentage_in_band
           {[ "HIN_H5" := mkHospitalInfo "Hinduja Hospital" "Private"
                            {[ "Gloves/PPE" := 1499%Z ]} ]}
           "HIN_H5" {[ "respiratory" := 100%Z ]} item).
  apply (nth_error_In _ 7). vm_compute. reflexivity.
Defined.

(** X26.  A facility that is not in the inventory is treated as a
    Private one with empty shelves: every item has no stock, is to be
    ordered in full, and is CRITICAL as soon as anything is needed. *)
Theorem unknown_facility_defaults
    (inventory_data : gmap string HospitalInfo) (hospital_id : string)
    (admissions : gmap string Z) (item : ResourceService.SupplyStatus) :
  inventory_data !! hospital_id = None ->
  (forall category n, admissions !! category = Some n -> (0 <= n)%Z) ->
  In item (ResourceService.calculate_supply_needs
             inventory_data hospital_id admissions) ->
  ResourceService.safety_buffer
    (ResourceService.hospital_type inventory_data hospital_id)
  == 1 + (20 # 100)
  /\ ResourceService.current_stock item = 0%Z
  /\ ResourceService.quantity_to_order item
     = ResourceService.projected_need item
  /\ ((0 < ResourceService.projected_need item)%Z ->
      ResourceService.status item = CRITICAL
      /\ ResourceService.action_required item = ORDER_IMMEDIATELY
      /\ ResourceService.stock_percentage item == 0)
  /\ (ResourceService.projected_need item = 0%Z ->
      ResourceService.status item = OK
      /\ ResourceService.action_required item = NoAction).
Proof.
  intros Hnone Hadm Hin.
  unfold ResourceService.calculate_supply_needs in Hin.
  apply in_map_iff in Hin as ([supply_name requirements] & <- & Hentry).
  pose proof (supply_status_percentage
                (ResourceService.safety_buffer
                   (ResourceService.hospital_type inventory_data hospital_id))
                (ResourceService.current_inventory inventory_data hospital_id)
                admissions (supply_name, requirements)) as Hpct.
  cbv zeta in Hpct.
  destruct (supply_status_fields
              (ResourceService.safety_buffer
                 (ResourceService.hospital_type inventory_data hospital_id))
              (ResourceService.current_inventory inventory_data hospital_id)
              admissions supply_name requirements)
    as (_ & Hstock & Hneed & Hqty & Hclass).
  set (item := ResourceService.supply_status _ _ _ _) in *.
  assert (Hs0 : ResourceService.current_stock item = 0%Z).
  { rewrite Hstock. unfold ResourceService.current_inventory.
    rewrite Hnone. now rewrite lookup_empty. }
  assert (Hpos : (0 <= ResourceService.projected_need item)%Z).
  { rewrite Hneed. apply py_int_mono_nonneg with (x := 0); [lra |].
    eapply projected_need_nonneg; eassumption. }
  split.
  { unfold ResourceService.hospital_type. rewrite Hnone. reflexivity. }
  split; [exact Hs0 |]. split; [lia |].
  rewrite Hpct. rewrite Hs0 in *.
  unfold ResourceService.stock_percentage_of in *.
  split.
  - intros Hp. apply Z.ltb_lt in Hp. rewrite Hp in *.
    pose proof (of_int_pos _ (proj1 (Z.ltb_lt _ _) Hp)) as Hq.
    assert (E0 : of_int 0 / of_int (ResourceService.projected_need item) * 100
                 == 0) by (change (of_int 0) with 0; field; lra).
    destruct (classify_cases
                (of_int 0 / of_int (ResourceService.projected_need item) * 100))
      as [[Hc E] | [[Hc E] | [Hc E]]]; try lra.
    rewrite E in Hclass. injection Hclass as -> ->.
    split; [reflexivity |]. split; [reflexivity |].
    rewrite (py_round_proper _ _ E0 1%nat 1%nat eq_refl).
    apply (py_round_exact 0 1 0). reflexivity.
  - intros Hz. rewrite Hz in *. simpl in Hclass.
    injection Hclass as -> ->. auto.
Qed.

Lemma unknown_facility_defaults_witness :
  let item := ResourceService.mkSupplyStatus "Gloves/PPE" 0 30 (0 # 10)
                CRITICAL ORDER_IMMEDIATELY 30 in
  ResourceService.safety_buffer
    (ResourceService.hospital_type (∅ : gmap string HospitalInfo) "XYZ_H99")
  == 1 + (20 # 100)
  /\ ResourceService.current_stock item = 0%Z
  /\ ResourceService.quantity_to_order item
     = ResourceService.projected_need item
  /\ ((0 < ResourceService.projected_need item)%Z ->
      ResourceService.status item = CRITICAL
      /\ ResourceService.action_required item = ORDER_IMMEDIATELY
      /\ ResourceService.stock_percentage item == 0)
  /\ (ResourceService.projected_need item = 0%Z ->
      ResourceService.status item = OK
      /\ ResourceService.action_required item = NoAction).
Proof.
  intros item.
  apply (unknown_facility_defaults ∅ "XYZ_H99" {[ "respiratory" := 1%Z ]} item).
  - apply lookup_empty.
  - intros category n H. apply lookup_singleton_Some in H as [_ <-]. lia.
  - apply (nth_error_In _ 7). vm_compute. reflexivity.
Defined.

(** X27.  More admissions never lower a need: when no category count
    drops, every item's projected need and quantity to order stay or
    grow, an item that was CRITICAL stays CRITICAL, and an item that is OK
    afterwards was OK before. *)
Theorem needs_grow_with_admissions
    (inventory_data : gmap string HospitalInfo) (hospital_id : string)
    (admissions admissions' : gmap string Z) :
  (forall category n, admissions !! category = Some n -> (0 <= n)%Z) ->
  (forall category,
     (default 0 (admissions !! category)
      <= default 0 (admissions' !! category))%Z) ->
  Forall2
    (fun item item' =>
       ResourceService.item_name item = ResourceService.item_name item'
       /\ (ResourceService.projected_need item
           <= ResourceService.projected_need item')%Z
       /\ (ResourceService.quantity_to_order item
           <= ResourceService.quantity_to_order item')%Z
       /\ (ResourceService.status item = CRITICAL ->
           ResourceService.status item' = CRITICAL)
       /\ (ResourceService.status item' = OK ->
           ResourceService.status item = OK))
    (ResourceService.calculate_supply_needs inventory_data hospital_id
                                            admissions)
    (ResourceService.calculate_supply_needs inventory_data hospital_id
                                            admissions').
Proof.
  intros Hadm Hle. unfold ResourceService.calculate_supply_needs.
  apply Forall2_map_same. intros [supply_name requirements] Hentry.
  set (buffer := ResourceService.safety_buffer
                   (ResourceService.hospital_type inventory_data hospital_id)).
  set (inv := ResourceService.current_inventory inventory_data hospital_id).
  destruct (supply_status_fields buffer inv admissions supply_name requirements)
    as (Hname & Hstock & Hneed & Hqty & Hclass).
  destruct (supply_status_fields buffer inv admissions' supply_name requirements)
    as (Hname' & Hstock' & Hneed' & Hqty' & Hclass').
  set (item := ResourceService.supply_status buffer inv admissions _) in *.
  set (item' := ResourceService.supply_status buffer inv admissions' _) in *.
  assert (Hb : 0 <= buffer).
  { unfold buffer.
    destruct (safety_buffer_cases
                (ResourceService.hospital_type inventory_data hospital_id))
      as [[_ E] | [_ E]]; rewrite E; lra. }
  assert (Hn : (0 <= ResourceService.projected_need item
                <= ResourceService.projected_need item')%Z).
  { rewrite Hneed, Hneed'. apply py_int_mono_nonneg.
    - eapply projected_need_nonneg; eassumption.
    - apply Qmult_le_compat_r; [| exact Hb].
      eapply base_need_mono; eassumption. }
  split; [congruence |]. split; [lia |].
  split; [rewrite Hqty, Hqty', Hstock, Hstock'; lia |].
  rewrite Hstock' in Hclass'. rewrite <- Hstock in Hclass'.
  set (pct := ResourceService.stock_percentage_of
                (ResourceService.current_stock item)
                (ResourceService.projected_need item)) in *.
  set (pct' := ResourceService.stock_percentage_of
                 (ResourceService.current_stock item)
                 (ResourceService.projected_need item')) in *.
  pose proof (stock_percentage_antitone
                (ResourceService.current_stock item) _ _ 50 Hn
                ltac:(lra)) as H50.
  pose proof (stock_percentage_antitone
                (ResourceService.current_stock item) _ _ 80 Hn
                ltac:(lra)) as H80.
  fold pct pct' in H50, H80.
  destruct (classify_cases pct) as [[Hp E] | [[Hp E] | [Hp E]]];
    rewrite E in Hclass; injection Hclass as Hs Ha;
    destruct (classify_cases pct') as [[Hp' E'] | [[Hp' E'] | [Hp' E']]];
    rewrite E' in Hclass'; injection Hclass' as Hs' Ha';
    rewrite Hs, Hs'; split; intros; try reflexivity; try discriminate;
    exfalso; lra.
Qed.

Lemma needs_grow_with_admissions_witness :
  Forall2
    (fun item item' =>
       ResourceService.item_name item = ResourceService.item_name item'
       /\ (ResourceService.projected_need item
           <= ResourceService.projected_need item')%Z
       /\ (ResourceService.quantity_to_order item
           <= ResourceService.quantity_to_order item')%Z
       /\ (ResourceService.status item = CRITICAL ->
           ResourceService.status item' = CRITICAL)
       /\ (ResourceService.status item' = OK ->
           ResourceService.status item = OK))
    (ResourceService.calculate_supply_needs
       {[ "HIN_H5" := mkHospitalInfo "Hinduja Hospital" "Private"
                        {[ "Gloves/PPE" := 27%Z ]} ]}
       "HIN_H5" {[ "respiratory" := 1%Z ]})
    (ResourceService.calculate_supply_needs
       {[ "HIN_H5" := mkHospitalInfo "Hinduja Hospital" "Private"
                        {[ "Gloves/PPE" := 27%Z ]} ]}
       "HIN_H5" {[ "respiratory" := 2%Z; "trauma" := 1%Z ]}).
Proof.
  apply (needs_grow_with_admissions
           {[ "HIN_H5" := mkHospitalInfo "Hinduja Hospital" "Private"
                            {[ "Gloves/PPE" := 27%Z ]} ]}
           "HIN_H5" {[ "respiratory" := 1%Z ]}
           {[ "respiratory" := 2%Z; "trauma" := 1%Z ]}).
  - intros category n H. apply lookup_singleton_Some in H as [_ <-]. lia.
  - intros category.
    destruct (decide (category = "respiratory")) as [-> | N1];
      [vm_compute; discriminate |].
    rewrite lookup_singleton_ne by congruence. simpl.
    destruct (decide (category = "trauma")) as [-> | N2];
      [vm_compute; discriminate |].
    rewrite lookup_insert_ne by congruence.
    rewrite lookup_singleton_ne by congruence. simpl. lia.
Defined.

(** ** Resource service: recommendations and inventory loader *)

Section ServiceReportProps.
Import ResourceMappings ResourceService HospitalMappings ServiceReport.

Lemma count_status_partition (l : list SupplyStatus) :
  Z.of_nat (length l)
  = (count_status CRITICAL l + count_status LOW l + count_status OK l)%Z.
Proof.
  unfold count_status. induction l as [| s l IH]; [reflexivity |].
  cbn [List.filter length]. destruct (status s); cbn [status_eqb length]; lia.
Qed.

Lemma count_status_nonneg (st : Status) (l : list SupplyStatus) :
  (0 <= count_status st l)%Z.
Proof. unfold count_status. lia. Qed.

Lemma buffer_percent (hospital_type : string) :
  inject_Z (py_int (default (2 # 10) (SAFETY_BUFFERS !! hospital_type) * 100))
  == (safety_buffer hospital_type - 1) * 100
  /\ (hospital_type <> "Municipal" ->
      py_int (default (2 # 10) (SAFETY_BUFFERS !! hospital_type) * 100) = 20%Z).
Proof.
  unfold safety_buffer, SAFETY_BUFFERS. simpl list_to_map.
  destruct (decide (hospital_type = "Municipal")) as [-> | NM].
  - rewrite lookup_insert_eq. split; [vm_compute; reflexivity | congruence].
  - rewrite lookup_insert_ne by congruence.
    destruct (decide (hospital_type = "Private")) as [-> | NP].
    + rewrite lookup_insert_eq. split; [vm_compute |]; reflexivity.
    + rewrite lookup_insert_ne by congruence. rewrite lookup_empty.
      split; [vm_compute |]; reflexivity.
Qed.

Lemma process_entries (inventory_data : gmap string HospitalInfo)
    (surge_data entries : list (string * gmap string Z)) :
  (forall entry, In entry entries ->
                 PyDict.get surge_data (fst entry) = Some (snd entry)) ->
  forall results,
    fold_left (process inventory_data surge_data) (PyDict.keys entries) results
    = results
      ++ map (fun entry => recommendation inventory_data (fst entry) (snd entry))
             entries.
Proof.
  induction entries as [| entry entries IH]; intros Hget results.
  - simpl. now rewrite app_nil_r.
  - cbn [PyDict.keys map fold_left]. fold (PyDict.keys entries).
    unfold process at 2. unfold PyDict.mem, PyDict.get_default.
    rewrite (Hget entry) by now left. cbn [default].
    rewrite IH by (intros e He; apply Hget; now right).
    now rewrite <- app_assoc.
Qed.

Lemma list_to_map_is_Some (l : list (string * Z)) (k : string) :
  is_Some ((list_to_map l : gmap string Z) !! k) <-> In k (map fst l).
Proof.
  induction l as [| [k' v] l IH]; cbn [list_to_map foldr map fst].
  - rewrite lookup_empty. split; [intros [? [=]] | intros []].
  - destruct (decide (k' = k)) as [-> | Hne].
    + rewrite lookup_insert_eq. split; [now left | eauto].
    + rewrite lookup_insert_ne by assumption. rewrite IH. simpl.
      split; [now right | intros [? | ?]; [congruence | assumption]].
Qed.

Lemma load_row_lookup (inventory_dict : gmap string HospitalInfo)
    (hospital : Inventory.Row) (hid : string) :
  Inventory.load_row inventory_dict hospital !! hid
  = if decide (Inventory.row_hospital_id hospital = Some hid /\ hid <> "")
    then Some (Inventory.entry_of hid hospital)
    else inventory_dict !! hid.
Proof.
  unfold Inventory.load_row.
  destruct (Inventory.row_hospital_id hospital) as [[| c id] |] eqn:E;
    cbn [Inventory.truthy_id].
  - rewrite decide_False; [reflexivity |]. intros [[= <-] H]. congruence.
  - destruct (decide (String c id = hid)) as [<- | Hne].
    + rewrite lookup_insert_eq, decide_True; [reflexivity |].
      split; [reflexivity | discriminate].
    + rewrite lookup_insert_ne by assumption.
      rewrite decide_False; [reflexivity |]. intros [[= H] _]. congruence.
  - rewrite decide_False; [reflexivity |]. intros [[=] _].
Qed.

End ServiceReportProps.

(** X28.  The summary of a recommendation counts ten items and splits
    them: the critical, low and ok counts are the numbers of items of
    each status and add up to the total.  The buffer percentage reported
    is the one applied to the needs.  A facility missing from the
    inventory is reported with type Unknown while the buffer applied is
    the Private one, 20. *)
Theorem recommendation_summary
    (inventory_data : gmap string HospitalInfo) (hid : string)
    (admissions : gmap string Z) :
  let r := ServiceReport.recommendation inventory_data hid admissions in
  let s := ServiceReport.summary r in
  ServiceReport.total_items s = 10%Z
  /\ ServiceReport.critical_items s
     = ServiceReport.count_status CRITICAL (ServiceReport.supplies_status r)
  /\ ServiceReport.low_items s
     = ServiceReport.count_status LOW (ServiceReport.supplies_status r)
  /\ ServiceReport.ok_items s
     = ServiceReport.count_status OK (ServiceReport.supplies_status r)
  /\ (0 <= ServiceReport.ok_items s)%Z
  /\ (ServiceReport.critical_items s + ServiceReport.low_items s
      + ServiceReport.ok_items s = ServiceReport.total_items s)%Z
  /\ inject_Z (ServiceReport.safety_buffer_applied r)
     == (ResourceService.safety_buffer
           (ResourceService.hospital_type inventory_data hid) - 1) * 100
  /\ (inventory_data !! hid = None ->
      ServiceReport.rec_hospital_type r = "Unknown"
      /\ ResourceService.hospital_type inventory_data hid = "Private"
      /\ ServiceReport.safety_buffer_applied r = 20%Z).
Proof.
  intros r s. unfold s, r, ServiceReport.recommendation.
  cbn [ServiceReport.summary ServiceReport.total_items
       ServiceReport.critical_items ServiceReport.low_items
       ServiceReport.ok_items ServiceReport.supplies_status
       ServiceReport.safety_buffer_applied ServiceReport.rec_hospital_type].
  set (items := ResourceService.calculate_supply_needs inventory_data hid
                                                       admissions).
  pose proof (count_status_partition items) as Hpart.
  pose proof (count_status_nonneg OK items) as Hok.
  assert (Hlen : Z.of_nat (length items) = 10%Z).
  { unfold items, ResourceService.calculate_supply_needs.
    now rewrite length_map. }
  split; [exact Hlen |]. split; [reflexivity |]. split; [reflexivity |].
  split; [lia |]. split; [lia |]. split; [lia |].
  unfold ResourceService.hospital_type.
  destruct (inventory_data !! hid) as [info |].
  - split; [apply buffer_percent | discriminate].
  - split; [apply buffer_percent |]. intros _.
    split; [reflexivity |]. split; [reflexivity |].
    now apply buffer_percent.
Qed.

(** X29.  [get_recommendations] answers with the error when there is no
    surge data; without a facility identifier (or with an empty one) with
    one result per facility of the surge data, in its order; and with an
    identifier with the result of that facility, or the empty dictionary
    when the surge data does not have it. *)
Theorem get_recommendations_cases
    (inventory_data : gmap string HospitalInfo)
    (surge_data : list (string * gmap string Z))
    (hospital_id : option string) :
  PyDict.wf surge_data ->
  (surge_data = [] ->
   ServiceReport.get_recommendations inventory_data surge_data hospital_id
   = ServiceReport.NoSurgeData)
  /\ (surge_data <> [] ->
      hospital_id = None \/ hospital_id = Some "" ->
      ServiceReport.get_recommendations inventory_data surge_data hospital_id
      = ServiceReport.All
          (map (fun entry =>
                  ServiceReport.recommendation inventory_data
                                               (fst entry) (snd entry))
               surge_data))
  /\ (surge_data <> [] ->
      forall hid,
        hospital_id = Some hid -> hid <> "" ->
        ServiceReport.get_recommendations inventory_data surge_data hospital_id
        = ServiceReport.Single
            (option_map (ServiceReport.recommendation inventory_data hid)
                        (PyDict.get surge_data hid))).
Proof.
  intros Hwf. unfold ServiceReport.get_recommendations.
  split; [intros ->; reflexivity |].
  assert (Hall : fold_left (ServiceReport.process inventory_data surge_data)
                           (PyDict.keys surge_data) []
                 = map (fun entry =>
                          ServiceReport.recommendation inventory_data
                                                       (fst entry) (snd entry))
                       surge_data).
  { rewrite (process_entries inventory_data surge_data surge_data);
      [reflexivity |].
    intros [hid adm] Hin. now apply wf_In_get. }
  split.
  - intros Hne Hid. destruct surge_data as [| e l]; [congruence |].
    cbn [truthy negb].
    destruct Hid as [-> | ->]; cbn [Inventory.truthy_id negb];
      now rewrite Hall.
  - intros Hne hid -> Hid. destruct surge_data as [| e l]; [congruence |].
    cbn [truthy negb]. destruct hid as [| c hid]; [congruence |].
    cbn [Inventory.truthy_id negb fold_left].
    unfold ServiceReport.process, PyDict.mem, PyDict.get_default.
    destruct (PyDict.get (e :: l) (String c hid)); reflexivity.
Qed.

Lemma get_recommendations_cases_witness :
  let inventory_data : gmap string HospitalInfo :=
    {[ "HIN_H5" := mkHospitalInfo "Hinduja Hospital" "Private"
                     {[ "Gloves/PPE" := 27%Z ]} ]} in
  let surge_data : list (string * gmap string Z) :=
    [("HIN_H5", {[ "respiratory" := 1%Z ]})] in
  (surge_data = [] ->
   ServiceReport.get_recommendations inventory_data surge_data (Some "KEM_H1")
   = ServiceReport.NoSurgeData)
  /\ (surge_data <> [] ->
      Some "KEM_H1" = None \/ Some "KEM_H1" = Some "" ->
      ServiceReport.get_recommendations inventory_data surge_data
                                        (Some "KEM_H1")
      = ServiceReport.All
          (map (fun entry =>
                  ServiceReport.recommendation inventory_data
                                               (fst entry) (snd entry))
               surge_data))
  /\ (surge_data <> [] ->
      forall hid,
        Some "KEM_H1" = Some hid -> hid <> "" ->
        ServiceReport.get_recommendations inventory_data surge_data
                                          (Some "KEM_H1")
        = ServiceReport.Single
            (option_map (ServiceReport.recommendation inventory_data hid)
                        (PyDict.get surge_data hid))).
Proof.
  intros inventory_data surge_data.
  apply (get_recommendations_cases inventory_data surge_data (Some "KEM_H1")).
  unfold PyDict.wf. simpl.
  apply List.NoDup_cons; [simpl; tauto | apply List.NoDup_nil].
Defined.

(** A facility the surge data does not have: the empty dictionary. *)
Example recommendation_for_absent_facility :
  ServiceReport.get_recommendations
    {[ "HIN_H5" := mkHospitalInfo "Hinduja Hospital" "Private"
                     {[ "Gloves/PPE" := 27%Z ]} ]}
    [("HIN_H5", {[ "respiratory" := 1%Z ]})] (Some "KEM_H1")
  = ServiceReport.Single None.
Proof. reflexivity. Qed.

(** X30.  The inventory loader keeps, for each non-empty identifier of
    the array, the last object with that identifier and nothing for the
    objects without one.  A loaded entry is Municipal, Private or
    Unknown, and its inventory has exactly the supply names of the
    requirement table as keys, so that the service finds a stock for
    every supply. *)
Theorem loaded_inventory (inventory_array : list Inventory.Row)
    (hid : string) :
  (is_Some (Inventory._load_inventory inventory_array !! hid)
   <-> hid <> ""
       /\ exists hospital,
            In hospital inventory_array
            /\ Inventory.row_hospital_id hospital = Some hid)
  /\ (forall hospital,
        Inventory.row_hospital_id hospital = Some hid -> hid <> "" ->
        Inventory._load_inventory (inventory_array ++ [hospital]) !! hid
        = Some (Inventory.entry_of hid hospital))
  /\ (forall info,
        Inventory._load_inventory inventory_array !! hid = Some info ->
        (exists hospital,
           In hospital inventory_array
           /\ Inventory.row_hospital_id hospital = Some hid
           /\ info = Inventory.entry_of hid hospital)
        /\ (info_type info = "Municipal" \/ info_type info = "Private"
            \/ info_type info = "Unknown")
        /\ (forall supply_name,
              is_Some (inventory info !! supply_name)
              <-> In supply_name
                     (map fst ResourceMappings.SUPPLY_REQUIREMENTS))).
Proof.
  unfold Inventory._load_inventory.
  assert (Hlook : forall info,
            fold_left Inventory.load_row inventory_array ∅ !! hid = Some info ->
            hid <> ""
            /\ exists hospital,
                 In hospital inventory_array
                 /\ Inventory.row_hospital_id hospital = Some hid
                 /\ info = Inventory.entry_of hid hospital).
  { induction inventory_array as [| hospital rows IH] using rev_ind;
      intros info H.
    - cbn [fold_left] in H. rewrite lookup_empty in H. discriminate.
    - rewrite fold_left_app in H. cbn [fold_left] in H.
      rewrite load_row_lookup in H.
      destruct (decide _) as [[Hid Hne] | Hno].
      + injection H as <-. split; [exact Hne |]. exists hospital.
        split; [apply in_app_iff; right; now left | auto].
      + destruct (IH info H) as (Hne & h & Hin & Hid & ->).
        split; [exact Hne |]. exists h.
        split; [apply in_app_iff; now left | auto]. }
  split; [| split].
  - split.
    + intros [info H]. destruct (Hlook info H) as (Hne & h & Hin & Hid & _).
      eauto.
    + intros (Hne & h & Hin & Hid).
      clear Hlook. induction inventory_array as [| hospital rows IH]
        using rev_ind; [destruct Hin |].
      rewrite fold_left_app. cbn [fold_left]. rewrite load_row_lookup.
      destruct (decide _) as [_ | Hno]; [eauto |].
      apply IH. apply in_app_iff in Hin as [Hin | [<- | []]]; [exact Hin |].
      exfalso. apply Hno. auto.
  - intros hospital Hid Hne. rewrite fold_left_app. cbn [fold_left].
    rewrite load_row_lookup. now rewrite decide_True.
  - intros info H. destruct (Hlook info H) as (Hne & h & Hin & Hid & ->).
    split; [eauto |]. split.
    + cbn [Inventory.entry_of info_type].
      destruct (HospitalMappings.HOSPITAL_TYPES !! hid) as [ty |] eqn:E;
        simpl; [| tauto].
      apply elem_of_list_to_map_2 in E.
      repeat (apply elem_of_cons in E as [E | E];
              [injection E as _ ->; tauto |]).
      now apply elem_of_nil in E.
    + intros supply_name. cbn [Inventory.entry_of inventory].
      rewrite list_to_map_is_Some, map_map. reflexivity.
Qed.
